(** * Video view lifecycle of the calling stateful client

    A shallow embedding of
    [packages/calling-stateful-client/src/StreamUtils.ts] (creation and
    disposal of video renderer views against the render registry and the
    state store) and of the [getDeviceManager] trap of [ProxyCallClient] in
    [packages/calling-stateful-client/src/StatefulCallClient.ts].

    JavaScript runs these functions on one thread.  An [async] function runs
    without interruption up to its [await]; it is written here as two
    functions over an explicit world: the part before the [await], which
    returns the suspended call's captured locals, and the part after it,
    which takes the outcome of the awaited SDK call.  Anything may run on
    the world between the two. *)

From stdpp Require Import base strings gmap list.
From Stdlib Require Import ZArith.

Open Scope string_scope.

(** ** JavaScript values *)

(** A thrown value: [new Error(message)] or whatever the SDK rejects with. *)
Inductive JsError : Type :=
  | Error (message : string).

(** [callId && ...] on a [string | undefined]: the empty string is falsy. *)
Definition truthyString (s : option string) : option string :=
  match s with
  | Some x => if decide (x = "") then None else Some x
  | None => None
  end.

(** ** What the calling SDK and the sibling modules provide *)

Inductive MediaStreamType : Type :=
  | Video
  | ScreenSharing.

Record VideoDeviceInfo : Type := mkVideoDeviceInfo {
  deviceName : string;
  deviceId : string
}.

(** The SDK's [RemoteVideoStream] and [LocalVideoStream] objects. *)
Record RemoteVideoStream : Type := mkRemoteVideoStream {
  sdkId : Z;
  sdkRemoteMediaStreamType : MediaStreamType;
  sdkIsAvailable : bool
}.

Record LocalVideoStream : Type := mkLocalVideoStream {
  sdkSource : VideoDeviceInfo;
  sdkLocalMediaStreamType : MediaStreamType
}.

Inductive SdkVideoStream : Type :=
  | SdkLocal (s : LocalVideoStream)
  | SdkRemote (s : RemoteVideoStream).

(** [CreateViewOptions] of the SDK. *)
Inductive ScalingMode : Type :=
  | Stretch
  | Crop
  | Fit.

Record CreateViewOptions : Type := mkCreateViewOptions {
  isMirrored : option bool;
  scalingMode : option ScalingMode
}.

(** A [VideoStreamRenderer] object: [rendererId] is its identity, given by
    the allocation counter of the world at [new VideoStreamRenderer(stream)]. *)
Record VideoStreamRenderer : Type := mkVideoStreamRenderer {
  rendererId : nat;
  rendererStream : SdkVideoStream
}.

(** Types and functions the source imports from outside the repository's
    [src/] tree and uses as black boxes. *)
Class Imports : Type := {
  (** [CommunicationIdentifierKind] of [@azure/communication-common]. *)
  CommunicationIdentifierKind : Type;
  (** [toFlatCommunicationIdentifier] of [@internal/acs-ui-common]. *)
  toFlatCommunicationIdentifier : CommunicationIdentifierKind → string;
  (** The SDK's [VideoStreamRendererView] and its declarative mirror. *)
  VideoStreamRendererView : Type;
  VideoStreamRendererViewState : Type;
  (** [convertFromSDKToDeclarativeVideoStreamRendererView] of [./Converter]. *)
  convertFromSDKToDeclarativeVideoStreamRendererView :
    VideoStreamRendererView → VideoStreamRendererViewState;
  (** The SDK's [DeviceManager] objects, which [===] compares by reference. *)
  DeviceManager : Type;
  DeviceManager_eq_dec :: EqDecision DeviceManager
}.

(** The lifecycle status of one binding of a stream to a renderer. *)
Inductive RenderStatus : Type :=
  | NotRendered
  | Rendering
  | Rendered
  | Stopping.

#[global] Instance RenderStatus_eq_dec : EqDecision RenderStatus.
Proof. solve_decision. Defined.

(** [RemoteRenderInfo] and [LocalRenderInfo]: the [stream], the [status] and
    the optional [renderer] of one binding. *)
Record RenderInfo (Stream : Type) : Type := mkRenderInfo {
  riStream : Stream;
  riStatus : RenderStatus;
  riRenderer : option VideoStreamRenderer
}.
Arguments mkRenderInfo {Stream} _ _ _.
Arguments riStream {Stream} _.
Arguments riStatus {Stream} _.
Arguments riRenderer {Stream} _.

Section StreamUtils.
Context `{Imports}.

(** ** Declarative stream states ([./CallClientState]) *)

(** [RemoteVideoStreamState]: it has an [id] property. *)
Record RemoteVideoStreamState : Type := mkRemoteVideoStreamState {
  id : Z;
  remoteMediaStreamType : MediaStreamType;
  isAvailable : bool;
  remoteView : option VideoStreamRendererViewState
}.

(** [LocalVideoStreamState]: it has no [id] property.  [localRef] is the
    identity of the JavaScript object, which is what a [Map] keyed by the
    object compares. *)
Record LocalVideoStreamState : Type := mkLocalVideoStreamState {
  localRef : nat;
  source : VideoDeviceInfo;
  localMediaStreamType : MediaStreamType;
  localView : option VideoStreamRendererViewState
}.

(** The [stream] argument, [LocalVideoStreamState | RemoteVideoStreamState];
    ['id' in stream] holds of the second alternative only. *)
Inductive StreamState : Type :=
  | LocalStream (s : LocalVideoStreamState)
  | RemoteStream (s : RemoteVideoStreamState).

(** The [participantId] argument, [CommunicationIdentifierKind | string]. *)
Inductive ParticipantId : Type :=
  | ParticipantKey (key : string)
  | ParticipantKind (kind : CommunicationIdentifierKind).

(** [... && participantId]: an object is truthy, a string unless empty. *)
Definition truthyParticipant (p : option ParticipantId) : option ParticipantId :=
  match p with
  | Some (ParticipantKey key) =>
      if decide (key = "") then None else Some (ParticipantKey key)
  | Some (ParticipantKind kind) => Some (ParticipantKind kind)
  | None => None
  end.

(** Modelled from the spec: [convertSdkRemoteStreamToDeclarativeRemoteStream]
    of [./Converter], which is not among the sources.  Bulk disposal
    "reconstructs a minimal stream-shaped handle from recorded render-info":
    the handle carries the SDK stream's own identifier and no view. *)
Definition convertSdkRemoteStreamToDeclarativeRemoteStream
    (stream : RemoteVideoStream) : RemoteVideoStreamState :=
  {| id := sdkId stream;
     remoteMediaStreamType := sdkRemoteMediaStreamType stream;
     isAvailable := sdkIsAvailable stream;
     remoteView := None |}.

(** Modelled from the spec: [convertSdkLocalStreamToDeclarativeLocalStream]
    of [./Converter], which is not among the sources.  The minimal
    stream-shaped handle of a local stream has no [id]; it is a new object,
    whose identity [ref] the caller takes from the world. *)
Definition convertSdkLocalStreamToDeclarativeLocalStream
    (ref : nat) (stream : LocalVideoStream) : LocalVideoStreamState :=
  {| localRef := ref;
     source := sdkSource stream;
     localMediaStreamType := sdkLocalMediaStreamType stream;
     localView := None |}.

(** ** The render registry ([InternalCallContext]) *)

Definition RemoteRenderInfo : Type := RenderInfo RemoteVideoStream.
Definition LocalRenderInfo : Type := RenderInfo LocalVideoStream.

(** Modelled from the spec: the class [InternalCallContext], which is not
    among the sources.  "Three independent lookup structures":
    remote-stream-by-(callId, participantKey, streamId) as a nested mapping
    call → participant → stream, local-stream-by-callId, and
    unparented-stream-by-identity.  A finite map holds at most one entry per
    key. *)
Record InternalCallContext : Type := mkInternalCallContext {
  remoteRenderInfos : gmap string (gmap string (gmap Z (RenderInfo RemoteVideoStream)));
  localRenderInfos : gmap string (RenderInfo LocalVideoStream);
  unparentedRenderInfos : gmap nat (RenderInfo LocalVideoStream)
}.

(** Modelled from the spec: "list all remote-stream entries for a call
    (grouped by participant)"; absent lookups return an empty result. *)
Definition getRemoteRenderInfoForCall (ic : InternalCallContext) (callId : string)
    : option (gmap string (gmap Z (RenderInfo RemoteVideoStream))) :=
  remoteRenderInfos ic !! callId.

(** Modelled from the spec: [get(key)] on the remote structure. *)
Definition getRemoteRenderInfoForParticipant (ic : InternalCallContext)
    (callId participantKey : string) (streamId : Z)
    : option (RenderInfo RemoteVideoStream) :=
  match remoteRenderInfos ic !! callId with
  | Some callRenderInfos =>
      match callRenderInfos !! participantKey with
      | Some participantRenderInfos => participantRenderInfos !! streamId
      | None => None
      end
  | None => None
  end.

(** Modelled from the spec: [set(key, stream, status, renderer)], an upsert
    that "replaces existing entry wholesale"; the nested mappings on the
    path are created when missing. *)
Definition setRemoteRenderInfo (callId participantKey : string) (streamId : Z)
    (stream : RemoteVideoStream) (status : RenderStatus)
    (renderer : option VideoStreamRenderer) (ic : InternalCallContext)
    : InternalCallContext :=
  let callRenderInfos := default ∅ (remoteRenderInfos ic !! callId) in
  let participantRenderInfos := default ∅ (callRenderInfos !! participantKey) in
  {| remoteRenderInfos :=
       <[callId := <[participantKey :=
           <[streamId := mkRenderInfo stream status renderer]> participantRenderInfos]>
         callRenderInfos]> (remoteRenderInfos ic);
     localRenderInfos := localRenderInfos ic;
     unparentedRenderInfos := unparentedRenderInfos ic |}.

Definition getLocalRenderInfo (ic : InternalCallContext) (callId : string)
    : option (RenderInfo LocalVideoStream) :=
  localRenderInfos ic !! callId.

Definition setLocalRenderInfo (callId : string) (stream : LocalVideoStream)
    (status : RenderStatus) (renderer : option VideoStreamRenderer)
    (ic : InternalCallContext) : InternalCallContext :=
  {| remoteRenderInfos := remoteRenderInfos ic;
     localRenderInfos := <[callId := mkRenderInfo stream status renderer]> (localRenderInfos ic);
     unparentedRenderInfos := unparentedRenderInfos ic |}.

Definition getUnparentedRenderInfo (ic : InternalCallContext)
    (localVideoStream : LocalVideoStreamState) : option (RenderInfo LocalVideoStream) :=
  unparentedRenderInfos ic !! localRef localVideoStream.

Definition setUnparentedRenderInfo (localVideoStream : LocalVideoStreamState)
    (stream : LocalVideoStream) (status : RenderStatus)
    (renderer : option VideoStreamRenderer) (ic : InternalCallContext)
    : InternalCallContext :=
  {| remoteRenderInfos := remoteRenderInfos ic;
     localRenderInfos := localRenderInfos ic;
     unparentedRenderInfos :=
       <[localRef localVideoStream := mkRenderInfo stream status renderer]>
         (unparentedRenderInfos ic) |}.

(** Modelled from the spec: [delete(key)]; "the Registry does not dispose
    resources itself". *)
Definition deleteUnparentedRenderInfo (localVideoStream : LocalVideoStreamState)
    (ic : InternalCallContext) : InternalCallContext :=
  {| remoteRenderInfos := remoteRenderInfos ic;
     localRenderInfos := localRenderInfos ic;
     unparentedRenderInfos := delete (localRef localVideoStream) (unparentedRenderInfos ic) |}.

(** ** The state store ([CallContext]) *)

(** Modelled from the spec: the snapshot held by the class [CallContext],
    which is not among the sources, cut down to the view slots that
    [StreamUtils] writes.  A key is present where the snapshot has the call,
    the participant and the stream; the value is the published view, if any.
    [latestErrors] is the log of errors "keyed by operation name". *)
Record CallClientState : Type := mkCallClientState {
  remoteViews : gmap string (gmap string (gmap Z (option VideoStreamRendererViewState)));
  localViews : gmap string (option VideoStreamRendererViewState);
  unparentedViews : gmap nat VideoStreamRendererViewState;
  latestErrors : gmap string JsError
}.

(** The slot the snapshot has for a remote stream of a participant of a
    call: absent when the call, the participant or the stream is not in the
    snapshot, else the published view, if any. *)
Definition remoteSlot (st : CallClientState) (callId participantKey : string)
    (streamId : Z) : option (option VideoStreamRendererViewState) :=
  match remoteViews st !! callId with
  | Some participants =>
      match participants !! participantKey with
      | Some streams => streams !! streamId
      | None => None
      end
  | None => None
  end.

(** The view the snapshot shows for a remote stream of a participant of a call. *)
Definition remoteViewOf (st : CallClientState) (callId participantKey : string)
    (streamId : Z) : option VideoStreamRendererViewState :=
  default None (remoteSlot st callId participantKey streamId).

Definition localViewOf (st : CallClientState) (callId : string)
    : option VideoStreamRendererViewState :=
  default None (localViews st !! callId).

Definition unparentedViewOf (st : CallClientState) (localVideoStream : LocalVideoStreamState)
    : option VideoStreamRendererViewState :=
  unparentedViews st !! localRef localVideoStream.

(** Modelled from the spec: the setters "must be no-ops (not throw) if the
    call/participant/stream no longer exists in the snapshot". *)
Definition setRemoteVideoStreamRendererView (callId participantKey : string)
    (streamId : Z) (view : option VideoStreamRendererViewState)
    (st : CallClientState) : CallClientState :=
  match remoteViews st !! callId with
  | Some participants =>
      match participants !! participantKey with
      | Some streams =>
          match streams !! streamId with
          | Some _ =>
              {| remoteViews :=
                   <[callId := <[participantKey := <[streamId := view]> streams]> participants]>
                     (remoteViews st);
                 localViews := localViews st;
                 unparentedViews := unparentedViews st;
                 latestErrors := latestErrors st |}
          | None => st
          end
      | None => st
      end
  | None => st
  end.

Definition setLocalVideoStreamRendererView (callId : string)
    (view : option VideoStreamRendererViewState) (st : CallClientState)
    : CallClientState :=
  match localViews st !! callId with
  | Some _ =>
      {| remoteViews := remoteViews st;
         localViews := <[callId := view]> (localViews st);
         unparentedViews := unparentedViews st;
         latestErrors := latestErrors st |}
  | None => st
  end.

(** Modelled from the spec: the view "attached ... to an unparented stream";
    an unparented stream has no owner in the snapshot, so the view is stored
    under the stream itself. *)
Definition setDeviceManagerUnparentedView (localVideoStream : LocalVideoStreamState)
    (view : VideoStreamRendererViewState) (st : CallClientState) : CallClientState :=
  {| remoteViews := remoteViews st;
     localViews := localViews st;
     unparentedViews := <[localRef localVideoStream := view]> (unparentedViews st);
     latestErrors := latestErrors st |}.

Definition deleteDeviceManagerUnparentedView (localVideoStream : LocalVideoStreamState)
    (st : CallClientState) : CallClientState :=
  {| remoteViews := remoteViews st;
     localViews := localViews st;
     unparentedViews := delete (localRef localVideoStream) (unparentedViews st);
     latestErrors := latestErrors st |}.

(** ** The world the lifecycle functions run on *)

(** [internalContext] and [context] are the two objects every function of
    [StreamUtils] receives.  [nextRendererId] counts the
    [new VideoStreamRenderer] calls made so far, [disposeCalls] counts the
    [dispose()] calls each renderer has received, [nextRef] counts the
    declarative stream objects made by the converters, and [console] is
    what [console.warn] printed, newest first.  The telemetry logger
    [callingStatefulLogger] is left out. *)
Record World : Type := mkWorld {
  internalContext : InternalCallContext;
  context : CallClientState;
  nextRendererId : nat;
  disposeCalls : gmap nat nat;
  nextRef : nat;
  console : list string
}.

Definition withInternalContext (f : InternalCallContext → InternalCallContext)
    (w : World) : World :=
  {| internalContext := f (internalContext w);
     context := context w;
     nextRendererId := nextRendererId w;
     disposeCalls := disposeCalls w;
     nextRef := nextRef w;
     console := console w |}.

Definition withContext (f : CallClientState → CallClientState) (w : World) : World :=
  {| internalContext := internalContext w;
     context := f (context w);
     nextRendererId := nextRendererId w;
     disposeCalls := disposeCalls w;
     nextRef := nextRef w;
     console := console w |}.

(** [console.warn(message)]. *)
Definition consoleWarn (message : string) (w : World) : World :=
  {| internalContext := internalContext w;
     context := context w;
     nextRendererId := nextRendererId w;
     disposeCalls := disposeCalls w;
     nextRef := nextRef w;
     console := message :: console w |}.

(** [new VideoStreamRenderer(stream)]. *)
Definition newVideoStreamRenderer (stream : SdkVideoStream) (w : World)
    : VideoStreamRenderer * World :=
  (mkVideoStreamRenderer (nextRendererId w) stream,
   {| internalContext := internalContext w;
      context := context w;
      nextRendererId := S (nextRendererId w);
      disposeCalls := disposeCalls w;
      nextRef := nextRef w;
      console := console w |}).

(** How many times [dispose()] was called on a renderer. *)
Definition disposeCount (w : World) (r : VideoStreamRenderer) : nat :=
  default 0 (disposeCalls w !! rendererId r).

(** [renderer.dispose()]. *)
Definition dispose (r : VideoStreamRenderer) (w : World) : World :=
  {| internalContext := internalContext w;
     context := context w;
     nextRendererId := nextRendererId w;
     disposeCalls := <[rendererId r := S (disposeCount w r)]> (disposeCalls w);
     nextRef := nextRef w;
     console := console w |}.

(** A new declarative stream object's identity. *)
Definition newRef (w : World) : nat * World :=
  (nextRef w,
   {| internalContext := internalContext w;
      context := context w;
      nextRendererId := nextRendererId w;
      disposeCalls := disposeCalls w;
      nextRef := S (nextRef w);
      console := console w |}).

(** ** Promises of [createView] *)

(** [CreateViewResult]. *)
Record CreateViewResult : Type := mkCreateViewResult {
  resultRenderer : VideoStreamRenderer;
  resultView : VideoStreamRendererView
}.

(** The locals a [createView...] call holds while it is suspended in
    [await renderer.createView(options)]. *)
Inductive Suspension : Type :=
  | AwaitRemote (callId participantKey : string) (streamId : Z)
      (renderInfoStream : RemoteVideoStream) (renderer : VideoStreamRenderer)
      (options : option CreateViewOptions)
  | AwaitLocal (callId : string) (renderInfoStream : LocalVideoStream)
      (renderer : VideoStreamRenderer) (options : option CreateViewOptions)
  | AwaitUnparented (stream : LocalVideoStreamState) (localVideoStream : LocalVideoStream)
      (renderer : VideoStreamRenderer) (options : option CreateViewOptions).

(** The state of the promise [createView] returned: fulfilled with a result
    or with [undefined], rejected with the thrown value, or still pending on
    the renderer creation. *)
Inductive CreateViewPromise : Type :=
  | Fulfilled (result : option CreateViewResult)
  | Rejected (e : JsError)
  | Pending (k : Suspension).

Definition pendingRenderer (k : Suspension) : VideoStreamRenderer :=
  match k with
  | AwaitRemote _ _ _ _ renderer _ => renderer
  | AwaitLocal _ _ renderer _ => renderer
  | AwaitUnparented _ _ renderer _ => renderer
  end.

(** ** [createViewRemoteVideo] *)

(** Lines 41 to 83: up to the [await]. *)
Definition createViewRemoteVideo (callId : string) (participantId : ParticipantId)
    (stream : RemoteVideoStreamState) (options : option CreateViewOptions)
    (w : World) : CreateViewPromise * World :=
  let streamId := id stream in
  let participantKey :=
    match participantId with
    | ParticipantKey key => key
    | ParticipantKind kind => toFlatCommunicationIdentifier kind
    end in
  match getRemoteRenderInfoForParticipant (internalContext w) callId participantKey streamId with
  | None => (Fulfilled None, consoleWarn "RemoteVideoStream not found in state" w)
  | Some renderInfo =>
      if decide (riStatus renderInfo = Rendered) then
        (Fulfilled None, consoleWarn "RemoteVideoStream is already rendered" w)
      else if decide (riStatus renderInfo = Rendering) then
        (Fulfilled None, w)
      else if decide (riStatus renderInfo = Stopping) then
        (Fulfilled None, consoleWarn "RemoteVideoStream is in the middle of stopping" w)
      else
        let (renderer, w) := newVideoStreamRenderer (SdkRemote (riStream renderInfo)) w in
        let w := withInternalContext
                   (setRemoteRenderInfo callId participantKey streamId
                      (riStream renderInfo) Rendering None) w in
        (Pending (AwaitRemote callId participantKey streamId (riStream renderInfo)
                    renderer options), w)
  end.

(** Lines 84 to 137: from the [await] on; [created] is what
    [renderer.createView(options)] settled with. *)
Definition resumeCreateViewRemoteVideo (callId participantKey : string) (streamId : Z)
    (renderInfoStream : RemoteVideoStream) (renderer : VideoStreamRenderer)
    (created : VideoStreamRendererView + JsError) (w : World)
    : CreateViewPromise * World :=
  match created with
  | inr e =>
      (Rejected e,
       withInternalContext
         (setRemoteRenderInfo callId participantKey streamId renderInfoStream
            NotRendered None) w)
  | inl view =>
      match getRemoteRenderInfoForParticipant (internalContext w) callId participantKey streamId with
      | None =>
          let w := dispose renderer w in
          let w := withContext
                     (setRemoteVideoStreamRendererView callId participantKey streamId None) w in
          (Fulfilled None, w)
      | Some refreshedRenderInfo =>
          if decide (riStatus refreshedRenderInfo = Stopping) then
            let w := dispose renderer w in
            let w := withInternalContext
                       (setRemoteRenderInfo callId participantKey streamId
                          (riStream refreshedRenderInfo) NotRendered None) w in
            let w := withContext
                       (setRemoteVideoStreamRendererView callId participantKey streamId None) w in
            (Fulfilled None, w)
          else
            let w := withInternalContext
                       (setRemoteRenderInfo callId participantKey streamId
                          (riStream refreshedRenderInfo) Rendered (Some renderer)) w in
            let w := withContext
                       (setRemoteVideoStreamRendererView callId participantKey streamId
                          (Some (convertFromSDKToDeclarativeVideoStreamRendererView view))) w in
            (Fulfilled (Some (mkCreateViewResult renderer view)), w)
      end
  end.

(** ** [createViewLocalVideo] *)

(** Lines 148 to 181: up to the [await]. *)
Definition createViewLocalVideo (callId : string) (options : option CreateViewOptions)
    (w : World) : CreateViewPromise * World :=
  match getLocalRenderInfo (internalContext w) callId with
  | None => (Fulfilled None, consoleWarn "LocalVideoStream not found in state" w)
  | Some renderInfo =>
      if decide (riStatus renderInfo = Rendered) then
        (Fulfilled None, consoleWarn "LocalVideoStream is already rendered" w)
      else if decide (riStatus renderInfo = Rendering) then
        (Fulfilled None, w)
      else if decide (riStatus renderInfo = Stopping) then
        (Fulfilled None, consoleWarn "LocalVideoStream is in the middle of stopping" w)
      else
        let (renderer, w) := newVideoStreamRenderer (SdkLocal (riStream renderInfo)) w in
        let w := withInternalContext
                   (setLocalRenderInfo callId (riStream renderInfo) Rendering (Some renderer)) w in
        (Pending (AwaitLocal callId (riStream renderInfo) renderer options), w)
  end.

(** Lines 182 to 219: from the [await] on. *)
Definition resumeCreateViewLocalVideo (callId : string)
    (renderInfoStream : LocalVideoStream) (renderer : VideoStreamRenderer)
    (created : VideoStreamRendererView + JsError) (w : World)
    : CreateViewPromise * World :=
  match created with
  | inr e =>
      (Rejected e,
       withInternalContext (setLocalRenderInfo callId renderInfoStream NotRendered None) w)
  | inl view =>
      match getLocalRenderInfo (internalContext w) callId with
      | None =>
          let w := dispose renderer w in
          let w := withContext (setLocalVideoStreamRendererView callId None) w in
          (Fulfilled None, w)
      | Some refreshedRenderInfo =>
          if decide (riStatus refreshedRenderInfo = Stopping) then
            let w := dispose renderer w in
            let w := withInternalContext
                       (setLocalRenderInfo callId (riStream refreshedRenderInfo)
                          NotRendered None) w in
            let w := withContext (setLocalVideoStreamRendererView callId None) w in
            (Fulfilled None, w)
          else
            let w := withInternalContext
                       (setLocalRenderInfo callId (riStream refreshedRenderInfo)
                          Rendered (Some renderer)) w in
            let w := withContext
                       (setLocalVideoStreamRendererView callId
                          (Some (convertFromSDKToDeclarativeVideoStreamRendererView view))) w in
            (Fulfilled (Some (mkCreateViewResult renderer view)), w)
      end
  end.

(** ** [createViewUnparentedVideo] *)

(** Lines 228 to 253: up to the [await].  An absent entry passes all three
    guards. *)
Definition createViewUnparentedVideo (stream : LocalVideoStreamState)
    (options : option CreateViewOptions) (w : World) : CreateViewPromise * World :=
  let renderInfo := getUnparentedRenderInfo (internalContext w) stream in
  if decide (riStatus <$> renderInfo = Some Rendered) then
    (Fulfilled None, consoleWarn "Unparented LocalVideoStream is already rendered" w)
  else if decide (riStatus <$> renderInfo = Some Rendering) then
    (Fulfilled None, w)
  else if decide (riStatus <$> renderInfo = Some Stopping) then
    (Fulfilled None, consoleWarn "Unparented LocalVideoStream is in the middle of stopping" w)
  else
    let localVideoStream := mkLocalVideoStream (source stream) Video in
    let (renderer, w) := newVideoStreamRenderer (SdkLocal localVideoStream) w in
    let w := withInternalContext
               (setUnparentedRenderInfo stream localVideoStream Rendering None) w in
    (Pending (AwaitUnparented stream localVideoStream renderer options), w).

(** Lines 254 to 291: from the [await] on.  The [Stopping] branch (lines 274
    to 281) makes no [dispose] call. *)
Definition resumeCreateViewUnparentedVideo (stream : LocalVideoStreamState)
    (localVideoStream : LocalVideoStream) (renderer : VideoStreamRenderer)
    (created : VideoStreamRendererView + JsError) (w : World)
    : CreateViewPromise * World :=
  match created with
  | inr e => (Rejected e, withInternalContext (deleteUnparentedRenderInfo stream) w)
  | inl view =>
      match getUnparentedRenderInfo (internalContext w) stream with
      | None =>
          let w := dispose renderer w in
          let w := withContext (deleteDeviceManagerUnparentedView stream) w in
          (Fulfilled None, w)
      | Some refreshedRenderInfo =>
          if decide (riStatus refreshedRenderInfo = Stopping) then
            let w := withInternalContext (deleteUnparentedRenderInfo stream) w in
            let w := withContext (deleteDeviceManagerUnparentedView stream) w in
            (Fulfilled None, w)
          else
            let w := withInternalContext
                       (setUnparentedRenderInfo stream localVideoStream
                          Rendered (Some renderer)) w in
            let w := withContext
                       (setDeviceManagerUnparentedView stream
                          (convertFromSDKToDeclarativeVideoStreamRendererView view)) w in
            (Fulfilled (Some (mkCreateViewResult renderer view)), w)
      end
  end.

(** The continuation of a suspended call, whichever function it was in. *)
Definition resumeCreateView (k : Suspension)
    (created : VideoStreamRendererView + JsError) (w : World)
    : CreateViewPromise * World :=
  match k with
  | AwaitRemote callId participantKey streamId renderInfoStream renderer _ =>
      resumeCreateViewRemoteVideo callId participantKey streamId renderInfoStream
        renderer created w
  | AwaitLocal callId renderInfoStream renderer _ =>
      resumeCreateViewLocalVideo callId renderInfoStream renderer created w
  | AwaitUnparented stream localVideoStream renderer _ =>
      resumeCreateViewUnparentedVideo stream localVideoStream renderer created w
  end.

(** ** The three [disposeView...] functions *)

Definition disposeIfHeld (renderer : option VideoStreamRenderer) (w : World) : World :=
  match renderer with
  | Some r => dispose r w
  | None => w
  end.

Definition disposeViewRemoteVideo (callId : string) (participantId : ParticipantId)
    (stream : RemoteVideoStreamState) (w : World) : World :=
  let streamId := id stream in
  let participantKey :=
    match participantId with
    | ParticipantKey key => key
    | ParticipantKind kind => toFlatCommunicationIdentifier kind
    end in
  let w := withContext
             (setRemoteVideoStreamRendererView callId participantKey streamId None) w in
  match getRemoteRenderInfoForParticipant (internalContext w) callId participantKey streamId with
  | None => w
  | Some renderInfo =>
      let w :=
        if decide (riStatus renderInfo = Rendering) then
          withInternalContext
            (setRemoteRenderInfo callId participantKey streamId (riStream renderInfo)
               Stopping None) w
        else
          withInternalContext
            (setRemoteRenderInfo callId participantKey streamId (riStream renderInfo)
               NotRendered None) w in
      disposeIfHeld (riRenderer renderInfo) w
  end.

Definition disposeViewLocalVideo (callId : string) (w : World) : World :=
  let w := withContext (setLocalVideoStreamRendererView callId None) w in
  match getLocalRenderInfo (internalContext w) callId with
  | None => w
  | Some renderInfo =>
      let w :=
        if decide (riStatus renderInfo = Rendering) then
          withInternalContext (setLocalRenderInfo callId (riStream renderInfo) Stopping None) w
        else
          withInternalContext (setLocalRenderInfo callId (riStream renderInfo) NotRendered None) w in
      disposeIfHeld (riRenderer renderInfo) w
  end.

Definition disposeViewUnparentedVideo (stream : LocalVideoStreamState) (w : World) : World :=
  let w := withContext (deleteDeviceManagerUnparentedView stream) w in
  match getUnparentedRenderInfo (internalContext w) stream with
  | None => w
  | Some renderInfo =>
      let w :=
        if decide (riStatus renderInfo = Rendering) then
          withInternalContext
            (setUnparentedRenderInfo stream (riStream renderInfo) Stopping None) w
        else
          withInternalContext (deleteUnparentedRenderInfo stream) w in
      disposeIfHeld (riRenderer renderInfo) w
  end.

(** ** The exported entry points *)

Definition createView (callId : option string) (participantId : option ParticipantId)
    (stream : StreamState) (options : option CreateViewOptions) (w : World)
    : CreateViewPromise * World :=
  match stream, truthyString callId, truthyParticipant participantId with
  | RemoteStream stream, Some callId, Some participantId =>
      createViewRemoteVideo callId participantId stream options w
  | LocalStream _, Some callId, _ =>
      createViewLocalVideo callId options w
  | LocalStream stream, None, _ =>
      createViewUnparentedVideo stream options w
  | RemoteStream _, _, _ =>
      (Fulfilled None, consoleWarn "Invalid combination of parameters" w)
  end.

Definition disposeView (callId : option string) (participantId : option ParticipantId)
    (stream : StreamState) (w : World) : World :=
  match stream, truthyString callId, truthyParticipant participantId with
  | RemoteStream stream, Some callId, Some participantId =>
      disposeViewRemoteVideo callId participantId stream w
  | LocalStream _, Some callId, _ =>
      disposeViewLocalVideo callId w
  | LocalStream stream, None, _ =>
      disposeViewUnparentedVideo stream w
  | RemoteStream _, _, _ =>
      consoleWarn "Invalid combination of parameters" w
  end.

(** ** [disposeAllViewsFromCall] *)

(** One turn of the inner [for ... of participantStreams.entries()] loop.  A
    [Map] iterator is live: the entry is read when it is visited. *)
Definition disposeRemoteEntry (callId participantKey : string) (streamKey : Z)
    (w : World) : World :=
  match getRemoteRenderInfoForParticipant (internalContext w) callId participantKey streamKey with
  | Some remoteStreamAndRenderer =>
      disposeView (Some callId) (Some (ParticipantKey participantKey))
        (RemoteStream
           (convertSdkRemoteStreamToDeclarativeRemoteStream (riStream remoteStreamAndRenderer)))
        w
  | None => w
  end.

(** The inner [Map] of a participant of a call, [participantStreams] in the
    outer loop. *)
Definition participantStreamsOf (ic : InternalCallContext) (callId participantKey : string)
    : option (gmap Z (RenderInfo RemoteVideoStream)) :=
  match remoteRenderInfos ic !! callId with
  | Some callStreams => callStreams !! participantKey
  | None => None
  end.

(** The keys of the streams recorded for a participant of a call. *)
Definition participantStreamKeys (ic : InternalCallContext) (callId participantKey : string)
    : list Z :=
  match participantStreamsOf ic callId participantKey with
  | Some participantStreams => (map_to_list participantStreams).*1
  | None => []
  end.

(** One turn of the outer [for ... of callStreams.entries()] loop. *)
Definition disposeParticipantEntries (callId : string) (w : World) (participantKey : string)
    : World :=
  foldl (λ w streamKey, disposeRemoteEntry callId participantKey streamKey w)
        w (participantStreamKeys (internalContext w) callId participantKey).

(** The loops visit the keys the maps hold when they start, in the order
    the finite map lists them (a JavaScript [Map] lists them in insertion
    order), and read each entry from the world as it is when its turn
    comes.  No key is added or removed under the loops: [disposeView]
    writes only an entry it has just found. *)
Definition disposeAllViewsFromCall (callId : string) (w : World) : World :=
  let w :=
    match getRemoteRenderInfoForCall (internalContext w) callId with
    | Some callStreams =>
        foldl (disposeParticipantEntries callId) w (map_to_list callStreams).*1
    | None => w
    end in
  match getLocalRenderInfo (internalContext w) callId with
  | Some localStreamAndRenderer =>
      match riRenderer localStreamAndRenderer with
      | Some _ =>
          let (ref, w) := newRef w in
          disposeView (Some callId) None
            (LocalStream
               (convertSdkLocalStreamToDeclarativeLocalStream ref
                  (riStream localStreamAndRenderer)))
            w
      | None => w
      end
  | None => w
  end.

(** ** Render keys *)

(** The key a request is about: "call+participant+stream, or call+local, or
    unparented-stream-identity". *)
Inductive RenderKey : Type :=
  | RemoteKey (callId participantKey : string) (streamId : Z)
  | LocalKey (callId : string)
  | UnparentedKey (stream : LocalVideoStreamState).

Definition participantKeyOf (participantId : ParticipantId) : string :=
  match participantId with
  | ParticipantKey key => key
  | ParticipantKind kind => toFlatCommunicationIdentifier kind
  end.

(** The key [createView] and [disposeView] work on for given arguments, by
    the tests of their [if] chains; [None] on the last branch.  *)
Definition renderKeyOf (callId : option string) (participantId : option ParticipantId)
    (stream : StreamState) : option RenderKey :=
  match stream, truthyString callId, truthyParticipant participantId with
  | RemoteStream stream, Some callId, Some participantId =>
      Some (RemoteKey callId (participantKeyOf participantId) (id stream))
  | LocalStream _, Some callId, _ => Some (LocalKey callId)
  | LocalStream stream, None, _ => Some (UnparentedKey stream)
  | RemoteStream _, _, _ => None
  end.

Definition suspensionKey (k : Suspension) : RenderKey :=
  match k with
  | AwaitRemote callId participantKey streamId _ _ _ => RemoteKey callId participantKey streamId
  | AwaitLocal callId _ _ _ => LocalKey callId
  | AwaitUnparented stream _ _ _ => UnparentedKey stream
  end.

(** The status and the renderer handle the registry records for a key. *)
Definition registryStatus (ic : InternalCallContext) (key : RenderKey)
    : option RenderStatus :=
  match key with
  | RemoteKey callId participantKey streamId =>
      riStatus <$> getRemoteRenderInfoForParticipant ic callId participantKey streamId
  | LocalKey callId => riStatus <$> getLocalRenderInfo ic callId
  | UnparentedKey stream => riStatus <$> getUnparentedRenderInfo ic stream
  end.

Definition registryRenderer (ic : InternalCallContext) (key : RenderKey)
    : option VideoStreamRenderer :=
  match key with
  | RemoteKey callId participantKey streamId =>
      getRemoteRenderInfoForParticipant ic callId participantKey streamId ≫= riRenderer
  | LocalKey callId => getLocalRenderInfo ic callId ≫= riRenderer
  | UnparentedKey stream => getUnparentedRenderInfo ic stream ≫= riRenderer
  end.

(** The view the snapshot shows for a key. *)
Definition publishedView (st : CallClientState) (key : RenderKey)
    : option VideoStreamRendererViewState :=
  match key with
  | RemoteKey callId participantKey streamId => remoteViewOf st callId participantKey streamId
  | LocalKey callId => localViewOf st callId
  | UnparentedKey stream => unparentedViewOf st stream
  end.

(** What the dispose protocol leaves of an entry it finds: the same stream,
    no renderer handle, and [Stopping] where a creation was in flight. *)
Definition stoppedInfo {Stream : Type} (info : RenderInfo Stream) : RenderInfo Stream :=
  mkRenderInfo (riStream info)
    (if decide (riStatus info = Rendering) then Stopping else NotRendered) None.

(** How many of the handles in a list are the renderer numbered [n]. *)
Definition heldCount (n : nat) (held : list VideoStreamRenderer) : nat :=
  length (filter (λ r, rendererId r = n) held).

(** The renderer handles held by the registry entries of a participant of a
    call, and by all the entries of a call, its local one last. *)
Definition renderersHeldForParticipant (ic : InternalCallContext)
    (callId participantKey : string) : list VideoStreamRenderer :=
  omap (λ streamKey,
          getRemoteRenderInfoForParticipant ic callId participantKey streamKey ≫= riRenderer)
       (participantStreamKeys ic callId participantKey).

Definition renderersHeldForCall (ic : InternalCallContext) (callId : string)
    : list VideoStreamRenderer :=
  (match getRemoteRenderInfoForCall ic callId with
   | Some callStreams =>
       (map_to_list callStreams).*1 ≫= renderersHeldForParticipant ic callId
   | None => []
   end ++ option_list (getLocalRenderInfo ic callId ≫= riRenderer))%list.

(** ['id' in stream]. *)
Definition hasId (stream : StreamState) : Prop :=
  match stream with
  | RemoteStream _ => True
  | LocalStream _ => False
  end.

(** A call that leaves the registry, the store and the renderers as they
    were and whose promise is already fulfilled with [undefined]. *)
Definition returnsEmptyUntouched (r : CreateViewPromise * World) (w : World) : Prop :=
  r.1 = Fulfilled None ∧
  internalContext r.2 = internalContext w ∧
  context r.2 = context w ∧
  nextRendererId r.2 = nextRendererId w ∧
  disposeCalls r.2 = disposeCalls w.

(** ** [ProxyCallClient]: the [getDeviceManager] trap *)

(** A declarative device manager, the object that
    [deviceManagerDeclaratify(deviceManager, context)] returns.  It is a
    JavaScript object: [declarativeRef] is its identity, which tells the
    object of one call from the object of another, and [declaratified] is
    the SDK instance it was made for. *)
Record DeclarativeDeviceManager : Type := mkDeclarativeDeviceManager {
  declarativeRef : nat;
  declaratified : DeviceManager
}.

(** [./DeviceManagerDeclarative] is not among the sources.  Its function is
    handed the store; what it writes there is left open: the development
    holds for every [declaratifiedState]. *)
Class DeviceManagerDeclarative : Type := {
  declaratifiedState : DeviceManager → CallClientState → CallClientState
}.
Context {declarative : DeviceManagerDeclarative}.

(** The two private fields the trap reads and writes. *)
Record ProxyCallClient : Type := mkProxyCallClient {
  _deviceManager : option DeclarativeDeviceManager;
  _sdkDeviceManager : option DeviceManager
}.

(** [new ProxyCallClient(context, internalContext)]: both fields unset. *)
Definition newProxyCallClient : ProxyCallClient :=
  {| _deviceManager := None; _sdkDeviceManager := None |}.

(** What the trap runs on: the handler [this], the store that
    [this._context] holds, and the number of declarative device managers
    made so far. *)
Record ClientWorld : Type := mkClientWorld {
  proxyCallClient : ProxyCallClient;
  clientState : CallClientState;
  nextDeclarativeRef : nat
}.

(** Modelled from the spec: [deviceManagerDeclaratify] of
    [./DeviceManagerDeclarative], the "declaratify" pattern "wrapping nested
    SDK objects (... device manager)".  Every call makes a new wrapper
    object for the instance, with the store in hand; it is taken not to
    throw. *)
Definition deviceManagerDeclaratify (deviceManager : DeviceManager) (w : ClientWorld)
    : DeclarativeDeviceManager * ClientWorld :=
  ({| declarativeRef := nextDeclarativeRef w; declaratified := deviceManager |},
   {| proxyCallClient := proxyCallClient w;
      clientState := declaratifiedState deviceManager (clientState w);
      nextDeclarativeRef := S (nextDeclarativeRef w) |}).

(** An assignment to a field of [this]. *)
Definition withProxyCallClient (f : ProxyCallClient → ProxyCallClient) (w : ClientWorld)
    : ClientWorld :=
  {| proxyCallClient := f (proxyCallClient w);
     clientState := clientState w;
     nextDeclarativeRef := nextDeclarativeRef w |}.

Definition multipleDeviceManagerMessage : string :=
  "Multiple DeviceManager not supported. This means a incompatible version of communication-calling is " ++
  "used OR calling declarative was not properly updated to communication-calling version.".

(** The body of the [async] function of the trap, from the point where
    [await target.getDeviceManager()] has settled with [settled]; nothing of
    the body runs before that [await]. *)
Definition getDeviceManagerBody (settled : DeviceManager + JsError) (w : ClientWorld)
    : (option DeclarativeDeviceManager + JsError) * ClientWorld :=
  match settled with
  | inr e => (inr e, w)
  | inl deviceManager =>
      match _sdkDeviceManager (proxyCallClient w) with
      | Some sdkDeviceManager =>
          if decide (sdkDeviceManager = deviceManager) then
            (inl (_deviceManager (proxyCallClient w)), w)
          else
            (inr (Error multipleDeviceManagerMessage), w)
      | None =>
          let w := withProxyCallClient
                     (λ this, {| _deviceManager := _deviceManager this;
                                 _sdkDeviceManager := Some deviceManager |}) w in
          let (declarative, w) := deviceManagerDeclaratify deviceManager w in
          let w := withProxyCallClient
                     (λ this, {| _deviceManager := Some declarative;
                                 _sdkDeviceManager := _sdkDeviceManager this |}) w in
          (inl (_deviceManager (proxyCallClient w)), w)
      end
  end.

(** Modelled from the spec: [withAsyncErrorTeedToState] of [CallContext],
    which is not among the sources; "if it fails, records a structured error
    entry under [name] in the snapshot ... before the error is re-surfaced to
    the caller", one entry per name, last write wins. *)
Definition withAsyncErrorTeedToState {A : Type} (name : string)
    (outcome : A + JsError) (st : CallClientState) : (A + JsError) * CallClientState :=
  match outcome with
  | inl a => (inl a, st)
  | inr e =>
      (inr e,
       {| remoteViews := remoteViews st;
          localViews := localViews st;
          unparentedViews := unparentedViews st;
          latestErrors := <[name := e]> (latestErrors st) |})
  end.

(** One [getDeviceManager()] call on the stateful client, given what the
    SDK's own [getDeviceManager] settled with. *)
Definition getDeviceManager (settled : DeviceManager + JsError) (w : ClientWorld)
    : (option DeclarativeDeviceManager + JsError) * ClientWorld :=
  let (outcome, w) := getDeviceManagerBody settled w in
  let (outcome, st) :=
    withAsyncErrorTeedToState "CallClient.getDeviceManager" outcome (clientState w) in
  (outcome,
   {| proxyCallClient := proxyCallClient w;
      clientState := st;
      nextDeclarativeRef := nextDeclarativeRef w |}).

(** A sequence of calls, in the order in which their awaits settle. *)
Fixpoint getDeviceManagerCalls (settled : list (DeviceManager + JsError)) (w : ClientWorld)
    : list (option DeclarativeDeviceManager + JsError) * ClientWorld :=
  match settled with
  | [] => ([], w)
  | s :: rest =>
      let (outcome, w) := getDeviceManager s w in
      let (outcomes, w) := getDeviceManagerCalls rest w in
      (outcome :: outcomes, w)
  end.

(** What a [getDeviceManager] call answers once the client has cached the
    object [cached], given what the SDK settled with. *)
Definition deviceManagerAnswer (cached : DeclarativeDeviceManager)
    (settled : DeviceManager + JsError) : option DeclarativeDeviceManager + JsError :=
  match settled with
  | inl deviceManager =>
      if decide (deviceManager = declaratified cached) then inl (Some cached)
      else inr (Error multipleDeviceManagerMessage)
  | inr e => inr e
  end.

(** What the store is after a [getDeviceManager] call that found an
    instance cached: a failed call has left its error there. *)
Definition stateAfterAnswer (answer : option DeclarativeDeviceManager + JsError)
    (st : CallClientState) : CallClientState :=
  (withAsyncErrorTeedToState "CallClient.getDeviceManager" answer st).2.

End StreamUtils.

(** ** [withTelemetryTag] *)

(** The [diagnostics] options of the SDK's [CallClientOptions].  [tags] is a
    JavaScript array: the options hold a reference to it, and the arrays
    live in a heap that maps each reference to the elements of its array. *)
Record DiagnosticsOptions : Type := mkDiagnosticsOptions {
  appName : option string;
  appVersion : option string;
  tags : option nat
}.

(** [CallClientOptions]; the logger is an object the function only copies. *)
Record CallClientOptions : Type := mkCallClientOptions {
  logger : option nat;
  diagnostics : option DiagnosticsOptions
}.

(** [tags.push(element)] on the array at [ref]. *)
Definition arrayPush (ref : nat) (element : string) (heap : gmap nat (list string))
    : gmap nat (list string) :=
  alter (λ elements, elements ++ [element])%list ref heap.

(** [options?.diagnostics]. *)
Definition diagnosticsOf (options : option CallClientOptions) : option DiagnosticsOptions :=
  match options with
  | Some o => diagnostics o
  | None => None
  end.

(** [withTelemetryTag(options)].  [applicationId] is what
    [_getApplicationId()] of [@internal/acs-ui-common] returns.  The array
    [options?.diagnostics?.tags ?? []] is the caller's own array when there
    is one, and a new one otherwise; the push goes to that array, and the
    returned options refer to it. *)
Definition withTelemetryTag (applicationId : string) (options : option CallClientOptions)
    (heap : gmap nat (list string)) : CallClientOptions * gmap nat (list string) :=
  let (ref, heap) :=
    match from_option tags None (diagnosticsOf options) with
    | Some ref => (ref, heap)
    | None => (fresh (dom heap), <[fresh (dom heap) := []]> heap)
    end in
  let heap := arrayPush ref applicationId heap in
  ({| logger := from_option logger None options;
      diagnostics :=
        Some {| appName := from_option appName None (diagnosticsOf options);
                appVersion := from_option appVersion None (diagnosticsOf options);
                tags := Some ref |} |},
   heap).

(** The elements of the [tags] array some options refer to. *)
Definition tagsOf (options : option CallClientOptions) (heap : gmap nat (list string))
    : option (list string) :=
  match from_option tags None (diagnosticsOf options) with
  | Some ref => heap !! ref
  | None => None
  end.

(** * The rest of the two modules *)

Section Lifecycle.
Context `{Imports}.

(** Whether the snapshot has the place where the view of a key is shown;
    an unparented view needs none. *)
Definition hasSlot (st : CallClientState) (key : RenderKey) : Prop :=
  match key with
  | RemoteKey callId participantKey streamId =>
      is_Some (remoteSlot st callId participantKey streamId)
  | LocalKey callId => is_Some (localViews st !! callId)
  | UnparentedKey _ => True
  end.

(** Two registries agree on every entry other than that of [key]. *)
Definition registryAgreesOffKey (key : RenderKey) (ic ic' : InternalCallContext) : Prop :=
  (∀ callId participantKey streamId,
     key ≠ RemoteKey callId participantKey streamId →
     getRemoteRenderInfoForParticipant ic' callId participantKey streamId
     = getRemoteRenderInfoForParticipant ic callId participantKey streamId) ∧
  (∀ callId,
     key ≠ LocalKey callId →
     getLocalRenderInfo ic' callId = getLocalRenderInfo ic callId) ∧
  (∀ stream,
     (∀ stream', key = UnparentedKey stream' → localRef stream' ≠ localRef stream) →
     getUnparentedRenderInfo ic' stream = getUnparentedRenderInfo ic stream).

(** ** [disposeAllViews] *)

(** [internalContext.getCallIds()] belongs to [InternalCallContext], which is
    not among the sources; it is taken as the parameter [getCallIds].  The
    loop runs over the call ids it returns when the function starts. *)
Definition disposeAllViews (getCallIds : InternalCallContext → list string) (w : World)
    : World :=
  foldl (λ w callId, disposeAllViewsFromCall callId w) w (getCallIds (internalContext w)).

(** ** Interleavings *)

(** What can happen to the two contexts between the turns of the event loop:
    the application calls [createView] or [disposeView], or the renderer
    creation of a suspended [createView] settles and that call runs on. *)
Inductive LifecycleEvent : Type :=
  | CallCreateView (callId : option string) (participantId : option ParticipantId)
      (stream : StreamState) (options : option CreateViewOptions)
  | CallDisposeView (callId : option string) (participantId : option ParticipantId)
      (stream : StreamState)
  | SettleCreation (i : nat) (created : VideoStreamRendererView + JsError).

(** The world together with the [createView] calls that are suspended, oldest
    first. *)
Record Client : Type := mkClient {
  world : World;
  suspended : list Suspension
}.

Definition lifecycleStep (c : Client) (ev : LifecycleEvent) : Client :=
  match ev with
  | CallCreateView callId participantId stream options =>
      let (promise, w) := createView callId participantId stream options (world c) in
      match promise with
      | Pending k => mkClient w (suspended c ++ [k])
      | _ => mkClient w (suspended c)
      end
  | CallDisposeView callId participantId stream =>
      mkClient (disposeView callId participantId stream (world c)) (suspended c)
  | SettleCreation i created =>
      match suspended c !! i with
      | Some k =>
          mkClient (resumeCreateView k created (world c)).2 (delete i (suspended c))
      | None => c
      end
  end.

Definition lifecycleRun (c : Client) (evs : list LifecycleEvent) : Client :=
  foldl lifecycleStep c evs.

(** ** Invariants of the registry *)

(** An entry is [Rendered] exactly when it holds a renderer handle. *)
Definition renderedIffHeld {Stream : Type} (info : RenderInfo Stream) : Prop :=
  riStatus info = Rendered ↔ is_Some (riRenderer info).

(** Every remote entry and every unparented entry is [Rendered] exactly when
    it holds a renderer handle. *)
Definition remoteAndUnparentedConsistent (ic : InternalCallContext) : Prop :=
  (∀ callId participantKey streamId info,
     getRemoteRenderInfoForParticipant ic callId participantKey streamId = Some info →
     renderedIffHeld info) ∧
  (∀ stream info,
     getUnparentedRenderInfo ic stream = Some info → renderedIffHeld info).

(** An event that is not about the local stream of a call. *)
Definition notLocalInCall (ev : LifecycleEvent) : Prop :=
  match ev with
  | CallCreateView callId participantId stream _
  | CallDisposeView callId participantId stream =>
      ∀ c, renderKeyOf callId participantId stream ≠ Some (LocalKey c)
  | SettleCreation _ _ => True
  end.

(** The places of the registry where a remote or an unparented entry can
    sit; an unparented entry sits under the identity of its stream object. *)
Inductive EntrySlot : Type :=
  | RemoteEntry (callId participantKey : string) (streamId : Z)
  | UnparentedEntry (ref : nat).

#[global] Instance EntrySlot_eq_dec : EqDecision EntrySlot.
Proof. solve_decision. Defined.

(** The renderer handle the entry at a place holds. *)
Definition slotRenderer (ic : InternalCallContext) (slot : EntrySlot)
    : option VideoStreamRenderer :=
  match slot with
  | RemoteEntry callId participantKey streamId =>
      getRemoteRenderInfoForParticipant ic callId participantKey streamId ≫= riRenderer
  | UnparentedEntry ref => unparentedRenderInfos ic !! ref ≫= riRenderer
  end.

(** The numbers of the renderers the suspended calls have made. *)
Definition suspendedRendererIds (suspended : list Suspension) : list nat :=
  (λ k, rendererId (pendingRenderer k)) <$> suspended.

(** Nothing is rendered and nothing is in flight: no remote or unparented
    entry holds a renderer, no call is suspended and no renderer has been
    disposed. *)
Definition nothingRendered (c : Client) : Prop :=
  (∀ slot, slotRenderer (internalContext (world c)) slot = None) ∧
  suspended c = [] ∧
  disposeCalls (world c) = ∅.

(** Whether a suspended call is a [createViewLocalVideo]. *)
Definition isLocalSuspension (k : Suspension) : Prop :=
  match k with
  | AwaitLocal _ _ _ _ => True
  | _ => False
  end.

(** The place of the registry a key stands for, if it is not the local
    stream of a call. *)
Definition keySlot (key : RenderKey) : option EntrySlot :=
  match key with
  | RemoteKey callId participantKey streamId =>
      Some (RemoteEntry callId participantKey streamId)
  | LocalKey _ => None
  | UnparentedKey stream => Some (UnparentedEntry (localRef stream))
  end.

(** Who owns which renderer.  [held] tells the handle each place of the
    registry holds, [count] the [dispose] calls each renderer has received,
    [next] is the allocation counter and [calls] are the suspended calls.
    A renderer is in at most one place or with at most one suspended call,
    never both; such a renderer has not been disposed; and no renderer has
    been disposed twice. *)
Definition ownership (held : EntrySlot → option VideoStreamRenderer)
    (count : VideoStreamRenderer → nat) (next : nat) (calls : list Suspension) : Prop :=
  (∀ k, k ∈ calls → ¬ isLocalSuspension k) ∧
  (∀ slot r, held slot = Some r →
     count r = 0 ∧ (rendererId r < next)%nat ∧ rendererId r ∉ suspendedRendererIds calls) ∧
  (∀ slot slot' r r', held slot = Some r → held slot' = Some r' →
     rendererId r = rendererId r' → slot = slot') ∧
  (∀ k, k ∈ calls →
     count (pendingRenderer k) = 0 ∧ (rendererId (pendingRenderer k) < next)%nat) ∧
  NoDup (suspendedRendererIds calls) ∧
  (∀ r, (count r ≤ 1)%nat) ∧
  (∀ r, (next ≤ rendererId r)%nat → count r = 0) ∧
  (∀ r r', rendererId r = rendererId r' → count r = count r').

Definition rendererOwnership (c : Client) : Prop :=
  ownership (slotRenderer (internalContext (world c))) (disposeCount (world c))
    (nextRendererId (world c)) (suspended c).

(** ** What bulk disposal is stated with *)

(** Every registry entry that does not belong to call [callId] is the same
    in [ic'] as in [ic]. *)
Definition otherCallsUntouched (callId : string) (ic ic' : InternalCallContext) : Prop :=
  (∀ callId' participantKey streamId,
     callId' ≠ callId →
     getRemoteRenderInfoForParticipant ic' callId' participantKey streamId
     = getRemoteRenderInfoForParticipant ic callId' participantKey streamId) ∧
  (∀ callId', callId' ≠ callId →
     getLocalRenderInfo ic' callId' = getLocalRenderInfo ic callId') ∧
  (∀ stream, getUnparentedRenderInfo ic' stream = getUnparentedRenderInfo ic stream).

(** The remote entries of a call sit under non-empty participant keys and
    under the identifier of their own stream. *)
Definition keyedByStreamId (ic : InternalCallContext) (callId : string) : Prop :=
  ∀ participantKey streamKey info,
    getRemoteRenderInfoForParticipant ic callId participantKey streamKey = Some info →
    participantKey ≠ "" ∧ sdkId (riStream info) = streamKey.

(** No entry of a call, remote or local, holds a renderer handle. *)
Definition callHoldsNoRenderer (ic : InternalCallContext) (callId : string) : Prop :=
  (∀ participantKey streamId,
     registryRenderer ic (RemoteKey callId participantKey streamId) = None) ∧
  registryRenderer ic (LocalKey callId) = None.

End Lifecycle.

(** ** Sample data *)

(** An instance of the imports to run the functions on: identifiers are
    already flat strings, views and device managers are numbered. *)
Definition sampleImports : Imports :=
  {| CommunicationIdentifierKind := string;
     toFlatCommunicationIdentifier := λ rawId, rawId;
     VideoStreamRendererView := nat;
     VideoStreamRendererViewState := nat;
     convertFromSDKToDeclarativeVideoStreamRendererView := λ view, view;
     DeviceManager := nat;
     DeviceManager_eq_dec := Nat.eq_dec |}.

Definition sampleCamera : VideoDeviceInfo :=
  {| deviceName := "camera"; deviceId := "camera:1" |}.

Definition sampleSdkRemoteStream : RemoteVideoStream :=
  {| sdkId := 1; sdkRemoteMediaStreamType := Video; sdkIsAvailable := true |}.

Definition sampleSdkLocalStream : LocalVideoStream :=
  {| sdkSource := sampleCamera; sdkLocalMediaStreamType := Video |}.

Definition sampleRemoteStreamState : @RemoteVideoStreamState sampleImports :=
  {| id := 1; remoteMediaStreamType := Video; isAvailable := true; remoteView := None |}.

Definition sampleLocalStreamState (ref : nat) : @LocalVideoStreamState sampleImports :=
  {| localRef := ref; source := sampleCamera; localMediaStreamType := Video;
     localView := None |}.

(** Call "c1" with participant "p1", whose stream 1 is known to the registry
    and to the snapshot, and with a local stream; nothing is rendered. *)
Definition sampleInternalContext : InternalCallContext :=
  {| remoteRenderInfos :=
       {[ "c1" := {[ "p1" := {[ 1%Z := mkRenderInfo sampleSdkRemoteStream NotRendered None ]} ]} ]};
     localRenderInfos := {[ "c1" := mkRenderInfo sampleSdkLocalStream NotRendered None ]};
     unparentedRenderInfos := ∅ |}.

Definition sampleState : @CallClientState sampleImports :=
  {| remoteViews := {[ "c1" := {[ "p1" := {[ 1%Z := None ]} ]} ]};
     localViews := {[ "c1" := None ]};
     unparentedViews := ∅;
     latestErrors := ∅ |}.

Definition sampleWorld : @World sampleImports :=
  {| internalContext := sampleInternalContext;
     context := sampleState;
     nextRendererId := 0;
     disposeCalls := ∅;
     nextRef := 100;
     console := [] |}.

(** The renderer the first [new VideoStreamRenderer] of [sampleWorld] makes
    for each kind of stream. *)
Definition sampleRemoteRenderer : VideoStreamRenderer :=
  {| rendererId := 0; rendererStream := SdkRemote sampleSdkRemoteStream |}.

Definition sampleLocalRenderer : VideoStreamRenderer :=
  {| rendererId := 0; rendererStream := SdkLocal sampleSdkLocalStream |}.

(** The same call with both views up: the remote stream is rendered by
    renderer 0 and the local stream by renderer 1, and the snapshot shows
    views 7 and 8. *)
Definition sampleLocalRenderer1 : VideoStreamRenderer :=
  {| rendererId := 1; rendererStream := SdkLocal sampleSdkLocalStream |}.

Definition sampleRenderedWorld : @World sampleImports :=
  {| internalContext :=
       {| remoteRenderInfos :=
            {[ "c1" := {[ "p1" := {[ 1%Z := mkRenderInfo sampleSdkRemoteStream Rendered
                                             (Some sampleRemoteRenderer) ]} ]} ]};
          localRenderInfos :=
            {[ "c1" := mkRenderInfo sampleSdkLocalStream Rendered
                         (Some sampleLocalRenderer1) ]};
          unparentedRenderInfos := ∅ |};
     context :=
       {| remoteViews := {[ "c1" := {[ "p1" := {[ 1%Z := Some 7 ]} ]} ]};
          localViews := {[ "c1" := Some 8 ]};
          unparentedViews := ∅;
          latestErrors := ∅ |};
     nextRendererId := 2;
     disposeCalls := ∅;
     nextRef := 100;
     console := [] |}.

(** A world with a call whose identifier is the empty string: its local
    stream is rendered by renderer 1 with view 8, and the registry keeps an
    entry under the stream object 7, rendered by renderer 2 with view 9. *)
Definition sampleUnparentedRenderer : VideoStreamRenderer :=
  {| rendererId := 2; rendererStream := SdkLocal sampleSdkLocalStream |}.

Definition sampleEmptyCallIdWorld : @World sampleImports :=
  {| internalContext :=
       {| remoteRenderInfos := ∅;
          localRenderInfos :=
            {[ "" := mkRenderInfo sampleSdkLocalStream Rendered (Some sampleLocalRenderer1) ]};
          unparentedRenderInfos :=
            {[ 7 := mkRenderInfo sampleSdkLocalStream Rendered
                      (Some sampleUnparentedRenderer) ]} |};
     context :=
       {| remoteViews := ∅;
          localViews := {[ "" := Some 8 ]};
          unparentedViews := {[ 7 := 9 ]};
          latestErrors := ∅ |};
     nextRendererId := 3;
     disposeCalls := ∅;
     nextRef := 100;
     console := [] |}.

(** A [deviceManagerDeclaratify] that writes nothing to the store. *)
Definition sampleDeviceManagerDeclarative : @DeviceManagerDeclarative sampleImports :=
  {| declaratifiedState := λ _ st, st |}.

(** * Properties *)

Section Properties.
Context `{Imports}.

(** ** The registry as a map *)

Lemma getRemote_setRemote callId participantKey streamId stream status renderer ic :
  getRemoteRenderInfoForParticipant
    (setRemoteRenderInfo callId participantKey streamId stream status renderer ic)
    callId participantKey streamId
  = Some (mkRenderInfo stream status renderer).
Proof.
  unfold getRemoteRenderInfoForParticipant, setRemoteRenderInfo; simpl.
  by rewrite !lookup_insert_eq.
Qed.

Lemma getRemote_setRemote_ne callId participantKey streamId stream status renderer ic
    callId' participantKey' streamId' :
  (callId, participantKey, streamId) ≠ (callId', participantKey', streamId') →
  getRemoteRenderInfoForParticipant
    (setRemoteRenderInfo callId participantKey streamId stream status renderer ic)
    callId' participantKey' streamId'
  = getRemoteRenderInfoForParticipant ic callId' participantKey' streamId'.
Proof.
  intros Hne.
  unfold getRemoteRenderInfoForParticipant, setRemoteRenderInfo; simpl.
  destruct (decide (callId = callId')) as [<-|Hc].
  - rewrite lookup_insert_eq.
    destruct (decide (participantKey = participantKey')) as [<-|Hp].
    + rewrite lookup_insert_eq.
      rewrite lookup_insert_ne by congruence.
      destruct (remoteRenderInfos ic !! callId) as [pm|]; simpl; [|done].
      by destruct (pm !! participantKey).
    + rewrite lookup_insert_ne by done.
      by destruct (remoteRenderInfos ic !! callId).
  - by rewrite lookup_insert_ne.
Qed.

Lemma getLocal_setLocal callId stream status renderer ic :
  getLocalRenderInfo (setLocalRenderInfo callId stream status renderer ic) callId
  = Some (mkRenderInfo stream status renderer).
Proof. unfold getLocalRenderInfo, setLocalRenderInfo; simpl. by rewrite lookup_insert_eq. Qed.

Lemma getUnparented_setUnparented s stream status renderer ic :
  getUnparentedRenderInfo (setUnparentedRenderInfo s stream status renderer ic) s
  = Some (mkRenderInfo stream status renderer).
Proof.
  unfold getUnparentedRenderInfo, setUnparentedRenderInfo; simpl.
  by rewrite lookup_insert_eq.
Qed.

Lemma getUnparented_deleteUnparented s ic :
  getUnparentedRenderInfo (deleteUnparentedRenderInfo s ic) s = None.
Proof.
  unfold getUnparentedRenderInfo, deleteUnparentedRenderInfo; simpl.
  by rewrite lookup_delete_eq.
Qed.

(** ** The store's view slots *)

Lemma remoteViewOf_set callId participantKey streamId view st :
  remoteViewOf (setRemoteVideoStreamRendererView callId participantKey streamId view st)
    callId participantKey streamId
  = match remoteSlot st callId participantKey streamId with
    | Some _ => view
    | None => None
    end.
Proof.
  unfold remoteViewOf, remoteSlot, setRemoteVideoStreamRendererView.
  destruct (remoteViews st !! callId) as [pm|] eqn:Hc; simpl; [|by rewrite Hc].
  destruct (pm !! participantKey) as [sm|] eqn:Hp; simpl; [|by rewrite Hc, Hp].
  destruct (sm !! streamId) as [v|] eqn:Hs; simpl.
  - by rewrite !lookup_insert_eq.
  - by rewrite Hc, Hp, Hs.
Qed.

Lemma remoteViewOf_clear callId participantKey streamId st :
  remoteViewOf (setRemoteVideoStreamRendererView callId participantKey streamId None st)
    callId participantKey streamId = None.
Proof. rewrite remoteViewOf_set. by case_match. Qed.

Lemma localViewOf_set callId view st :
  localViewOf (setLocalVideoStreamRendererView callId view st) callId
  = match localViews st !! callId with
    | Some _ => view
    | None => None
    end.
Proof.
  unfold localViewOf, setLocalVideoStreamRendererView.
  destruct (localViews st !! callId) eqn:Hc; simpl.
  - by rewrite lookup_insert_eq.
  - by rewrite Hc.
Qed.

Lemma localViewOf_clear callId st :
  localViewOf (setLocalVideoStreamRendererView callId None st) callId = None.
Proof. rewrite localViewOf_set. by case_match. Qed.

(** ** Which function an entry point runs *)

Lemma renderKeyOf_remote callId participantId stream callId' participantKey streamId :
  renderKeyOf callId participantId stream = Some (RemoteKey callId' participantKey streamId) →
  ∃ s p, stream = RemoteStream s ∧ truthyString callId = Some callId' ∧
         truthyParticipant participantId = Some p ∧
         participantKey = participantKeyOf p ∧ streamId = id s.
Proof.
  unfold renderKeyOf; intros Hk.
  destruct stream as [s|s], (truthyString callId), (truthyParticipant participantId);
    simplify_eq; eauto 10.
Qed.

Lemma renderKeyOf_local callId participantId stream callId' :
  renderKeyOf callId participantId stream = Some (LocalKey callId') →
  ∃ s, stream = LocalStream s ∧ truthyString callId = Some callId'.
Proof.
  unfold renderKeyOf; intros Hk.
  destruct stream as [s|s], (truthyString callId), (truthyParticipant participantId);
    simplify_eq; eauto.
Qed.

Lemma renderKeyOf_unparented callId participantId stream s :
  renderKeyOf callId participantId stream = Some (UnparentedKey s) →
  stream = LocalStream s ∧ truthyString callId = None.
Proof.
  unfold renderKeyOf; intros Hk.
  destruct stream as [s'|s'], (truthyString callId), (truthyParticipant participantId);
    simplify_eq; eauto.
Qed.

Lemma createView_remote callId participantId s options w callId' p :
  truthyString callId = Some callId' →
  truthyParticipant participantId = Some p →
  createView callId participantId (RemoteStream s) options w
  = createViewRemoteVideo callId' p s options w.
Proof. unfold createView. by intros -> ->. Qed.

Lemma createView_local callId participantId s options w callId' :
  truthyString callId = Some callId' →
  createView callId participantId (LocalStream s) options w
  = createViewLocalVideo callId' options w.
Proof. unfold createView. by intros ->. Qed.

Lemma createView_unparented callId participantId s options w :
  truthyString callId = None →
  createView callId participantId (LocalStream s) options w
  = createViewUnparentedVideo s options w.
Proof. unfold createView. by intros ->. Qed.

(** ** The guards of [createView] *)

Lemma createViewRemoteVideo_busy callId p s options w st :
  registryStatus (internalContext w) (RemoteKey callId (participantKeyOf p) (id s)) = Some st →
  st ≠ NotRendered →
  returnsEmptyUntouched (createViewRemoteVideo callId p s options w) w.
Proof.
  unfold registryStatus, createViewRemoteVideo, participantKeyOf; intros Hst Hne.
  destruct (getRemoteRenderInfoForParticipant _ _ _ _) as [info|]; simplify_eq/=.
  repeat case_decide; try done.
  by destruct (riStatus info).
Qed.

Lemma createViewLocalVideo_busy callId options w st :
  registryStatus (internalContext w) (LocalKey callId) = Some st →
  st ≠ NotRendered →
  returnsEmptyUntouched (createViewLocalVideo callId options w) w.
Proof.
  unfold registryStatus, createViewLocalVideo; intros Hst Hne.
  destruct (getLocalRenderInfo _ _) as [info|]; simplify_eq/=.
  repeat case_decide; try done.
  by destruct (riStatus info).
Qed.

Lemma createViewUnparentedVideo_busy s options w st :
  registryStatus (internalContext w) (UnparentedKey s) = Some st →
  st ≠ NotRendered →
  returnsEmptyUntouched (createViewUnparentedVideo s options w) w.
Proof.
  unfold registryStatus, createViewUnparentedVideo; intros Hst Hne.
  rewrite Hst.
  repeat case_decide; try done.
  destruct st; congruence.
Qed.

Lemma createView_busy callId participantId stream options w key st :
  renderKeyOf callId participantId stream = Some key →
  registryStatus (internalContext w) key = Some st →
  st ≠ NotRendered →
  returnsEmptyUntouched (createView callId participantId stream options w) w.
Proof.
  intros Hk Hst Hne. destruct key as [c pk sid|c|s].
  - apply renderKeyOf_remote in Hk as (s & p & -> & Hc & Hp & -> & ->).
    rewrite (createView_remote _ _ _ _ _ _ _ Hc Hp).
    by eapply createViewRemoteVideo_busy.
  - apply renderKeyOf_local in Hk as (s & -> & Hc).
    rewrite (createView_local _ _ _ _ _ _ Hc).
    by eapply createViewLocalVideo_busy.
  - apply renderKeyOf_unparented in Hk as (-> & Hc).
    rewrite (createView_unparented _ _ _ _ _ Hc).
    by eapply createViewUnparentedVideo_busy.
Qed.

(** What a call that suspends has done by then: one renderer made, the key
    marked [Rendering], and the key and the renderer kept for the resumption. *)
Lemma createView_pending callId participantId stream options w k w1 :
  createView callId participantId stream options w = (Pending k, w1) →
  renderKeyOf callId participantId stream = Some (suspensionKey k) ∧
  registryStatus (internalContext w1) (suspensionKey k) = Some Rendering ∧
  rendererId (pendingRenderer k) = nextRendererId w ∧
  nextRendererId w1 = S (nextRendererId w) ∧
  context w1 = context w ∧
  disposeCalls w1 = disposeCalls w.
Proof.
  unfold createView, renderKeyOf.
  destruct stream as [s|s], (truthyString callId) as [c|],
    (truthyParticipant participantId) as [p|]; simpl; try done.
  - unfold createViewLocalVideo.
    destruct (getLocalRenderInfo _ _) as [info|]; [|done].
    repeat case_decide; try done. intros [= <- <-]; simpl.
    by rewrite getLocal_setLocal.
  - unfold createViewLocalVideo.
    destruct (getLocalRenderInfo _ _) as [info|]; [|done].
    repeat case_decide; try done. intros [= <- <-]; simpl.
    by rewrite getLocal_setLocal.
  - unfold createViewUnparentedVideo.
    repeat case_decide; try done. intros [= <- <-]; simpl.
    by rewrite getUnparented_setUnparented.
  - unfold createViewUnparentedVideo.
    repeat case_decide; try done. intros [= <- <-]; simpl.
    by rewrite getUnparented_setUnparented.
  - unfold createViewRemoteVideo.
    destruct (getRemoteRenderInfoForParticipant _ _ _ _) as [info|]; [|done].
    repeat case_decide; try done. intros [= <- <-]; simpl.
    rewrite getRemote_setRemote. by destruct p.
Qed.

(** C4: a [createView] for a key whose registry entry is [Rendered],
    [Rendering] or [Stopping] returns an empty result, makes no renderer and
    leaves the registry and the store as they were; so when a first call is
    suspended, having made one renderer and marked the key [Rendering], a
    second call with the same arguments returns empty and makes none. *)
Theorem createView_on_busy_key_returns_empty callId participantId stream options w key :
  renderKeyOf callId participantId stream = Some key →
  (∀ st, registryStatus (internalContext w) key = Some st → st ≠ NotRendered →
     returnsEmptyUntouched (createView callId participantId stream options w) w) ∧
  (∀ k w1, createView callId participantId stream options w = (Pending k, w1) →
     registryStatus (internalContext w1) key = Some Rendering ∧
     nextRendererId w1 = S (nextRendererId w) ∧
     returnsEmptyUntouched (createView callId participantId stream options w1) w1).
Proof.
  intros Hk. split.
  - intros st Hst Hne. by eapply createView_busy.
  - intros k w1 Hp.
    destruct (createView_pending _ _ _ _ _ _ _ Hp) as (Hk' & Hst & _ & Hn & _).
    assert (suspensionKey k = key) as Heq by congruence. rewrite Heq in Hst.
    split_and!; [done..|].
    by apply (createView_busy _ _ _ _ _ key Rendering).
Qed.

(** ** Renderer creation failure *)

(** C6: when the renderer creation a [createView] is suspended in fails, the
    promise is rejected with the thrown value, and in the registry a
    call-scoped entry is [NotRendered] with no renderer handle while the
    entry of an unparented stream is gone. *)
Theorem creation_failure_rejects_and_reverts callId participantId stream options w k w1 e w2 :
  createView callId participantId stream options w = (Pending k, w1) →
  ∃ key, renderKeyOf callId participantId stream = Some key ∧
    (resumeCreateView k (inr e) w2).1 = Rejected e ∧
    match key with
    | UnparentedKey _ =>
        registryStatus (internalContext (resumeCreateView k (inr e) w2).2) key = None
    | _ =>
        registryStatus (internalContext (resumeCreateView k (inr e) w2).2) key
          = Some NotRendered ∧
        registryRenderer (internalContext (resumeCreateView k (inr e) w2).2) key = None
    end.
Proof.
  intros Hp. destruct (createView_pending _ _ _ _ _ _ _ Hp) as (Hk & _).
  exists (suspensionKey k). split; [done|].
  destruct k; simpl.
  - by rewrite getRemote_setRemote.
  - by rewrite getLocal_setLocal.
  - by rewrite getUnparented_deleteUnparented.
Qed.

(** ** Successful creation of a remote view *)

(** C5: a remote-in-call [createView] that finds its entry [NotRendered]
    suspends; when the renderer creation succeeds and the entry is then
    still there and not [Stopping], the call writes [Rendered] with the
    renderer it made into the registry, hands the converted view to the
    store's setter for (callId, participantKey, streamId), where the
    snapshot then shows it if it has that stream, and fulfils its promise
    with the renderer and the view. *)
Theorem createView_remote_commits_rendered callId participantId stream options w
    callId' participantKey streamId renderInfo :
  renderKeyOf callId participantId stream = Some (RemoteKey callId' participantKey streamId) →
  getRemoteRenderInfoForParticipant (internalContext w) callId' participantKey streamId
    = Some renderInfo →
  riStatus renderInfo = NotRendered →
  ∃ k w1,
    createView callId participantId stream options w = (Pending k, w1) ∧
    pendingRenderer k
      = mkVideoStreamRenderer (nextRendererId w) (SdkRemote (riStream renderInfo)) ∧
    ∀ view w2 refreshedRenderInfo,
      getRemoteRenderInfoForParticipant (internalContext w2) callId' participantKey streamId
        = Some refreshedRenderInfo →
      riStatus refreshedRenderInfo ≠ Stopping →
      (resumeCreateView k (inl view) w2).1
        = Fulfilled (Some (mkCreateViewResult (pendingRenderer k) view)) ∧
      getRemoteRenderInfoForParticipant
          (internalContext (resumeCreateView k (inl view) w2).2)
          callId' participantKey streamId
        = Some (mkRenderInfo (riStream refreshedRenderInfo) Rendered
                  (Some (pendingRenderer k))) ∧
      context (resumeCreateView k (inl view) w2).2
        = setRemoteVideoStreamRendererView callId' participantKey streamId
            (Some (convertFromSDKToDeclarativeVideoStreamRendererView view)) (context w2) ∧
      (is_Some (remoteSlot (context w2) callId' participantKey streamId) →
       remoteViewOf (context (resumeCreateView k (inl view) w2).2)
           callId' participantKey streamId
         = Some (convertFromSDKToDeclarativeVideoStreamRendererView view)).
Proof.
  intros Hk Hget Hst.
  apply renderKeyOf_remote in Hk as (s & p & -> & Hc & Hp & -> & ->).
  rewrite (createView_remote _ _ _ _ _ _ _ Hc Hp).
  unfold createViewRemoteVideo.
  replace (match p with
           | ParticipantKey key => key
           | ParticipantKind kind => toFlatCommunicationIdentifier kind
           end) with (participantKeyOf p) by done.
  rewrite Hget, Hst; simpl.
  eexists _, _; split; [done|]. split; [done|].
  intros view w2 refreshed Hget2 Hne; simpl.
  rewrite Hget2. rewrite decide_False by done. simpl.
  rewrite getRemote_setRemote. split_and!; try done.
  intros [slot Hslot]. rewrite remoteViewOf_set. by rewrite Hslot.
Qed.

(** ** Requests that fit none of the three classes *)

(** C7 (amended): for every combination of arguments other than a stream
    with an [id] plus [callId] plus [participantId], a stream without an
    [id] plus [callId], and a stream without an [id] and no [callId] (an
    empty string counting as none), [createView] and [disposeView] leave the
    registry, the store and the renderers as they were and print the warning
    'Invalid combination of parameters'; [createView] returns a promise
    already fulfilled with [undefined], [disposeView] returns normally. *)
Theorem invalid_combination_warns_and_returns_empty callId participantId stream options w :
  ¬ (hasId stream ∧ is_Some (truthyString callId) ∧
     is_Some (truthyParticipant participantId)) →
  ¬ (¬ hasId stream ∧ is_Some (truthyString callId)) →
  ¬ (¬ hasId stream ∧ truthyString callId = None) →
  returnsEmptyUntouched (createView callId participantId stream options w) w ∧
  console (createView callId participantId stream options w).2
    = "Invalid combination of parameters" :: console w ∧
  disposeView callId participantId stream w
    = consoleWarn "Invalid combination of parameters" w.
Proof.
  intros H1 H2 H3. unfold createView, disposeView.
  destruct stream as [s|s]; simpl in *.
  - destruct (truthyString callId) eqn:Hc; [destruct H2|destruct H3]; eauto.
  - destruct (truthyString callId) eqn:Hc, (truthyParticipant participantId) eqn:Hp;
      try done.
    destruct H1; eauto.
Qed.

(** ** The device manager singleton *)

Context {declarative : DeviceManagerDeclarative}.

(** Once an object is cached for an instance, a call changes neither the
    two fields nor the number of objects made. *)
Lemma getDeviceManager_cached cached s st n :
  getDeviceManager s
    (mkClientWorld {| _deviceManager := Some cached;
                      _sdkDeviceManager := Some (declaratified cached) |} st n)
  = (deviceManagerAnswer cached s,
     mkClientWorld {| _deviceManager := Some cached;
                      _sdkDeviceManager := Some (declaratified cached) |}
       (stateAfterAnswer (deviceManagerAnswer cached s) st) n).
Proof.
  unfold getDeviceManager, stateAfterAnswer; destruct s as [d|e]; simpl; [|done].
  destruct (decide (declaratified cached = d)) as [<-|Hne]; simpl.
  - by rewrite decide_True.
  - by rewrite decide_False.
Qed.

Lemma getDeviceManagerCalls_cached cached settled st n :
  getDeviceManagerCalls settled
    (mkClientWorld {| _deviceManager := Some cached;
                      _sdkDeviceManager := Some (declaratified cached) |} st n)
  = (map (deviceManagerAnswer cached) settled,
     mkClientWorld {| _deviceManager := Some cached;
                      _sdkDeviceManager := Some (declaratified cached) |}
       (foldl (λ st s, stateAfterAnswer (deviceManagerAnswer cached s) st) st settled) n).
Proof.
  revert st. induction settled as [|s rest IH]; intros st; simpl; [done|].
  rewrite getDeviceManager_cached. by rewrite IH.
Qed.

Lemma getDeviceManagerCalls_first (failures : list JsError) first rest st n :
  getDeviceManagerCalls (map inr failures ++ inl first :: rest)%list
    (mkClientWorld newProxyCallClient st n)
  = ((map inr failures ++
      inl (Some (mkDeclarativeDeviceManager n first))
        :: map (deviceManagerAnswer (mkDeclarativeDeviceManager n first)) rest)%list,
     mkClientWorld {| _deviceManager := Some (mkDeclarativeDeviceManager n first);
                      _sdkDeviceManager := Some first |}
       (foldl (λ st s,
                 stateAfterAnswer (deviceManagerAnswer (mkDeclarativeDeviceManager n first) s) st)
          (declaratifiedState first (foldl (λ st e, stateAfterAnswer (inr e) st) st failures))
          rest)
       (S n)).
Proof.
  revert st. induction failures as [|e failures IH]; intros st; simpl.
  - unfold getDeviceManager; simpl.
    by rewrite (getDeviceManagerCalls_cached (mkDeclarativeDeviceManager n first)).
  - unfold getDeviceManager; simpl. by rewrite IH.
Qed.

(** C9: in every sequence of [getDeviceManager] calls on a new client, the
    first call for which the SDK returns an instance makes the declarative
    device manager for it and answers with that object.  Every later call
    answers with the very same object when the SDK returns the same
    instance again, and fails with the 'Multiple DeviceManager not
    supported' error when the SDK returns any other instance.  Whatever
    follows, the cached pair stays that instance and that object, and no
    second declarative device manager is made: the store was handed to
    [deviceManagerDeclaratify] once, with the first instance. *)
Theorem getDeviceManager_single_instance (failures : list JsError) first rest st n :
  (getDeviceManagerCalls (map inr failures ++ inl first :: rest)%list
     (mkClientWorld newProxyCallClient st n)).1
    = (map inr failures ++
       inl (Some (mkDeclarativeDeviceManager n first))
         :: map (deviceManagerAnswer (mkDeclarativeDeviceManager n first)) rest)%list ∧
  proxyCallClient
    (getDeviceManagerCalls (map inr failures ++ inl first :: rest)%list
       (mkClientWorld newProxyCallClient st n)).2
    = {| _deviceManager := Some (mkDeclarativeDeviceManager n first);
         _sdkDeviceManager := Some first |} ∧
  nextDeclarativeRef
    (getDeviceManagerCalls (map inr failures ++ inl first :: rest)%list
       (mkClientWorld newProxyCallClient st n)).2
    = S n ∧
  clientState
    (getDeviceManagerCalls (map inr failures ++ inl first :: rest)%list
       (mkClientWorld newProxyCallClient st n)).2
    = foldl (λ st s,
               stateAfterAnswer (deviceManagerAnswer (mkDeclarativeDeviceManager n first) s) st)
        (declaratifiedState first (foldl (λ st e, stateAfterAnswer (inr e) st) st failures))
        rest.
Proof. by rewrite getDeviceManagerCalls_first. Qed.

(** ** A creation that resumes under [Stopping] *)

Lemma disposeCount_dispose_same r w :
  disposeCount (dispose r w) r = S (disposeCount w r).
Proof. unfold disposeCount at 1, dispose; simpl. by rewrite lookup_insert_eq. Qed.

(** For a call-scoped key the resumption disposes the renderer it made,
    writes [NotRendered], clears the view and returns empty. *)
Lemma resumeCreateView_stopping_call_scoped k view w :
  registryStatus (internalContext w) (suspensionKey k) = Some Stopping →
  (∀ s, suspensionKey k ≠ UnparentedKey s) →
  (resumeCreateView k (inl view) w).1 = Fulfilled None ∧
  registryStatus (internalContext (resumeCreateView k (inl view) w).2) (suspensionKey k)
    = Some NotRendered ∧
  registryRenderer (internalContext (resumeCreateView k (inl view) w).2) (suspensionKey k)
    = None ∧
  publishedView (context (resumeCreateView k (inl view) w).2) (suspensionKey k) = None ∧
  disposeCount (resumeCreateView k (inl view) w).2 (pendingRenderer k)
    = S (disposeCount w (pendingRenderer k)).
Proof.
  intros Hst Hscoped. destruct k as [c pk sid rs r o|c rs r o|s ls r o]; simpl in *.
  - destruct (getRemoteRenderInfoForParticipant _ _ _ _) as [info|]; simplify_eq/=.
    rewrite Hst; simpl. rewrite getRemote_setRemote; simpl.
    split_and!; try done.
    + apply remoteViewOf_clear.
    + apply disposeCount_dispose_same.
  - destruct (getLocalRenderInfo _ _) as [info|]; simplify_eq/=.
    rewrite Hst; simpl. rewrite getLocal_setLocal; simpl.
    split_and!; try done.
    + apply localViewOf_clear.
    + apply disposeCount_dispose_same.
  - by destruct (Hscoped s).
Qed.

(** ** Bulk disposal *)

(** A loop over distinct keys keeps an invariant that is indexed by the keys
    already visited. *)
Lemma foldl_processed {A K : Type} (f : A → K → A) (P : list K → A → Prop) ks a0 :
  NoDup ks →
  P [] a0 →
  (∀ done k a, P done a → k ∉ done → k ∈ ks → P (done ++ [k])%list (f a k)) →
  P ks (foldl f a0 ks).
Proof.
  intros Hnd H0 Hstep.
  cut (∀ rest done a, (done ++ rest)%list = ks → P done a →
                      P (done ++ rest)%list (foldl f a rest)).
  { intros Hcut. by apply (Hcut ks [] a0). }
  induction rest as [|k rest IH]; intros done a Heq Ha; simpl.
  - by rewrite app_nil_r.
  - replace (done ++ k :: rest)%list with ((done ++ [k]) ++ rest)%list
      by (by rewrite <- app_assoc).
    apply IH; [by rewrite <- app_assoc|].
    apply Hstep; [done| |].
    + rewrite <- Heq in Hnd. apply NoDup_app in Hnd as (_ & Hdisj & _).
      intros Hin. apply (Hdisj k Hin). by left.
    + rewrite <- Heq. apply elem_of_app. right. by left.
Qed.

Lemma getRemote_participantStreams ic callId participantKey streamId :
  getRemoteRenderInfoForParticipant ic callId participantKey streamId
  = participantStreamsOf ic callId participantKey ≫= (.!! streamId).
Proof.
  unfold getRemoteRenderInfoForParticipant, participantStreamsOf.
  destruct (remoteRenderInfos ic !! callId) as [cs|]; [|done].
  by destruct (cs !! participantKey).
Qed.

Lemma participantStreams_setRemote_ne callId participantKey streamId stream status renderer
    ic participantKey' :
  participantKey ≠ participantKey' →
  participantStreamsOf
    (setRemoteRenderInfo callId participantKey streamId stream status renderer ic)
    callId participantKey'
  = participantStreamsOf ic callId participantKey'.
Proof.
  intros Hne. unfold participantStreamsOf, setRemoteRenderInfo; simpl.
  rewrite lookup_insert_eq, lookup_insert_ne by done.
  by destruct (remoteRenderInfos ic !! callId).
Qed.

Lemma participantStreamKeys_complete ic callId participantKey streamId :
  is_Some (getRemoteRenderInfoForParticipant ic callId participantKey streamId) ↔
  streamId ∈ participantStreamKeys ic callId participantKey.
Proof.
  rewrite getRemote_participantStreams. unfold participantStreamKeys.
  destruct (participantStreamsOf ic callId participantKey) as [m|]; simpl.
  - rewrite list_elem_of_fmap. split.
    + intros [info Hinfo]. exists (streamId, info). split; [done|].
      by apply elem_of_map_to_list.
    + intros ([k info] & -> & Hin). apply elem_of_map_to_list in Hin. by eexists.
  - split; [by intros [? ?]|]. by intros ?%elem_of_nil.
Qed.

Lemma participantStreamKeys_NoDup ic callId participantKey :
  NoDup (participantStreamKeys ic callId participantKey).
Proof.
  unfold participantStreamKeys.
  destruct (participantStreamsOf ic callId participantKey) as [m|].
  - apply NoDup_fst_map_to_list.
  - constructor.
Qed.

(** Counting [dispose] calls. *)

Lemma disposeCount_dispose r' w r :
  disposeCount (dispose r' w) r
  = disposeCount w r + heldCount (rendererId r) [r'].
Proof.
  unfold disposeCount at 1, dispose, heldCount; simpl.
  rewrite filter_cons, filter_nil.
  destruct (decide (rendererId r' = rendererId r)) as [Heq|Hne]; simpl.
  - rewrite Heq, lookup_insert_eq; simpl. unfold disposeCount. rewrite Heq. lia.
  - rewrite lookup_insert_ne by done. unfold disposeCount. lia.
Qed.

Lemma disposeCount_disposeIfHeld held w r :
  disposeCount (disposeIfHeld held w) r
  = disposeCount w r + heldCount (rendererId r) (option_list held).
Proof.
  destruct held as [r'|]; simpl.
  - apply disposeCount_dispose.
  - unfold heldCount. rewrite filter_nil. simpl. lia.
Qed.

Lemma heldCount_app n l1 l2 :
  heldCount n (l1 ++ l2) = heldCount n l1 + heldCount n l2.
Proof. unfold heldCount. by rewrite filter_app, length_app. Qed.

Lemma heldCount_absent n (held : list VideoStreamRenderer) :
  n ∉ rendererId <$> held → heldCount n held = 0.
Proof.
  unfold heldCount. induction held as [|r held IH]; simpl; intros Hnotin; [done|].
  apply not_elem_of_cons in Hnotin as [Hne Hnotin].
  rewrite filter_cons, decide_False by done. by apply IH.
Qed.

Lemma heldCount_NoDup n (held : list VideoStreamRenderer) :
  NoDup (rendererId <$> held) → (heldCount n held ≤ 1)%nat.
Proof.
  induction held as [|r held IH]; simpl; intros Hnd; [unfold heldCount; simpl; lia|].
  apply NoDup_cons in Hnd as [Hnotin Hnd].
  change (r :: held) with ([r] ++ held)%list. rewrite heldCount_app.
  unfold heldCount at 1. rewrite filter_cons, filter_nil.
  destruct (decide (rendererId r = n)) as [<-|Hne]; simpl.
  - rewrite heldCount_absent by done. lia.
  - by apply IH.
Qed.

(** One turn of the inner loop on an entry that sits under its stream's id. *)
Lemma disposeRemoteEntry_found callId participantKey streamKey w info :
  callId ≠ "" → participantKey ≠ "" →
  getRemoteRenderInfoForParticipant (internalContext w) callId participantKey streamKey
    = Some info →
  sdkId (riStream info) = streamKey →
  disposeRemoteEntry callId participantKey streamKey w
  = disposeIfHeld (riRenderer info)
      (withInternalContext
         (setRemoteRenderInfo callId participantKey streamKey (riStream info)
            (if decide (riStatus info = Rendering) then Stopping else NotRendered) None)
         (withContext
            (setRemoteVideoStreamRendererView callId participantKey streamKey None) w)).
Proof.
  intros Hc Hp Hget Hid.
  unfold disposeRemoteEntry. rewrite Hget.
  unfold disposeView; simpl. rewrite !decide_False by done.
  unfold disposeViewRemoteVideo; simpl. rewrite Hid, Hget.
  by case_decide.
Qed.

Lemma remoteSlot_set callId participantKey streamId view st callId' participantKey' streamId' :
  remoteSlot (setRemoteVideoStreamRendererView callId participantKey streamId view st)
    callId' participantKey' streamId'
  = if decide ((callId, participantKey, streamId) = (callId', participantKey', streamId'))
    then (λ _, view) <$> remoteSlot st callId participantKey streamId
    else remoteSlot st callId' participantKey' streamId'.
Proof.
  unfold remoteSlot, setRemoteVideoStreamRendererView.
  destruct (remoteViews st !! callId) as [pm|] eqn:Hc; simpl.
  2:{ case_decide; simplify_eq; [by rewrite Hc|done]. }
  destruct (pm !! participantKey) as [sm|] eqn:Hp; simpl.
  2:{ case_decide; simplify_eq; [by rewrite Hc, Hp|done]. }
  destruct (sm !! streamId) as [v|] eqn:Hs; simpl.
  2:{ case_decide; simplify_eq; [by rewrite Hc, Hp, Hs|done]. }
  destruct (decide (callId = callId')) as [<-|Hnc].
  - rewrite lookup_insert_eq.
    destruct (decide (participantKey = participantKey')) as [<-|Hnp].
    + rewrite lookup_insert_eq.
      destruct (decide (streamId = streamId')) as [<-|Hns].
      * rewrite lookup_insert_eq. by rewrite decide_True.
      * rewrite lookup_insert_ne by done. rewrite decide_False by congruence.
        by rewrite Hc, Hp.
    + rewrite lookup_insert_ne by done. rewrite decide_False by congruence.
      by rewrite Hc.
  - rewrite lookup_insert_ne by done. by rewrite decide_False by congruence.
Qed.

Lemma remoteViewOf_clear_preserves callId participantKey streamId st
    callId' participantKey' streamId' :
  remoteViewOf st callId' participantKey' streamId' = None →
  remoteViewOf (setRemoteVideoStreamRendererView callId participantKey streamId None st)
    callId' participantKey' streamId' = None.
Proof.
  unfold remoteViewOf. rewrite remoteSlot_set. case_decide; [|done].
  intros _. by destruct (remoteSlot st callId participantKey streamId).
Qed.

Lemma disposeCount_frame (w w' : World) r :
  disposeCalls w' = disposeCalls w → disposeCount w' r = disposeCount w r.
Proof. unfold disposeCount. by intros ->. Qed.

(** One turn of the outer loop: every entry of the participant goes through
    the dispose protocol, and nothing else in the registry moves. *)
Lemma disposeParticipantEntries_spec callId participantKey w :
  callId ≠ "" →
  (∀ streamKey info,
     getRemoteRenderInfoForParticipant (internalContext w) callId participantKey streamKey
       = Some info →
     participantKey ≠ "" ∧ sdkId (riStream info) = streamKey) →
  (∀ streamKey,
     getRemoteRenderInfoForParticipant
       (internalContext (disposeParticipantEntries callId w participantKey))
       callId participantKey streamKey
     = stoppedInfo <$>
       getRemoteRenderInfoForParticipant (internalContext w) callId participantKey streamKey) ∧
  (∀ participantKey', participantKey ≠ participantKey' →
     participantStreamsOf
       (internalContext (disposeParticipantEntries callId w participantKey))
       callId participantKey'
     = participantStreamsOf (internalContext w) callId participantKey') ∧
  localRenderInfos (internalContext (disposeParticipantEntries callId w participantKey))
    = localRenderInfos (internalContext w) ∧
  (∀ r, disposeCount (disposeParticipantEntries callId w participantKey) r
        = disposeCount w r +
          heldCount (rendererId r)
            (renderersHeldForParticipant (internalContext w) callId participantKey)) ∧
  (∀ streamKey,
     is_Some (getRemoteRenderInfoForParticipant (internalContext w)
                callId participantKey streamKey) →
     remoteViewOf (context (disposeParticipantEntries callId w participantKey))
       callId participantKey streamKey = None) ∧
  (∀ participantKey' streamKey',
     remoteViewOf (context w) callId participantKey' streamKey' = None →
     remoteViewOf (context (disposeParticipantEntries callId w participantKey))
       callId participantKey' streamKey' = None) ∧
  localViews (context (disposeParticipantEntries callId w participantKey))
    = localViews (context w).
Proof.
  intros Hc Hkeyed.
  set (get := λ x k, getRemoteRenderInfoForParticipant (internalContext x)
                       callId participantKey k).
  set (ks := participantStreamKeys (internalContext w) callId participantKey).
  assert (∀ k, is_Some (get w k) ↔ k ∈ ks) as Hks
    by (intros k; apply participantStreamKeys_complete).
  cut ((λ done a,
          (∀ k, k ∈ done → get a k = stoppedInfo <$> get w k) ∧
          (∀ k, k ∉ done → get a k = get w k) ∧
          (∀ pk', participantKey ≠ pk' →
             participantStreamsOf (internalContext a) callId pk'
             = participantStreamsOf (internalContext w) callId pk') ∧
          localRenderInfos (internalContext a) = localRenderInfos (internalContext w) ∧
          (∀ r, disposeCount a r
                = disposeCount w r +
                  heldCount (rendererId r) (omap (λ k, get w k ≫= riRenderer) done)) ∧
          (∀ k, k ∈ done → remoteViewOf (context a) callId participantKey k = None) ∧
          (∀ pk' k', remoteViewOf (context w) callId pk' k' = None →
                     remoteViewOf (context a) callId pk' k' = None) ∧
          localViews (context a) = localViews (context w))
         ks (disposeParticipantEntries callId w participantKey)).
  { intros (Hdone & Hrest & Hpm & Hloc & Hcount & Hview & Hmono & Hlv).
    split_and!; try done.
    - intros k. destruct (decide (k ∈ ks)) as [Hin|Hout]; [by apply Hdone|].
      change (get (disposeParticipantEntries callId w participantKey) k
              = stoppedInfo <$> get w k).
      rewrite (Hrest k Hout).
      destruct (get w k) eqn:Hg; [|done]. destruct Hout. apply Hks. by rewrite Hg.
    - intros k Hk. apply Hview. by apply Hks. }
  unfold disposeParticipantEntries. fold ks.
  apply foldl_processed.
  - apply participantStreamKeys_NoDup.
  - split_and!; try done; by intros k ?%elem_of_nil.
  - intros done k a (Hdone & Hrest & Hpm & Hloc & Hcount & Hview & Hmono & Hlv) Hnew Hin.
    destruct (proj2 (Hks k) Hin) as [info Hinfo].
    destruct (Hkeyed k info Hinfo) as [Hp Hid].
    assert (get a k = Some info) as Hinfo' by (by rewrite Hrest).
    rewrite (disposeRemoteEntry_found _ _ _ _ _ Hc Hp Hinfo' Hid).
    split_and!.
    + intros k' [Hk'| ->%list_elem_of_singleton]%elem_of_app; unfold get.
      * destruct (riRenderer info); simpl;
          (rewrite getRemote_setRemote_ne by (intros [=]; by subst));
          by apply Hdone.
      * fold (get w k). rewrite Hinfo.
        destruct (riRenderer info); simpl; by rewrite getRemote_setRemote.
    + intros k' Hk'. apply not_elem_of_app in Hk' as [Hk1 Hk2].
      apply not_elem_of_cons in Hk2 as [Hk2 _]. unfold get.
      destruct (riRenderer info); simpl;
        (rewrite getRemote_setRemote_ne by (intros [=]; by subst));
        by apply Hrest.
    + intros pk' Hne.
      destruct (riRenderer info); simpl;
        rewrite participantStreams_setRemote_ne by done; by apply Hpm.
    + by destruct (riRenderer info).
    + intros r. rewrite disposeCount_disposeIfHeld.
      rewrite omap_app, heldCount_app; simpl. rewrite Hinfo; simpl.
      rewrite Nat.add_assoc, <- Hcount. by f_equal.
    + intros k' [Hk'| ->%list_elem_of_singleton]%elem_of_app.
      * destruct (riRenderer info); simpl;
          by apply remoteViewOf_clear_preserves, Hview.
      * destruct (riRenderer info); simpl; apply remoteViewOf_clear.
    + intros pk' k' Hnone.
      destruct (riRenderer info); simpl;
        by apply remoteViewOf_clear_preserves, Hmono.
    + destruct (riRenderer info); simpl; rewrite <- Hlv;
        unfold setRemoteVideoStreamRendererView; by repeat case_match.
Qed.

Lemma renderersHeldForParticipant_ext ic ic' callId participantKey :
  participantStreamsOf ic' callId participantKey
    = participantStreamsOf ic callId participantKey →
  renderersHeldForParticipant ic' callId participantKey
  = renderersHeldForParticipant ic callId participantKey.
Proof.
  intros Heq. unfold renderersHeldForParticipant, participantStreamKeys. rewrite Heq.
  apply list_omap_ext, Forall_Forall2_diag, Forall_forall. intros k _.
  by rewrite !getRemote_participantStreams, Heq.
Qed.

(** The outer loop: the entries of every participant visited go through the
    dispose protocol. *)
Lemma disposeParticipants_spec callId w participantKeys :
  callId ≠ "" →
  NoDup participantKeys →
  (∀ participantKey streamKey info,
     getRemoteRenderInfoForParticipant (internalContext w) callId participantKey streamKey
       = Some info →
     participantKey ≠ "" ∧ sdkId (riStream info) = streamKey) →
  (∀ participantKey streamKey,
     participantKey ∈ participantKeys →
     getRemoteRenderInfoForParticipant
       (internalContext (foldl (disposeParticipantEntries callId) w participantKeys))
       callId participantKey streamKey
     = stoppedInfo <$>
       getRemoteRenderInfoForParticipant (internalContext w) callId participantKey streamKey) ∧
  (∀ participantKey,
     participantKey ∉ participantKeys →
     participantStreamsOf
       (internalContext (foldl (disposeParticipantEntries callId) w participantKeys))
       callId participantKey
     = participantStreamsOf (internalContext w) callId participantKey) ∧
  localRenderInfos
    (internalContext (foldl (disposeParticipantEntries callId) w participantKeys))
    = localRenderInfos (internalContext w) ∧
  (∀ r, disposeCount (foldl (disposeParticipantEntries callId) w participantKeys) r
        = disposeCount w r +
          heldCount (rendererId r)
            (participantKeys ≫= renderersHeldForParticipant (internalContext w) callId)) ∧
  (∀ participantKey streamKey,
     participantKey ∈ participantKeys →
     is_Some (getRemoteRenderInfoForParticipant (internalContext w)
                callId participantKey streamKey) →
     remoteViewOf (context (foldl (disposeParticipantEntries callId) w participantKeys))
       callId participantKey streamKey = None) ∧
  localViews (context (foldl (disposeParticipantEntries callId) w participantKeys))
    = localViews (context w).
Proof.
  intros Hc Hnd Hkeyed.
  apply (foldl_processed (disposeParticipantEntries callId)
    (λ done a,
       (∀ pk k, pk ∈ done →
          getRemoteRenderInfoForParticipant (internalContext a) callId pk k
          = stoppedInfo <$>
            getRemoteRenderInfoForParticipant (internalContext w) callId pk k) ∧
       (∀ pk, pk ∉ done →
          participantStreamsOf (internalContext a) callId pk
          = participantStreamsOf (internalContext w) callId pk) ∧
       localRenderInfos (internalContext a) = localRenderInfos (internalContext w) ∧
       (∀ r, disposeCount a r
             = disposeCount w r +
               heldCount (rendererId r)
                 (done ≫= renderersHeldForParticipant (internalContext w) callId)) ∧
       (∀ pk k, pk ∈ done →
          is_Some (getRemoteRenderInfoForParticipant (internalContext w) callId pk k) →
          remoteViewOf (context a) callId pk k = None) ∧
       localViews (context a) = localViews (context w))); [done| |].
  - split_and!; try done; by intros pk k ?%elem_of_nil.
  - intros done pk a (Hdone & Hrest & Hloc & Hcount & Hview & Hlv) Hnew Hin.
    assert (∀ k, getRemoteRenderInfoForParticipant (internalContext a) callId pk k
               = getRemoteRenderInfoForParticipant (internalContext w) callId pk k) as Hsame.
    { intros k. by rewrite !getRemote_participantStreams, Hrest. }
    destruct (disposeParticipantEntries_spec callId pk a Hc)
      as (Hi1 & Hi2 & Hi3 & Hi4 & Hi5 & Hi6 & Hi7).
    { intros k info. rewrite Hsame. apply Hkeyed. }
    split_and!.
    + intros pk' k [Hpk'| ->%list_elem_of_singleton]%elem_of_app.
      * rewrite getRemote_participantStreams, Hi2 by (intros ->; done).
        rewrite <- getRemote_participantStreams. by apply Hdone.
      * by rewrite Hi1, Hsame.
    + intros pk' Hpk'. apply not_elem_of_app in Hpk' as [Hpk1 Hpk2].
      apply not_elem_of_cons in Hpk2 as [Hpk2 _].
      rewrite Hi2 by done. by apply Hrest.
    + by rewrite Hi3.
    + intros r. rewrite Hi4, Hcount, bind_app, heldCount_app, <- Nat.add_assoc.
      do 2 f_equal. rewrite bind_cons; simpl. rewrite app_nil_r.
      by rewrite (renderersHeldForParticipant_ext (internalContext w)) by by apply Hrest.
    + intros pk' k [Hpk'| ->%list_elem_of_singleton]%elem_of_app Hsome.
      * apply Hi6. by apply Hview.
      * apply Hi5. by rewrite Hsame.
    + by rewrite Hi7.
Qed.

Lemma disposeViewLocalVideo_found callId w info :
  getLocalRenderInfo (internalContext w) callId = Some info →
  disposeViewLocalVideo callId w
  = disposeIfHeld (riRenderer info)
      (withInternalContext
         (setLocalRenderInfo callId (riStream info)
            (if decide (riStatus info = Rendering) then Stopping else NotRendered) None)
         (withContext (setLocalVideoStreamRendererView callId None) w)).
Proof.
  intros Hget. unfold disposeViewLocalVideo; simpl. rewrite Hget. by case_decide.
Qed.

(** ** Disposal of a call's local view *)

Lemma disposeViewLocalVideo_not_found callId w :
  getLocalRenderInfo (internalContext w) callId = None →
  disposeViewLocalVideo callId w
  = withContext (setLocalVideoStreamRendererView callId None) w.
Proof. intros Hget. unfold disposeViewLocalVideo; simpl. by rewrite Hget. Qed.

(** C10 (amended): when [disposeView] is given a stream with no [id] and a
    [callId] that is not the empty string, the stream argument plays no
    part: any two streams give the same world.  That world is the one
    [disposeViewLocalVideo] makes for the call identifier: the call's local
    view is cleared from the store; the call's local entry, if there is
    one, is left without a renderer handle, [Stopping] if it was
    [Rendering] and [NotRendered] otherwise; the renderer the entry held
    has received one more [dispose] call and every other renderer none; and
    the entries kept under stream objects are as they were. *)
Theorem disposeView_local_ignores_stream callId participantId (s1 s2 : LocalVideoStreamState)
    w callId' :
  truthyString callId = Some callId' →
  disposeView callId participantId (LocalStream s1) w
    = disposeView callId participantId (LocalStream s2) w ∧
  disposeView callId participantId (LocalStream s1) w = disposeViewLocalVideo callId' w ∧
  localViewOf (context (disposeView callId participantId (LocalStream s1) w)) callId' = None ∧
  getLocalRenderInfo (internalContext (disposeView callId participantId (LocalStream s1) w))
      callId'
    = stoppedInfo <$> getLocalRenderInfo (internalContext w) callId' ∧
  (∀ r,
     disposeCount (disposeView callId participantId (LocalStream s1) w) r
     = disposeCount w r
       + heldCount (rendererId r)
           (option_list (getLocalRenderInfo (internalContext w) callId' ≫= riRenderer))) ∧
  unparentedRenderInfos (internalContext (disposeView callId participantId (LocalStream s1) w))
    = unparentedRenderInfos (internalContext w) ∧
  unparentedViews (context (disposeView callId participantId (LocalStream s1) w))
    = unparentedViews (context w).
Proof.
  intros Hc. unfold disposeView. rewrite Hc. split; [done|]. split; [done|].
  destruct (getLocalRenderInfo (internalContext w) callId') as [info|] eqn:Hget.
  - rewrite (disposeViewLocalVideo_found _ _ _ Hget).
    split_and!.
    + destruct (riRenderer info); simpl; apply localViewOf_clear.
    + destruct (riRenderer info); simpl; by rewrite getLocal_setLocal.
    + intros r. by rewrite disposeCount_disposeIfHeld.
    + by destruct (riRenderer info).
    + destruct (riRenderer info); simpl;
        unfold setLocalVideoStreamRendererView; by case_match.
  - rewrite (disposeViewLocalVideo_not_found _ _ Hget); simpl.
    split_and!.
    + apply localViewOf_clear.
    + by rewrite Hget.
    + intros r. unfold heldCount; simpl. by rewrite Nat.add_0_r.
    + done.
    + unfold setLocalVideoStreamRendererView; by case_match.
Qed.

Lemma remoteViewOf_setLocal callId view st callId' participantKey streamId :
  remoteViewOf (setLocalVideoStreamRendererView callId view st) callId' participantKey streamId
  = remoteViewOf st callId' participantKey streamId.
Proof. unfold setLocalVideoStreamRendererView. by case_match. Qed.

(** The two loops over the remote entries of a call. *)
Lemma disposeRemoteViewsFromCall_spec callId w wr :
  callId ≠ "" →
  (∀ participantKey streamKey info,
     getRemoteRenderInfoForParticipant (internalContext w) callId participantKey streamKey
       = Some info →
     participantKey ≠ "" ∧ sdkId (riStream info) = streamKey) →
  wr = match getRemoteRenderInfoForCall (internalContext w) callId with
       | Some callStreams =>
           foldl (disposeParticipantEntries callId) w (map_to_list callStreams).*1
       | None => w
       end →
  (∀ participantKey streamKey,
     getRemoteRenderInfoForParticipant (internalContext wr) callId participantKey streamKey
     = stoppedInfo <$>
       getRemoteRenderInfoForParticipant (internalContext w) callId participantKey streamKey) ∧
  localRenderInfos (internalContext wr) = localRenderInfos (internalContext w) ∧
  (∀ r, disposeCount wr r
        = disposeCount w r +
          heldCount (rendererId r)
            match getRemoteRenderInfoForCall (internalContext w) callId with
            | Some callStreams =>
                (map_to_list callStreams).*1
                  ≫= renderersHeldForParticipant (internalContext w) callId
            | None => []
            end) ∧
  (∀ participantKey streamKey,
     is_Some (getRemoteRenderInfoForParticipant (internalContext w)
                callId participantKey streamKey) →
     remoteViewOf (context wr) callId participantKey streamKey = None) ∧
  localViews (context wr) = localViews (context w).
Proof.
  intros Hc Hkeyed ->. unfold getRemoteRenderInfoForCall.
  destruct (remoteRenderInfos (internalContext w) !! callId) as [cs|] eqn:Hcs.
  - destruct (disposeParticipants_spec callId w (map_to_list cs).*1 Hc
                (NoDup_fst_map_to_list cs) Hkeyed)
      as (Hdone & Hrest & Hloc & Hcount & Hview & Hlv).
    assert (∀ pk, pk ∉ (map_to_list cs).*1 →
                  participantStreamsOf (internalContext w) callId pk = None) as Hout.
    { intros pk Hpk. unfold participantStreamsOf. rewrite Hcs.
      destruct (cs !! pk) as [m|] eqn:Hm; [|done]. destruct Hpk.
      apply list_elem_of_fmap. exists (pk, m). split; [done|].
      by apply elem_of_map_to_list. }
    split_and!; try done.
    + intros pk k. destruct (decide (pk ∈ (map_to_list cs).*1)) as [Hin|Hnotin].
      * by apply Hdone.
      * rewrite !getRemote_participantStreams, (Hrest pk Hnotin).
        by rewrite (Hout pk Hnotin).
    + intros pk k Hsome. apply Hview; [|done].
      destruct (decide (pk ∈ (map_to_list cs).*1)) as [Hin|Hnotin]; [done|].
      rewrite getRemote_participantStreams, (Hout pk Hnotin) in Hsome.
      by destruct Hsome.
  - assert (∀ pk k, getRemoteRenderInfoForParticipant (internalContext w) callId pk k
                    = None) as Hnone.
    { intros pk k. unfold getRemoteRenderInfoForParticipant. by rewrite Hcs. }
    split_and!; try done.
    + intros pk k. by rewrite Hnone.
    + intros pk k. rewrite Hnone. by intros [? ?].
Qed.

(** C8 (amended): for every call with a non-empty [callId] whose remote
    registry entries sit under non-empty participant keys and under their
    own stream's id, [disposeAllViewsFromCall] puts every remote entry of
    the call through the dispose protocol, and the local entry too if it
    holds a renderer.  Afterwards the entries are still in the registry,
    none of them holds a renderer handle (a remote entry is [NotRendered],
    or [Stopping] if it was [Rendering]), the views of these entries are
    cleared from the store, and each renderer has received one [dispose]
    call for each entry that held it, hence at most one when no two entries
    share a handle. *)
Theorem disposeAllViewsFromCall_stops_every_entry callId w :
  callId ≠ "" →
  (∀ participantKey streamKey info,
     getRemoteRenderInfoForParticipant (internalContext w) callId participantKey streamKey
       = Some info →
     participantKey ≠ "" ∧ sdkId (riStream info) = streamKey) →
  (∀ participantKey streamKey,
     getRemoteRenderInfoForParticipant (internalContext (disposeAllViewsFromCall callId w))
       callId participantKey streamKey
     = stoppedInfo <$>
       getRemoteRenderInfoForParticipant (internalContext w) callId participantKey streamKey) ∧
  getLocalRenderInfo (internalContext (disposeAllViewsFromCall callId w)) callId
    = (λ info, match riRenderer info with
               | Some _ => stoppedInfo info
               | None => info
               end) <$> getLocalRenderInfo (internalContext w) callId ∧
  (∀ participantKey streamKey,
     registryRenderer (internalContext (disposeAllViewsFromCall callId w))
       (RemoteKey callId participantKey streamKey) = None) ∧
  registryRenderer (internalContext (disposeAllViewsFromCall callId w)) (LocalKey callId)
    = None ∧
  (∀ participantKey streamKey,
     is_Some (getRemoteRenderInfoForParticipant (internalContext w)
                callId participantKey streamKey) →
     remoteViewOf (context (disposeAllViewsFromCall callId w))
       callId participantKey streamKey = None) ∧
  (is_Some (registryRenderer (internalContext w) (LocalKey callId)) →
   localViewOf (context (disposeAllViewsFromCall callId w)) callId = None) ∧
  (∀ r, disposeCount (disposeAllViewsFromCall callId w) r
        = disposeCount w r +
          heldCount (rendererId r) (renderersHeldForCall (internalContext w) callId)) ∧
  (NoDup (rendererId <$> renderersHeldForCall (internalContext w) callId) →
   ∀ r, (disposeCount (disposeAllViewsFromCall callId w) r ≤ disposeCount w r + 1)%nat).
Proof.
  intros Hc Hkeyed.
  cut ((∀ participantKey streamKey,
          getRemoteRenderInfoForParticipant
            (internalContext (disposeAllViewsFromCall callId w))
            callId participantKey streamKey
          = stoppedInfo <$>
            getRemoteRenderInfoForParticipant (internalContext w)
              callId participantKey streamKey) ∧
       getLocalRenderInfo (internalContext (disposeAllViewsFromCall callId w)) callId
         = (λ info, match riRenderer info with
                    | Some _ => stoppedInfo info
                    | None => info
                    end) <$> getLocalRenderInfo (internalContext w) callId ∧
       (∀ participantKey streamKey,
          is_Some (getRemoteRenderInfoForParticipant (internalContext w)
                     callId participantKey streamKey) →
          remoteViewOf (context (disposeAllViewsFromCall callId w))
            callId participantKey streamKey = None) ∧
       (is_Some (registryRenderer (internalContext w) (LocalKey callId)) →
        localViewOf (context (disposeAllViewsFromCall callId w)) callId = None) ∧
       (∀ r, disposeCount (disposeAllViewsFromCall callId w) r
             = disposeCount w r +
               heldCount (rendererId r) (renderersHeldForCall (internalContext w) callId))).
  { intros (Hrem & Hloc & Hrv & Hlv & Hcount). split_and!; try done.
    - intros pk k. simpl. rewrite Hrem.
      by destruct (getRemoteRenderInfoForParticipant (internalContext w) callId pk k).
    - simpl. rewrite Hloc.
      destruct (getLocalRenderInfo (internalContext w) callId) as [info|]; [|done].
      simpl. by destruct (riRenderer info) eqn:Hr.
    - intros Hnd r. rewrite Hcount.
      pose proof (heldCount_NoDup (rendererId r) _ Hnd). lia. }
  unfold disposeAllViewsFromCall.
  destruct (disposeRemoteViewsFromCall_spec callId w _ Hc Hkeyed eq_refl)
    as (Hrem & Hloc & Hcount & Hview & Hlv).
  set (wr := match getRemoteRenderInfoForCall (internalContext w) callId with
             | Some callStreams => _
             | None => w
             end) in *.
  unfold renderersHeldForCall, registryRenderer.
  assert (getLocalRenderInfo (internalContext wr) callId
          = getLocalRenderInfo (internalContext w) callId) as Hl
    by (unfold getLocalRenderInfo; by rewrite Hloc).
  rewrite Hl.
  destruct (getLocalRenderInfo (internalContext w) callId) as [info|] eqn:Hinfo; simpl.
  2:{ split_and!; try done; try (by intros [? ?]).
      intros r. by rewrite Hcount, app_nil_r. }
  destruct (riRenderer info) as [r0|] eqn:Hr0; simpl.
  2:{ split_and!; try done; try (by intros [? ?]).
      intros r. by rewrite Hcount, app_nil_r. }
  unfold disposeView; simpl. rewrite decide_False by done.
  rewrite (disposeViewLocalVideo_found callId _ info) by done.
  rewrite Hr0; simpl. split_and!.
  - intros pk k. by rewrite <- Hrem.
  - rewrite getLocal_setLocal. unfold stoppedInfo. done.
  - intros pk k Hsome. rewrite remoteViewOf_setLocal. by apply Hview.
  - intros _. apply localViewOf_clear.
  - intros r. rewrite disposeCount_dispose.
    rewrite (disposeCount_frame wr) by done.
    by rewrite Hcount, heldCount_app, Nat.add_assoc.
Qed.

End Properties.

(** * Properties of the rest *)

Section LifecycleProperties.
Context `{Imports}.

(** ** What [disposeView] does to its key *)

Lemma disposeView_remote_key callId participantId stream w c pk sid :
  renderKeyOf callId participantId stream = Some (RemoteKey c pk sid) →
  disposeView callId participantId stream w
  = match getRemoteRenderInfoForParticipant (internalContext w) c pk sid with
    | Some info =>
        disposeIfHeld (riRenderer info)
          (withInternalContext
             (setRemoteRenderInfo c pk sid (riStream info)
                (if decide (riStatus info = Rendering) then Stopping else NotRendered) None)
             (withContext (setRemoteVideoStreamRendererView c pk sid None) w))
    | None => withContext (setRemoteVideoStreamRendererView c pk sid None) w
    end.
Proof.
  intros Hk. apply renderKeyOf_remote in Hk as (s & p & -> & Hc & Hp & -> & ->).
  unfold disposeView. rewrite Hc, Hp. unfold disposeViewRemoteVideo; simpl.
  replace (match p with
           | ParticipantKey key => key
           | ParticipantKind kind => toFlatCommunicationIdentifier kind
           end) with (participantKeyOf p) by done.
  destruct (getRemoteRenderInfoForParticipant _ _ _ _) as [info|]; [|done].
  by case_decide.
Qed.

Lemma disposeView_local_key callId participantId stream w c :
  renderKeyOf callId participantId stream = Some (LocalKey c) →
  disposeView callId participantId stream w
  = match getLocalRenderInfo (internalContext w) c with
    | Some info =>
        disposeIfHeld (riRenderer info)
          (withInternalContext
             (setLocalRenderInfo c (riStream info)
                (if decide (riStatus info = Rendering) then Stopping else NotRendered) None)
             (withContext (setLocalVideoStreamRendererView c None) w))
    | None => withContext (setLocalVideoStreamRendererView c None) w
    end.
Proof.
  intros Hk. apply renderKeyOf_local in Hk as (s & -> & Hc).
  unfold disposeView. rewrite Hc. unfold disposeViewLocalVideo; simpl.
  destruct (getLocalRenderInfo _ _) as [info|]; [|done].
  by case_decide.
Qed.

Lemma disposeView_unparented_key callId participantId stream w s :
  renderKeyOf callId participantId stream = Some (UnparentedKey s) →
  disposeView callId participantId stream w
  = match getUnparentedRenderInfo (internalContext w) s with
    | Some info =>
        disposeIfHeld (riRenderer info)
          (withInternalContext
             (if decide (riStatus info = Rendering)
              then setUnparentedRenderInfo s (riStream info) Stopping None
              else deleteUnparentedRenderInfo s)
             (withContext (deleteDeviceManagerUnparentedView s) w))
    | None => withContext (deleteDeviceManagerUnparentedView s) w
    end.
Proof.
  intros Hk. apply renderKeyOf_unparented in Hk as (-> & Hc).
  unfold disposeView. rewrite Hc. unfold disposeViewUnparentedVideo; simpl.
  destruct (getUnparentedRenderInfo _ _) as [info|]; [|done].
  by case_decide.
Qed.

Lemma unparentedViewOf_delete s st :
  unparentedViewOf (deleteDeviceManagerUnparentedView s st) s = None.
Proof. unfold unparentedViewOf, deleteDeviceManagerUnparentedView; simpl.
  by rewrite lookup_delete_eq. Qed.

(** X1: after [disposeView] the entry of its key holds no renderer handle
    and the snapshot shows no view for the key.  An entry that was
    [Rendering] is [Stopping]; any other entry is [NotRendered] for a
    call-scoped key and gone for an unparented stream; a missing entry stays
    missing.  No renderer is made. *)
Theorem disposeView_leaves_key_stopped callId participantId stream w key :
  renderKeyOf callId participantId stream = Some key →
  registryStatus (internalContext (disposeView callId participantId stream w)) key
    = match registryStatus (internalContext w) key with
      | None => None
      | Some Rendering => Some Stopping
      | Some _ =>
          match key with
          | UnparentedKey _ => None
          | _ => Some NotRendered
          end
      end ∧
  registryRenderer (internalContext (disposeView callId participantId stream w)) key = None ∧
  publishedView (context (disposeView callId participantId stream w)) key = None ∧
  nextRendererId (disposeView callId participantId stream w) = nextRendererId w.
Proof.
  intros Hk. destruct key as [c pk sid|c|s]; simpl.
  - rewrite (disposeView_remote_key _ _ _ _ _ _ _ Hk).
    destruct (getRemoteRenderInfoForParticipant (internalContext w) c pk sid)
      as [info|] eqn:Hget; simpl.
    + destruct (riRenderer info); simpl; rewrite getRemote_setRemote; simpl;
        (split_and!; [by destruct (riStatus info)|done|apply remoteViewOf_clear|done]).
    + rewrite Hget; simpl. split_and!; try done. apply remoteViewOf_clear.
  - rewrite (disposeView_local_key _ _ _ _ _ Hk).
    destruct (getLocalRenderInfo (internalContext w) c) as [info|] eqn:Hget; simpl.
    + destruct (riRenderer info); simpl; rewrite getLocal_setLocal; simpl;
        (split_and!; [by destruct (riStatus info)|done|apply localViewOf_clear|done]).
    + rewrite Hget; simpl. split_and!; try done. apply localViewOf_clear.
  - rewrite (disposeView_unparented_key _ _ _ _ _ Hk).
    destruct (getUnparentedRenderInfo (internalContext w) s) as [info|] eqn:Hget; simpl.
    + destruct (riRenderer info), (riStatus info); simpl;
        rewrite ?getUnparented_setUnparented, ?getUnparented_deleteUnparented; simpl;
        (split_and!; [done|done|apply unparentedViewOf_delete|done]).
    + rewrite Hget; simpl. split_and!; try done. apply unparentedViewOf_delete.
Qed.

(** X2: [disposeView] calls [dispose] on the renderer the entry of its key
    holds, once, and on no other renderer; when the entry holds none, or
    there is no entry, no renderer is disposed. *)
Theorem disposeView_disposes_what_the_entry_held callId participantId stream w key r :
  renderKeyOf callId participantId stream = Some key →
  disposeCount (disposeView callId participantId stream w) r
  = disposeCount w r +
    heldCount (rendererId r) (option_list (registryRenderer (internalContext w) key)).
Proof.
  intros Hk. destruct key as [c pk sid|c|s]; simpl.
  - rewrite (disposeView_remote_key _ _ _ _ _ _ _ Hk).
    destruct (getRemoteRenderInfoForParticipant (internalContext w) c pk sid)
      as [info|]; simpl.
    + by rewrite disposeCount_disposeIfHeld.
    + unfold heldCount; simpl. by rewrite Nat.add_0_r.
  - rewrite (disposeView_local_key _ _ _ _ _ Hk).
    destruct (getLocalRenderInfo (internalContext w) c) as [info|]; simpl.
    + by rewrite disposeCount_disposeIfHeld.
    + unfold heldCount; simpl. by rewrite Nat.add_0_r.
  - rewrite (disposeView_unparented_key _ _ _ _ _ Hk).
    destruct (getUnparentedRenderInfo (internalContext w) s) as [info|]; simpl.
    + by rewrite disposeCount_disposeIfHeld.
    + unfold heldCount; simpl. by rewrite Nat.add_0_r.
Qed.


(** ** Entries of other keys *)

Lemma registryAgreesOffKey_refl key ic : registryAgreesOffKey key ic ic.
Proof. by split_and!. Qed.

Lemma registryAgreesOffKey_setRemote c pk sid stream status renderer ic :
  registryAgreesOffKey (RemoteKey c pk sid) ic
    (setRemoteRenderInfo c pk sid stream status renderer ic).
Proof.
  split_and!; try done.
  intros c' pk' sid' Hne. apply getRemote_setRemote_ne. congruence.
Qed.

Lemma registryAgreesOffKey_setLocal c stream status renderer ic :
  registryAgreesOffKey (LocalKey c) ic (setLocalRenderInfo c stream status renderer ic).
Proof.
  split_and!; try done.
  intros c' Hne. unfold getLocalRenderInfo, setLocalRenderInfo; simpl.
  rewrite lookup_insert_ne; [done|congruence].
Qed.

Lemma registryAgreesOffKey_setUnparented s stream status renderer ic :
  registryAgreesOffKey (UnparentedKey s) ic
    (setUnparentedRenderInfo s stream status renderer ic).
Proof.
  split_and!; try done.
  intros s' Hne. unfold getUnparentedRenderInfo, setUnparentedRenderInfo; simpl.
  rewrite lookup_insert_ne; [done|by apply Hne].
Qed.

Lemma registryAgreesOffKey_deleteUnparented s ic :
  registryAgreesOffKey (UnparentedKey s) ic (deleteUnparentedRenderInfo s ic).
Proof.
  split_and!; try done.
  intros s' Hne. unfold getUnparentedRenderInfo, deleteUnparentedRenderInfo; simpl.
  rewrite lookup_delete_ne; [done|by apply Hne].
Qed.

Lemma internalContext_disposeIfHeld held w :
  internalContext (disposeIfHeld held w) = internalContext w.
Proof. by destruct held. Qed.

Lemma createView_registry_off_key callId participantId stream options w key :
  renderKeyOf callId participantId stream = Some key →
  registryAgreesOffKey key (internalContext w)
    (internalContext (createView callId participantId stream options w).2).
Proof.
  intros Hk. destruct key as [c pk sid|c|s].
  - apply renderKeyOf_remote in Hk as (s & p & -> & Hc & Hp & -> & ->).
    rewrite (createView_remote _ _ _ _ _ _ _ Hc Hp). unfold createViewRemoteVideo.
    replace (match p with
             | ParticipantKey key => key
             | ParticipantKind kind => toFlatCommunicationIdentifier kind
             end) with (participantKeyOf p) by done.
    destruct (getRemoteRenderInfoForParticipant _ _ _ _) as [info|];
      [|apply registryAgreesOffKey_refl].
    repeat case_decide; try apply registryAgreesOffKey_refl.
    apply registryAgreesOffKey_setRemote.
  - apply renderKeyOf_local in Hk as (s & -> & Hc).
    rewrite (createView_local _ _ _ _ _ _ Hc). unfold createViewLocalVideo.
    destruct (getLocalRenderInfo _ _) as [info|]; [|apply registryAgreesOffKey_refl].
    repeat case_decide; try apply registryAgreesOffKey_refl.
    apply registryAgreesOffKey_setLocal.
  - apply renderKeyOf_unparented in Hk as (-> & Hc).
    rewrite (createView_unparented _ _ _ _ _ Hc). unfold createViewUnparentedVideo.
    repeat case_decide; try apply registryAgreesOffKey_refl.
    apply registryAgreesOffKey_setUnparented.
Qed.

Lemma resumeCreateView_registry_off_key k created w :
  registryAgreesOffKey (suspensionKey k) (internalContext w)
    (internalContext (resumeCreateView k created w).2).
Proof.
  destruct k as [c pk sid rs r o|c rs r o|s ls r o], created as [view|e]; simpl.
  - destruct (getRemoteRenderInfoForParticipant _ _ _ _) as [info|]; simpl;
      [|apply registryAgreesOffKey_refl].
    case_decide; apply registryAgreesOffKey_setRemote.
  - apply registryAgreesOffKey_setRemote.
  - destruct (getLocalRenderInfo _ _) as [info|]; simpl;
      [|apply registryAgreesOffKey_refl].
    case_decide; apply registryAgreesOffKey_setLocal.
  - apply registryAgreesOffKey_setLocal.
  - destruct (getUnparentedRenderInfo _ _) as [info|]; simpl;
      [|apply registryAgreesOffKey_refl].
    case_decide;
      [apply registryAgreesOffKey_deleteUnparented|apply registryAgreesOffKey_setUnparented].
  - apply registryAgreesOffKey_deleteUnparented.
Qed.

Lemma disposeView_registry_off_key callId participantId stream w key :
  renderKeyOf callId participantId stream = Some key →
  registryAgreesOffKey key (internalContext w)
    (internalContext (disposeView callId participantId stream w)).
Proof.
  intros Hk. destruct key as [c pk sid|c|s].
  - rewrite (disposeView_remote_key _ _ _ _ _ _ _ Hk).
    destruct (getRemoteRenderInfoForParticipant _ _ _ _) as [info|];
      [|apply registryAgreesOffKey_refl].
    rewrite internalContext_disposeIfHeld. apply registryAgreesOffKey_setRemote.
  - rewrite (disposeView_local_key _ _ _ _ _ Hk).
    destruct (getLocalRenderInfo _ _) as [info|]; [|apply registryAgreesOffKey_refl].
    rewrite internalContext_disposeIfHeld. apply registryAgreesOffKey_setLocal.
  - rewrite (disposeView_unparented_key _ _ _ _ _ Hk).
    destruct (getUnparentedRenderInfo _ _) as [info|]; [|apply registryAgreesOffKey_refl].
    rewrite internalContext_disposeIfHeld; simpl.
    case_decide;
      [apply registryAgreesOffKey_setUnparented|apply registryAgreesOffKey_deleteUnparented].
Qed.

(** X4: [createView], the resumption of a suspended [createView] (whatever
    the renderer creation settled with) and [disposeView] change no registry
    entry other than the entry of their own key. *)
Theorem lifecycle_touches_only_its_key callId participantId stream options w key :
  renderKeyOf callId participantId stream = Some key →
  registryAgreesOffKey key (internalContext w)
    (internalContext (createView callId participantId stream options w).2) ∧
  registryAgreesOffKey key (internalContext w)
    (internalContext (disposeView callId participantId stream w)) ∧
  ∀ k w1 created w2,
    createView callId participantId stream options w = (Pending k, w1) →
    registryAgreesOffKey key (internalContext w2)
      (internalContext (resumeCreateView k created w2).2).
Proof.
  intros Hk. split_and!.
  - by apply createView_registry_off_key.
  - by apply disposeView_registry_off_key.
  - intros k w1 created w2 Hp.
    destruct (createView_pending _ _ _ _ _ _ _ Hp) as (Hk' & _).
    assert (key = suspensionKey k) as -> by congruence.
    apply resumeCreateView_registry_off_key.
Qed.

(** ** The part of [createView] before the [await] *)

(** X5: up to its [await], [createView] never touches the store and never
    disposes a renderer; the promise it returns is either already fulfilled
    with [undefined] or pending, never a result and never a rejection; and
    it makes a renderer exactly when it suspends. *)
Theorem createView_before_await callId participantId stream options w :
  context (createView callId participantId stream options w).2 = context w ∧
  disposeCalls (createView callId participantId stream options w).2 = disposeCalls w ∧
  ((createView callId participantId stream options w).1 = Fulfilled None ∧
   internalContext (createView callId participantId stream options w).2 = internalContext w ∧
   nextRendererId (createView callId participantId stream options w).2 = nextRendererId w
   ∨
   ∃ k, (createView callId participantId stream options w).1 = Pending k ∧
        rendererId (pendingRenderer k) = nextRendererId w ∧
        nextRendererId (createView callId participantId stream options w).2
          = S (nextRendererId w)).
Proof.
  unfold createView.
  destruct stream as [s|s], (truthyString callId) as [c|],
    (truthyParticipant participantId) as [p|]; simpl;
    try (split_and!; [done|done|left; by split_and!]).
  1,2: unfold createViewLocalVideo;
    destruct (getLocalRenderInfo _ _) as [info|]; simpl;
    [|split_and!; [done|done|left; by split_and!]];
    repeat case_decide; simpl;
    (split_and!; [done|done|first [left; by split_and! | right; by eexists]]).
  1,2: unfold createViewUnparentedVideo;
    repeat case_decide; simpl;
    (split_and!; [done|done|first [left; by split_and! | right; by eexists]]).
  unfold createViewRemoteVideo.
  destruct (getRemoteRenderInfoForParticipant _ _ _ _) as [info|]; simpl;
    [|split_and!; [done|done|left; by split_and!]].
  repeat case_decide; simpl;
    (split_and!; [done|done|first [left; by split_and! | right; by eexists]]).
Qed.

(** X6: [createView] for a call-scoped key (remote or local) that has no
    registry entry creates nothing: it returns a promise fulfilled with
    [undefined], leaves registry, store and renderers as they were, and
    prints one warning. *)
Theorem createView_without_entry_call_scoped callId participantId stream options w key :
  renderKeyOf callId participantId stream = Some key →
  (∀ s, key ≠ UnparentedKey s) →
  registryStatus (internalContext w) key = None →
  returnsEmptyUntouched (createView callId participantId stream options w) w ∧
  ∃ message,
    console (createView callId participantId stream options w).2 = message :: console w.
Proof.
  intros Hk Hscoped Hnone. destruct key as [c pk sid|c|s]; simpl in *.
  - apply renderKeyOf_remote in Hk as (s & p & -> & Hc & Hp & -> & ->).
    rewrite (createView_remote _ _ _ _ _ _ _ Hc Hp). unfold createViewRemoteVideo.
    replace (match p with
             | ParticipantKey key => key
             | ParticipantKind kind => toFlatCommunicationIdentifier kind
             end) with (participantKeyOf p) by done.
    destruct (getRemoteRenderInfoForParticipant _ _ _ _); [done|].
    split; [done|by eexists].
  - apply renderKeyOf_local in Hk as (s & -> & Hc).
    rewrite (createView_local _ _ _ _ _ _ Hc). unfold createViewLocalVideo.
    destruct (getLocalRenderInfo _ _); [done|].
    split; [done|by eexists].
  - by destruct (Hscoped s).
Qed.

(** ** The part of [createView] after the [await] *)

Lemma unparentedViewOf_set s view st :
  unparentedViewOf (setDeviceManagerUnparentedView s view st) s = Some view.
Proof.
  unfold unparentedViewOf, setDeviceManagerUnparentedView; simpl.
  by rewrite lookup_insert_eq.
Qed.

Lemma resumeCreateView_commit k view w st :
  registryStatus (internalContext w) (suspensionKey k) = Some st →
  st ≠ Stopping →
  (resumeCreateView k (inl view) w).1
    = Fulfilled (Some (mkCreateViewResult (pendingRenderer k) view)) ∧
  registryStatus (internalContext (resumeCreateView k (inl view) w).2) (suspensionKey k)
    = Some Rendered ∧
  registryRenderer (internalContext (resumeCreateView k (inl view) w).2) (suspensionKey k)
    = Some (pendingRenderer k) ∧
  disposeCalls (resumeCreateView k (inl view) w).2 = disposeCalls w ∧
  nextRendererId (resumeCreateView k (inl view) w).2 = nextRendererId w ∧
  (hasSlot (context w) (suspensionKey k) →
   publishedView (context (resumeCreateView k (inl view) w).2) (suspensionKey k)
     = Some (convertFromSDKToDeclarativeVideoStreamRendererView view)).
Proof.
  intros Hst Hne. destruct k as [c pk sid rs r o|c rs r o|s ls r o]; simpl in *.
  - destruct (getRemoteRenderInfoForParticipant _ _ _ _) as [info|]; simplify_eq/=.
    rewrite decide_False by done; simpl. rewrite getRemote_setRemote; simpl.
    split_and!; try done.
    intros [slot Hslot]. rewrite remoteViewOf_set. by rewrite Hslot.
  - destruct (getLocalRenderInfo _ _) as [info|]; simplify_eq/=.
    rewrite decide_False by done; simpl. rewrite getLocal_setLocal; simpl.
    split_and!; try done.
    intros [slot Hslot]. rewrite localViewOf_set. by rewrite Hslot.
  - destruct (getUnparentedRenderInfo _ _) as [info|]; simplify_eq/=.
    rewrite decide_False by done; simpl. rewrite getUnparented_setUnparented; simpl.
    split_and!; try done.
    intros _. apply unparentedViewOf_set.
Qed.

(** X7: when the renderer creation of a suspended [createView] succeeds and
    the entry of its key is then present with any status but [Stopping], the
    call writes [Rendered] with the renderer it made (the one numbered by the
    allocation counter at the call), disposes nothing, and
    fulfils its promise with that renderer and the view, for all three
    classes of keys; the snapshot then shows the converted view wherever it
    has a place for it, and always for an unparented stream. *)
Theorem successful_creation_commits_rendered callId participantId stream options w k w1
    view w2 st :
  createView callId participantId stream options w = (Pending k, w1) →
  registryStatus (internalContext w2) (suspensionKey k) = Some st →
  st ≠ Stopping →
  rendererId (pendingRenderer k) = nextRendererId w ∧
  (resumeCreateView k (inl view) w2).1
    = Fulfilled (Some (mkCreateViewResult (pendingRenderer k) view)) ∧
  registryStatus (internalContext (resumeCreateView k (inl view) w2).2) (suspensionKey k)
    = Some Rendered ∧
  registryRenderer (internalContext (resumeCreateView k (inl view) w2).2) (suspensionKey k)
    = Some (pendingRenderer k) ∧
  disposeCalls (resumeCreateView k (inl view) w2).2 = disposeCalls w2 ∧
  (hasSlot (context w2) (suspensionKey k) →
   publishedView (context (resumeCreateView k (inl view) w2).2) (suspensionKey k)
     = Some (convertFromSDKToDeclarativeVideoStreamRendererView view)).
Proof.
  intros Hp Hst Hne.
  destruct (createView_pending _ _ _ _ _ _ _ Hp) as (_ & _ & Hfresh & _).
  destruct (resumeCreateView_commit k view w2 st Hst Hne) as (? & ? & ? & ? & ? & ?).
  by split_and!.
Qed.

Lemma resumeCreateView_entry_gone k view w :
  registryStatus (internalContext w) (suspensionKey k) = None →
  (resumeCreateView k (inl view) w).1 = Fulfilled None ∧
  internalContext (resumeCreateView k (inl view) w).2 = internalContext w ∧
  publishedView (context (resumeCreateView k (inl view) w).2) (suspensionKey k) = None ∧
  nextRendererId (resumeCreateView k (inl view) w).2 = nextRendererId w ∧
  ∀ r, disposeCount (resumeCreateView k (inl view) w).2 r
       = disposeCount w r + heldCount (rendererId r) [pendingRenderer k].
Proof.
  intros Hnone. destruct k as [c pk sid rs r o|c rs r o|s ls r o]; simpl in *.
  - destruct (getRemoteRenderInfoForParticipant _ _ _ _) as [info|]; simplify_eq/=.
    split_and!; try done; [apply remoteViewOf_clear|].
    intros r'. apply disposeCount_dispose.
  - destruct (getLocalRenderInfo _ _) as [info|]; simplify_eq/=.
    split_and!; try done; [apply localViewOf_clear|].
    intros r'. apply disposeCount_dispose.
  - destruct (getUnparentedRenderInfo _ _) as [info|]; simplify_eq/=.
    split_and!; try done; [apply unparentedViewOf_delete|].
    intros r'. apply disposeCount_dispose.
Qed.

(** X8: when the renderer creation of a suspended [createView] succeeds but
    the entry of its key has been removed meanwhile, the call disposes the
    renderer it made, once, clears the view of the key, writes nothing into
    the registry (the entry is not brought back) and returns empty. *)
Theorem successful_creation_without_entry_discards callId participantId stream options w k w1
    view w2 :
  createView callId participantId stream options w = (Pending k, w1) →
  registryStatus (internalContext w2) (suspensionKey k) = None →
  rendererId (pendingRenderer k) = nextRendererId w ∧
  (resumeCreateView k (inl view) w2).1 = Fulfilled None ∧
  internalContext (resumeCreateView k (inl view) w2).2 = internalContext w2 ∧
  publishedView (context (resumeCreateView k (inl view) w2).2) (suspensionKey k) = None ∧
  disposeCount (resumeCreateView k (inl view) w2).2 (pendingRenderer k)
    = S (disposeCount w2 (pendingRenderer k)) ∧
  ∀ r, rendererId r ≠ rendererId (pendingRenderer k) →
       disposeCount (resumeCreateView k (inl view) w2).2 r = disposeCount w2 r.
Proof.
  intros Hpend Hnone.
  destruct (createView_pending _ _ _ _ _ _ _ Hpend) as (_ & _ & Hfresh & _).
  destruct (resumeCreateView_entry_gone k view w2 Hnone) as (Hp & Hic & Hv & _ & Hcount).
  split_and!; try done.
  - rewrite Hcount. unfold heldCount. rewrite filter_cons, decide_True by done.
    simpl. lia.
  - intros r Hne. rewrite Hcount. unfold heldCount.
    rewrite filter_cons, decide_False by done. simpl. lia.
Qed.

(** ** How the calls compose *)

Lemma disposeView_key_effect callId participantId stream w key :
  renderKeyOf callId participantId stream = Some key →
  registryStatus (internalContext (disposeView callId participantId stream w)) key
    = match registryStatus (internalContext w) key with
      | None => None
      | Some Rendering => Some Stopping
      | Some _ =>
          match key with
          | UnparentedKey _ => None
          | _ => Some NotRendered
          end
      end ∧
  registryRenderer (internalContext (disposeView callId participantId stream w)) key = None ∧
  publishedView (context (disposeView callId participantId stream w)) key = None ∧
  nextRendererId (disposeView callId participantId stream w) = nextRendererId w ∧
  (hasSlot (context w) key →
   hasSlot (context (disposeView callId participantId stream w)) key) ∧
  ∀ r, disposeCount (disposeView callId participantId stream w) r
       = disposeCount w r +
         heldCount (rendererId r) (option_list (registryRenderer (internalContext w) key)).
Proof.
  intros Hk. destruct key as [c pk sid|c|s]; simpl.
  - rewrite (disposeView_remote_key _ _ _ _ _ _ _ Hk).
    assert (is_Some (remoteSlot (context w) c pk sid) →
            is_Some (remoteSlot (setRemoteVideoStreamRendererView c pk sid None (context w))
                       c pk sid)) as Hslot.
    { intros [slot Hslot]. rewrite remoteSlot_set, decide_True by done.
      rewrite Hslot. by eexists. }
    destruct (getRemoteRenderInfoForParticipant (internalContext w) c pk sid)
      as [info|] eqn:Hget; simpl.
    + split_and!.
      * rewrite internalContext_disposeIfHeld; simpl. rewrite getRemote_setRemote; simpl.
        by destruct (riStatus info).
      * rewrite internalContext_disposeIfHeld; simpl. by rewrite getRemote_setRemote.
      * destruct (riRenderer info); apply remoteViewOf_clear.
      * by destruct (riRenderer info).
      * by destruct (riRenderer info).
      * intros r. by rewrite disposeCount_disposeIfHeld.
    + rewrite Hget; simpl.
      split_and!; [done|done|apply remoteViewOf_clear|done|exact Hslot|].
      intros r. unfold heldCount; simpl. by rewrite Nat.add_0_r.
  - rewrite (disposeView_local_key _ _ _ _ _ Hk).
    assert (is_Some (localViews (context w) !! c) →
            is_Some (localViews (setLocalVideoStreamRendererView c None (context w)) !! c))
      as Hslot.
    { intros [slot Hslot]. unfold setLocalVideoStreamRendererView. rewrite Hslot; simpl.
      rewrite lookup_insert_eq. by eexists. }
    destruct (getLocalRenderInfo (internalContext w) c) as [info|] eqn:Hget; simpl.
    + split_and!.
      * rewrite internalContext_disposeIfHeld; simpl. rewrite getLocal_setLocal; simpl.
        by destruct (riStatus info).
      * rewrite internalContext_disposeIfHeld; simpl. by rewrite getLocal_setLocal.
      * destruct (riRenderer info); apply localViewOf_clear.
      * by destruct (riRenderer info).
      * by destruct (riRenderer info).
      * intros r. by rewrite disposeCount_disposeIfHeld.
    + rewrite Hget; simpl.
      split_and!; [done|done|apply localViewOf_clear|done|exact Hslot|].
      intros r. unfold heldCount; simpl. by rewrite Nat.add_0_r.
  - rewrite (disposeView_unparented_key _ _ _ _ _ Hk).
    destruct (getUnparentedRenderInfo (internalContext w) s) as [info|] eqn:Hget; simpl.
    + split_and!.
      * rewrite internalContext_disposeIfHeld; simpl.
        destruct (riStatus info); simpl;
          by rewrite ?getUnparented_setUnparented, ?getUnparented_deleteUnparented.
      * rewrite internalContext_disposeIfHeld; simpl.
        case_decide; simpl;
          by rewrite ?getUnparented_setUnparented, ?getUnparented_deleteUnparented.
      * destruct (riRenderer info); apply unparentedViewOf_delete.
      * by destruct (riRenderer info).
      * done.
      * intros r. by rewrite disposeCount_disposeIfHeld.
    + rewrite Hget; simpl.
      split_and!; [done|done|apply unparentedViewOf_delete|done|done|].
      intros r. unfold heldCount; simpl. by rewrite Nat.add_0_r.
Qed.

(** [createView] goes as far as the [await] when the entry of its key is
    [NotRendered], and also when an unparented stream has no entry. *)
Lemma createView_suspends callId participantId stream options w key :
  renderKeyOf callId participantId stream = Some key →
  registryStatus (internalContext w) key = Some NotRendered ∨
  (registryStatus (internalContext w) key = None ∧ ∃ s, key = UnparentedKey s) →
  ∃ k w1, createView callId participantId stream options w = (Pending k, w1).
Proof.
  intros Hk Hst. destruct key as [c pk sid|c|s]; simpl in *.
  - apply renderKeyOf_remote in Hk as (s & p & -> & Hc & Hp & -> & ->).
    rewrite (createView_remote _ _ _ _ _ _ _ Hc Hp). unfold createViewRemoteVideo.
    replace (match p with
             | ParticipantKey key => key
             | ParticipantKind kind => toFlatCommunicationIdentifier kind
             end) with (participantKeyOf p) by done.
    destruct Hst as [Hst|[_ [? [=]]]].
    destruct (getRemoteRenderInfoForParticipant _ _ _ _) as [info|]; simplify_eq/=.
    rewrite Hst; simpl. by eexists _, _.
  - apply renderKeyOf_local in Hk as (s & -> & Hc).
    rewrite (createView_local _ _ _ _ _ _ Hc). unfold createViewLocalVideo.
    destruct Hst as [Hst|[_ [? [=]]]].
    destruct (getLocalRenderInfo _ _) as [info|]; simplify_eq/=.
    rewrite Hst; simpl. by eexists _, _.
  - apply renderKeyOf_unparented in Hk as (-> & Hc).
    rewrite (createView_unparented _ _ _ _ _ Hc). unfold createViewUnparentedVideo.
    destruct Hst as [Hst|[Hst _]]; rewrite Hst; simpl; by eexists _, _.
Qed.

Lemma heldCount_self r : heldCount (rendererId r) [r] = 1.
Proof. unfold heldCount. by rewrite filter_cons, decide_True. Qed.

(** X9: a view that is created and then disposed uses its renderer up: when
    [createView] suspends, the creation succeeds at once and [disposeView]
    is then called with the same arguments, the promise has carried the
    renderer and the view, the renderer has received exactly one [dispose]
    call, the snapshot shows no view, the entry holds no renderer
    ([NotRendered], or gone for an unparented stream), and a further
    [createView] with the same arguments suspends again. *)
Theorem create_then_dispose_uses_renderer_once callId participantId stream options w k w1
    view :
  createView callId participantId stream options w = (Pending k, w1) →
  let w2 := (resumeCreateView k (inl view) w1).2 in
  let w3 := disposeView callId participantId stream w2 in
  (resumeCreateView k (inl view) w1).1
    = Fulfilled (Some (mkCreateViewResult (pendingRenderer k) view)) ∧
  disposeCount w3 (pendingRenderer k) = S (disposeCount w (pendingRenderer k)) ∧
  publishedView (context w3) (suspensionKey k) = None ∧
  registryRenderer (internalContext w3) (suspensionKey k) = None ∧
  registryStatus (internalContext w3) (suspensionKey k)
    = match suspensionKey k with
      | UnparentedKey _ => None
      | _ => Some NotRendered
      end ∧
  ∃ k' w4, createView callId participantId stream options w3 = (Pending k', w4).
Proof.
  intros Hp w2 w3.
  destruct (createView_pending _ _ _ _ _ _ _ Hp) as (Hk & Hst & _ & _ & _ & Hd1).
  destruct (resumeCreateView_commit k view w1 Rendering Hst)
    as (Hres & Hst2 & Hr2 & Hd2 & _ & _); [done|].
  fold w2 in Hst2, Hr2, Hd2.
  destruct (disposeView_key_effect callId participantId stream w2 _ Hk)
    as (Hst3 & Hr3 & Hv3 & _ & _ & Hd3).
  fold w3 in Hst3, Hr3, Hv3, Hd3. rewrite Hst2 in Hst3.
  split_and!; try done.
  - rewrite Hd3, Hr2; simpl. rewrite heldCount_self.
    rewrite (disposeCount_frame w1 w2), (disposeCount_frame w w1) by done. lia.
  - apply createView_suspends with (key := suspensionKey k); [done|].
    rewrite Hst3. destruct (suspensionKey k); eauto.
Qed.

(** X10: a second [disposeView] before the creation resumes takes the stop
    request back for a call-scoped key: the first call turns [Rendering]
    into [Stopping], the second turns [Stopping] into [NotRendered], and the
    creation that then succeeds commits [Rendered] with its renderer,
    returns the result and publishes the view where the snapshot has a
    place for it. *)
Theorem second_disposeView_revives_creation callId participantId stream options w k w1 view :
  createView callId participantId stream options w = (Pending k, w1) →
  (∀ s, suspensionKey k ≠ UnparentedKey s) →
  let w2 := disposeView callId participantId stream w1 in
  let w3 := disposeView callId participantId stream w2 in
  registryStatus (internalContext w2) (suspensionKey k) = Some Stopping ∧
  registryStatus (internalContext w3) (suspensionKey k) = Some NotRendered ∧
  (resumeCreateView k (inl view) w3).1
    = Fulfilled (Some (mkCreateViewResult (pendingRenderer k) view)) ∧
  registryStatus (internalContext (resumeCreateView k (inl view) w3).2) (suspensionKey k)
    = Some Rendered ∧
  registryRenderer (internalContext (resumeCreateView k (inl view) w3).2) (suspensionKey k)
    = Some (pendingRenderer k) ∧
  (hasSlot (context w) (suspensionKey k) →
   publishedView (context (resumeCreateView k (inl view) w3).2) (suspensionKey k)
     = Some (convertFromSDKToDeclarativeVideoStreamRendererView view)).
Proof.
  intros Hp Hscoped w2 w3.
  destruct (createView_pending _ _ _ _ _ _ _ Hp) as (Hk & Hst & _ & _ & Hctx & _).
  destruct (disposeView_key_effect callId participantId stream w1 _ Hk)
    as (Hst2 & _ & _ & _ & Hslot2 & _).
  fold w2 in Hst2, Hslot2. rewrite Hst in Hst2.
  destruct (disposeView_key_effect callId participantId stream w2 _ Hk)
    as (Hst3 & _ & _ & _ & Hslot3 & _).
  fold w3 in Hst3, Hslot3. rewrite Hst2 in Hst3.
  assert (registryStatus (internalContext w3) (suspensionKey k) = Some NotRendered) as Hst3'.
  { rewrite Hst3. destruct (suspensionKey k) as [| |s]; try done. by destruct (Hscoped s). }
  destruct (resumeCreateView_commit k view w3 NotRendered Hst3')
    as (Hres & Hst4 & Hr4 & _ & _ & Hv4); [done|].
  split_and!; try done.
  intros Hslot. apply Hv4, Hslot3, Hslot2. by rewrite Hctx.
Qed.

(** X11: for an unparented stream the second [disposeView] deletes the
    entry instead, and the creation that then succeeds finds no entry: it
    disposes its renderer, once, publishes nothing and returns empty. *)
Theorem second_disposeView_unparented_discards callId participantId stream options w k w1
    view s :
  createView callId participantId stream options w = (Pending k, w1) →
  suspensionKey k = UnparentedKey s →
  let w2 := disposeView callId participantId stream w1 in
  let w3 := disposeView callId participantId stream w2 in
  registryStatus (internalContext w2) (suspensionKey k) = Some Stopping ∧
  registryStatus (internalContext w3) (suspensionKey k) = None ∧
  (resumeCreateView k (inl view) w3).1 = Fulfilled None ∧
  registryStatus (internalContext (resumeCreateView k (inl view) w3).2) (suspensionKey k)
    = None ∧
  publishedView (context (resumeCreateView k (inl view) w3).2) (suspensionKey k) = None ∧
  disposeCount (resumeCreateView k (inl view) w3).2 (pendingRenderer k)
    = S (disposeCount w (pendingRenderer k)).
Proof.
  intros Hp Hkey w2 w3.
  destruct (createView_pending _ _ _ _ _ _ _ Hp) as (Hk & Hst & _ & _ & _ & Hd1).
  assert (registryRenderer (internalContext w1) (suspensionKey k) = None) as Hr1.
  { revert Hp. rewrite Hkey in Hk. apply renderKeyOf_unparented in Hk as (-> & Hc).
    rewrite (createView_unparented _ _ _ _ _ Hc). unfold createViewUnparentedVideo.
    repeat case_decide; try done. intros [= <- <-]; simpl.
    by rewrite getUnparented_setUnparented. }
  destruct (disposeView_key_effect callId participantId stream w1 _ Hk)
    as (Hst2 & Hr2 & _ & _ & _ & Hd2).
  fold w2 in Hst2, Hr2, Hd2. rewrite Hst in Hst2.
  destruct (disposeView_key_effect callId participantId stream w2 _ Hk)
    as (Hst3 & _ & _ & _ & _ & Hd3).
  fold w3 in Hst3, Hd3. rewrite Hst2 in Hst3. rewrite Hkey in Hst3 at 2.
  destruct (resumeCreateView_entry_gone k view w3 Hst3) as (Hres & Hic & Hv & _ & Hd4).
  split_and!; try done.
  - by rewrite Hic.
  - rewrite Hd4, Hd3, Hd2, Hr2, Hr1; simpl. rewrite heldCount_self.
    rewrite (disposeCount_frame w w1) by done. unfold heldCount; simpl. lia.
Qed.

(** X12: a failed creation can be tried again: whatever happened to the
    world while the call was suspended, after the rejection a [createView]
    with the same arguments goes as far as the [await] again. *)
Theorem createView_can_be_retried_after_failure callId participantId stream options w k w1
    e w2 :
  createView callId participantId stream options w = (Pending k, w1) →
  ∃ k' w3,
    createView callId participantId stream options (resumeCreateView k (inr e) w2).2
    = (Pending k', w3) ∧
    rendererId (pendingRenderer k') = nextRendererId w2.
Proof.
  intros Hp.
  destruct (createView_pending _ _ _ _ _ _ _ Hp) as (Hk & _).
  destruct (createView_suspends callId participantId stream options
              (resumeCreateView k (inr e) w2).2 _ Hk) as (k' & w3 & Hp').
  - destruct k; simpl.
    + left. by rewrite getRemote_setRemote.
    + left. by rewrite getLocal_setLocal.
    + right. rewrite getUnparented_deleteUnparented. eauto.
  - exists k', w3. split; [done|].
    destruct (createView_pending _ _ _ _ _ _ _ Hp') as (_ & _ & -> & _).
    by destruct k.
Qed.

(** ** Status and handle of remote and unparented entries *)

Lemma consistent_setRemote c pk sid stream status renderer ic :
  (status = Rendered ↔ is_Some renderer) →
  remoteAndUnparentedConsistent ic →
  remoteAndUnparentedConsistent (setRemoteRenderInfo c pk sid stream status renderer ic).
Proof.
  intros Hconf [Hrem Hunp]. split; [|done].
  intros c' pk' sid' info.
  destruct (decide ((c, pk, sid) = (c', pk', sid'))) as [[= <- <- <-]|Hne].
  - rewrite getRemote_setRemote. by intros [= <-].
  - rewrite getRemote_setRemote_ne by done. apply Hrem.
Qed.

Lemma consistent_setLocal c stream status renderer ic :
  remoteAndUnparentedConsistent ic →
  remoteAndUnparentedConsistent (setLocalRenderInfo c stream status renderer ic).
Proof. by intros [Hrem Hunp]. Qed.

Lemma consistent_setUnparented s stream status renderer ic :
  (status = Rendered ↔ is_Some renderer) →
  remoteAndUnparentedConsistent ic →
  remoteAndUnparentedConsistent (setUnparentedRenderInfo s stream status renderer ic).
Proof.
  intros Hconf [Hrem Hunp]. split; [done|].
  intros s' info. unfold getUnparentedRenderInfo, setUnparentedRenderInfo; simpl.
  destruct (decide (localRef s = localRef s')) as [->|Hne].
  - rewrite lookup_insert_eq. by intros [= <-].
  - rewrite lookup_insert_ne by done. apply (Hunp s').
Qed.

Lemma consistent_deleteUnparented s ic :
  remoteAndUnparentedConsistent ic →
  remoteAndUnparentedConsistent (deleteUnparentedRenderInfo s ic).
Proof.
  intros [Hrem Hunp]. split; [done|].
  intros s' info. unfold getUnparentedRenderInfo, deleteUnparentedRenderInfo; simpl.
  destruct (decide (localRef s = localRef s')) as [->|Hne].
  - by rewrite lookup_delete_eq.
  - rewrite lookup_delete_ne by done. apply (Hunp s').
Qed.

Lemma not_rendered_no_handle (status : RenderStatus) :
  status ≠ Rendered → status = Rendered ↔ is_Some (@None VideoStreamRenderer).
Proof. intros Hne. split; [done|]. by intros [? ?]. Qed.

Lemma rendered_with_handle (r : VideoStreamRenderer) :
  Rendered = Rendered ↔ is_Some (Some r).
Proof. split; [by eexists|done]. Qed.

Lemma consistent_createView callId participantId stream options w :
  remoteAndUnparentedConsistent (internalContext w) →
  remoteAndUnparentedConsistent
    (internalContext (createView callId participantId stream options w).2).
Proof.
  intros Hinv. unfold createView.
  destruct stream as [s|s], (truthyString callId) as [c|],
    (truthyParticipant participantId) as [p|]; simpl; try done.
  1,2: unfold createViewLocalVideo;
    destruct (getLocalRenderInfo _ _) as [info|]; simpl; [|done];
    repeat case_decide; simpl; try done; by apply consistent_setLocal.
  1,2: unfold createViewUnparentedVideo;
    repeat case_decide; simpl; try done;
    by apply consistent_setUnparented; [apply not_rendered_no_handle|].
  unfold createViewRemoteVideo.
  destruct (getRemoteRenderInfoForParticipant _ _ _ _) as [info|]; simpl; [|done].
  repeat case_decide; simpl; try done.
  by apply consistent_setRemote; [apply not_rendered_no_handle|].
Qed.

Lemma consistent_resumeCreateView k created w :
  remoteAndUnparentedConsistent (internalContext w) →
  remoteAndUnparentedConsistent (internalContext (resumeCreateView k created w).2).
Proof.
  intros Hinv.
  destruct k as [c pk sid rs r o|c rs r o|s ls r o], created as [view|e]; simpl.
  - destruct (getRemoteRenderInfoForParticipant _ _ _ _) as [info|]; simpl; [|done].
    case_decide; simpl; apply consistent_setRemote;
      by first [apply not_rendered_no_handle|apply rendered_with_handle|idtac].
  - by apply consistent_setRemote; [apply not_rendered_no_handle|].
  - destruct (getLocalRenderInfo _ _) as [info|]; simpl; [|done].
    case_decide; simpl; by apply consistent_setLocal.
  - by apply consistent_setLocal.
  - destruct (getUnparentedRenderInfo _ _) as [info|]; simpl; [|done].
    case_decide; simpl; [by apply consistent_deleteUnparented|].
    by apply consistent_setUnparented; [apply rendered_with_handle|].
  - by apply consistent_deleteUnparented.
Qed.

Lemma consistent_disposeView callId participantId stream w :
  remoteAndUnparentedConsistent (internalContext w) →
  remoteAndUnparentedConsistent (internalContext (disposeView callId participantId stream w)).
Proof.
  intros Hinv.
  destruct (renderKeyOf callId participantId stream) as [[c pk sid|c|s]|] eqn:Hk.
  - rewrite (disposeView_remote_key _ _ _ _ _ _ _ Hk).
    destruct (getRemoteRenderInfoForParticipant _ _ _ _) as [info|]; [|done].
    rewrite internalContext_disposeIfHeld; simpl.
    apply consistent_setRemote; [|done]. apply not_rendered_no_handle. by case_decide.
  - rewrite (disposeView_local_key _ _ _ _ _ Hk).
    destruct (getLocalRenderInfo _ _) as [info|]; [|done].
    rewrite internalContext_disposeIfHeld; simpl. by apply consistent_setLocal.
  - rewrite (disposeView_unparented_key _ _ _ _ _ Hk).
    destruct (getUnparentedRenderInfo _ _) as [info|]; [|done].
    rewrite internalContext_disposeIfHeld; simpl.
    case_decide; [|by apply consistent_deleteUnparented].
    by apply consistent_setUnparented; [apply not_rendered_no_handle|].
  - revert Hk. unfold renderKeyOf, disposeView.
    by destruct stream, (truthyString callId), (truthyParticipant participantId).
Qed.

(** X13: whatever [createView] and [disposeView] calls are made, with
    whatever arguments, and however the renderer creations settle in
    between, every remote entry and every unparented entry of the registry
    stays [Rendered] exactly when it holds a renderer handle. *)
Theorem remote_and_unparented_entries_stay_consistent (c : Client) (evs : list LifecycleEvent) :
  remoteAndUnparentedConsistent (internalContext (world c)) →
  remoteAndUnparentedConsistent (internalContext (world (lifecycleRun c evs))).
Proof.
  unfold lifecycleRun. revert c.
  induction evs as [|ev evs IH]; intros c Hinv; simpl; [done|].
  apply IH. destruct ev as [callId pid stream options|callId pid stream|i created]; simpl.
  - pose proof (consistent_createView callId pid stream options (world c) Hinv) as Hafter.
    destruct (createView callId pid stream options (world c)) as [[result|e|k] w'];
      apply Hafter.
  - by apply consistent_disposeView.
  - destruct (suspended c !! i) as [k|]; simpl; [|done].
    by apply consistent_resumeCreateView.
Qed.

(** ** Who owns a renderer *)

Lemma ownership_ext held held' count count' next calls :
  (∀ slot, held' slot = held slot) →
  (∀ r, count' r = count r) →
  ownership held count next calls → ownership held' count' next calls.
Proof.
  intros Hh Hc (I1 & I2 & I3 & I4 & I5 & I6 & I7 & I8). split_and!; try done.
  - intros slot r. rewrite Hh, Hc. apply I2.
  - intros slot slot' r r'. rewrite !Hh. apply I3.
  - intros k Hk. rewrite Hc. by apply I4.
  - intros r. rewrite Hc. apply I6.
  - intros r. rewrite Hc. apply I7.
  - intros r r'. rewrite !Hc. apply I8.
Qed.

(** A place is emptied. *)
Lemma ownership_clear held held' count next calls slot0 :
  (∀ slot, slot ≠ slot0 → held' slot = held slot) →
  held' slot0 = None →
  ownership held count next calls → ownership held' count next calls.
Proof.
  intros Hoff Hat (I1 & I2 & I3 & I4 & I5 & I6 & I7 & I8). split_and!; try done.
  - intros slot r Hr. destruct (decide (slot = slot0)) as [->|Hne]; [congruence|].
    rewrite Hoff in Hr by done. by eapply I2.
  - intros slot slot' r r' Hr Hr'.
    destruct (decide (slot = slot0)) as [->|Hne]; [congruence|].
    destruct (decide (slot' = slot0)) as [->|Hne']; [congruence|].
    rewrite Hoff in Hr, Hr' by done. by eapply I3.
Qed.

Lemma suspendedRendererIds_delete i calls :
  suspendedRendererIds (delete i calls) = delete i (suspendedRendererIds calls).
Proof. unfold suspendedRendererIds. by rewrite list_fmap_delete. Qed.

Lemma elem_of_delete_list {A : Type} (x : A) i (l : list A) :
  x ∈ delete i l → x ∈ l.
Proof. apply list_elem_of_delete_inv. Qed.

Lemma NoDup_delete_list {A : Type} i (l : list A) :
  NoDup l → NoDup (delete i l).
Proof. intros Hnd. exact (sublist_NoDup _ _ Hnd (sublist_delete l i)). Qed.

Lemma NoDup_not_elem_of_delete {A : Type} i (l : list A) x :
  NoDup l → l !! i = Some x → x ∉ delete i l.
Proof.
  revert i. induction l as [|y l IH]; intros i Hnd Hi; [done|].
  apply NoDup_cons in Hnd as [Hy Hnd].
  destruct i as [|i]; simpl in *.
  - by simplify_eq.
  - apply not_elem_of_cons. split.
    + intros ->. apply Hy. apply list_elem_of_lookup. eauto.
    + by apply IH.
Qed.

(** A suspended call is over and its renderer is dropped. *)
Lemma ownership_drop held count next calls i :
  ownership held count next calls → ownership held count next (delete i calls).
Proof.
  intros (I1 & I2 & I3 & I4 & I5 & I6 & I7 & I8). split_and!; try done.
  - intros k Hk. apply I1. by eapply elem_of_delete_list.
  - intros slot r Hr. destruct (I2 slot r Hr) as (? & ? & Hout). split_and!; try done.
    rewrite suspendedRendererIds_delete. intros Hin. apply Hout.
    by eapply elem_of_delete_list.
  - intros k Hk. apply I4. by eapply elem_of_delete_list.
  - rewrite suspendedRendererIds_delete. by apply NoDup_delete_list.
Qed.

(** A call makes a renderer and suspends. *)
Lemma ownership_create held count next calls k :
  ¬ isLocalSuspension k →
  rendererId (pendingRenderer k) = next →
  ownership held count next calls → ownership held count (S next) (calls ++ [k]).
Proof.
  intros Hk Hid (I1 & I2 & I3 & I4 & I5 & I6 & I7 & I8). split_and!; try done.
  - intros k' [Hin| ->%list_elem_of_singleton]%elem_of_app; [by apply I1|done].
  - intros slot r Hr. destruct (I2 slot r Hr) as (? & ? & Hout). split_and!; [done|lia|].
    unfold suspendedRendererIds. rewrite fmap_app.
    intros [Hin|Hin%list_elem_of_singleton]%elem_of_app; [by apply Hout|].
    simpl in Hin. lia.
  - intros k' [Hin| ->%list_elem_of_singleton]%elem_of_app.
    + destruct (I4 k' Hin). split; [done|lia].
    + split; [apply I7; lia|lia].
  - unfold suspendedRendererIds. rewrite fmap_app. apply NoDup_app. split_and!; [done| |].
    + intros n Hn Hn'%list_elem_of_singleton. simpl in Hn'.
      apply list_elem_of_fmap in Hn as (k' & -> & Hk').
      destruct (I4 k' Hk'). lia.
    + apply NoDup_singleton.
  - intros r Hr. apply I7. lia.
Qed.

(** The renderer a place holds is disposed and the place is emptied. *)
Lemma ownership_dispose_held held held' count count' next calls slot0 r0 :
  held slot0 = Some r0 →
  (∀ slot, slot ≠ slot0 → held' slot = held slot) →
  held' slot0 = None →
  (∀ r, count' r = count r + heldCount (rendererId r) [r0]) →
  ownership held count next calls → ownership held' count' next calls.
Proof.
  intros H0 Hoff Hat Hc (I1 & I2 & I3 & I4 & I5 & I6 & I7 & I8).
  destruct (I2 slot0 r0 H0) as (Hzero & Hlt & Hout).
  assert (∀ r, rendererId r ≠ rendererId r0 → count' r = count r) as Hother.
  { intros r Hne. rewrite Hc. unfold heldCount.
    rewrite filter_cons, decide_False by done. simpl. lia. }
  assert (∀ r, rendererId r = rendererId r0 → count' r = 1) as Hsame.
  { intros r Heq. rewrite Hc. unfold heldCount.
    rewrite filter_cons, decide_True by done. rewrite (I8 r r0 Heq), Hzero. done. }
  split_and!; try done.
  - intros slot r Hr. destruct (decide (slot = slot0)) as [->|Hne]; [congruence|].
    rewrite Hoff in Hr by done. destruct (I2 slot r Hr) as (? & ? & ?).
    split_and!; try done. rewrite Hother; [done|].
    intros Heq. apply Hne. by eapply I3.
  - intros slot slot' r r' Hr Hr'.
    destruct (decide (slot = slot0)) as [->|Hne]; [congruence|].
    destruct (decide (slot' = slot0)) as [->|Hne']; [congruence|].
    rewrite Hoff in Hr, Hr' by done. by eapply I3.
  - intros k Hk. destruct (I4 k Hk) as [? ?]. split; [|done].
    rewrite Hother; [done|]. intros Heq. apply Hout. rewrite <- Heq.
    apply list_elem_of_fmap. by exists k.
  - intros r. destruct (decide (rendererId r = rendererId r0)) as [Heq|Hne].
    + by rewrite Hsame.
    + rewrite Hother by done. apply I6.
  - intros r Hr. rewrite Hother; [by apply I7|]. lia.
  - intros r r' Heq. rewrite !Hc, Heq. f_equal. by apply I8.
Qed.

(** A suspended call is over and has disposed its renderer. *)
Lemma ownership_dispose_pending held count count' next calls i k :
  calls !! i = Some k →
  (∀ r, count' r = count r + heldCount (rendererId r) [pendingRenderer k]) →
  ownership held count next calls → ownership held count' next (delete i calls).
Proof.
  intros Hi Hc Hown.
  pose proof Hown as (I1 & I2 & I3 & I4 & I5 & I6 & I7 & I8).
  assert (k ∈ calls) as Hk by (apply list_elem_of_lookup; eauto).
  destruct (I4 k Hk) as [Hzero Hlt].
  assert (∀ r, rendererId r ≠ rendererId (pendingRenderer k) → count' r = count r)
    as Hother.
  { intros r Hne. rewrite Hc. unfold heldCount.
    rewrite filter_cons, decide_False by done. simpl. lia. }
  assert (∀ r, rendererId r = rendererId (pendingRenderer k) → count' r = 1) as Hsame.
  { intros r Heq. rewrite Hc. unfold heldCount.
    rewrite filter_cons, decide_True by done.
    rewrite (I8 r (pendingRenderer k) Heq), Hzero. done. }
  assert (rendererId (pendingRenderer k) ∉ suspendedRendererIds (delete i calls)) as Hgone.
  { rewrite suspendedRendererIds_delete. apply NoDup_not_elem_of_delete; [done|].
    unfold suspendedRendererIds. by rewrite list_lookup_fmap, Hi. }
  destruct (ownership_drop held count next calls i Hown)
    as (J1 & J2 & J3 & J4 & J5 & J6 & J7 & J8).
  split_and!; try done.
  - intros slot r Hr. destruct (J2 slot r Hr) as (? & ? & ?). split_and!; try done.
    rewrite Hother; [done|]. intros Heq.
    destruct (I2 slot r Hr) as (_ & _ & Hout). apply Hout. rewrite Heq.
    apply list_elem_of_fmap. by exists k.
  - intros k' Hk'. destruct (J4 k' Hk') as [? ?]. split; [|done].
    rewrite Hother; [done|]. intros Heq. apply Hgone. rewrite <- Heq.
    apply list_elem_of_fmap. by exists k'.
  - intros r. destruct (decide (rendererId r = rendererId (pendingRenderer k)))
      as [Heq|Hne].
    + by rewrite Hsame.
    + rewrite Hother by done. apply I6.
  - intros r Hr. rewrite Hother; [by apply I7|]. lia.
  - intros r r' Heq. rewrite !Hc, Heq. f_equal. by apply I8.
Qed.

(** A suspended call is over and has put its renderer into its place. *)
Lemma ownership_commit held held' count next calls i k slot0 :
  calls !! i = Some k →
  (∀ slot, slot ≠ slot0 → held' slot = held slot) →
  held' slot0 = Some (pendingRenderer k) →
  ownership held count next calls → ownership held' count next (delete i calls).
Proof.
  intros Hi Hoff Hat Hown.
  pose proof Hown as (I1 & I2 & I3 & I4 & I5 & I6 & I7 & I8).
  assert (k ∈ calls) as Hk by (apply list_elem_of_lookup; eauto).
  destruct (I4 k Hk) as [Hzero Hlt].
  assert (rendererId (pendingRenderer k) ∈ suspendedRendererIds calls) as Hpend.
  { apply list_elem_of_fmap. by exists k. }
  assert (rendererId (pendingRenderer k) ∉ suspendedRendererIds (delete i calls)) as Hgone.
  { rewrite suspendedRendererIds_delete. apply NoDup_not_elem_of_delete; [done|].
    unfold suspendedRendererIds. by rewrite list_lookup_fmap, Hi. }
  destruct (ownership_drop held count next calls i Hown)
    as (J1 & J2 & J3 & J4 & J5 & J6 & J7 & J8).
  split_and!; try done.
  - intros slot r Hr. destruct (decide (slot = slot0)) as [->|Hne].
    + rewrite Hat in Hr. by simplify_eq.
    + rewrite Hoff in Hr by done. by eapply J2.
  - intros slot slot' r r' Hr Hr' Heq.
    destruct (decide (slot = slot0)) as [->|Hne],
             (decide (slot' = slot0)) as [->|Hne']; [done| | |].
    + rewrite Hat in Hr. rewrite Hoff in Hr' by done. simplify_eq.
      destruct (I2 slot' r' Hr') as (_ & _ & Hout). destruct Hout. by rewrite <- Heq.
    + rewrite Hat in Hr'. rewrite Hoff in Hr by done. simplify_eq.
      destruct (I2 slot r Hr) as (_ & _ & Hout). destruct Hout. by rewrite Heq.
    + rewrite Hoff in Hr, Hr' by done. by eapply I3.
Qed.

Lemma slotRenderer_keySlot ic key slot :
  keySlot key = Some slot → slotRenderer ic slot = registryRenderer ic key.
Proof. destruct key; simpl; intros [= <-]; done. Qed.

Lemma slotRenderer_off_key key ic ic' slot :
  registryAgreesOffKey key ic ic' →
  keySlot key ≠ Some slot →
  slotRenderer ic' slot = slotRenderer ic slot.
Proof.
  intros (Hrem & _ & Hunp) Hne. destruct slot as [c pk sid|ref]; simpl.
  - rewrite Hrem; [done|]. intros ->. by apply Hne.
  - pose (s0 := mkLocalVideoStreamState ref (mkVideoDeviceInfo "" "") Video None).
    change (getUnparentedRenderInfo ic' s0 ≫= riRenderer
            = getUnparentedRenderInfo ic s0 ≫= riRenderer).
    rewrite Hunp; [done|]. intros s' -> Href. apply Hne. simpl. by rewrite Href.
Qed.

Lemma createView_pending_no_handle callId participantId stream options w k w1 :
  createView callId participantId stream options w = (Pending k, w1) →
  ¬ isLocalSuspension k →
  registryRenderer (internalContext w1) (suspensionKey k) = None.
Proof.
  unfold createView.
  destruct stream as [s|s], (truthyString callId) as [c|],
    (truthyParticipant participantId) as [p|]; simpl; try done.
  - unfold createViewLocalVideo.
    destruct (getLocalRenderInfo _ _) as [info|]; [|done].
    repeat case_decide; try done. intros [= <- <-]; simpl. by intros [].
  - unfold createViewLocalVideo.
    destruct (getLocalRenderInfo _ _) as [info|]; [|done].
    repeat case_decide; try done. intros [= <- <-]; simpl. by intros [].
  - unfold createViewUnparentedVideo.
    repeat case_decide; try done. intros [= <- <-] _; simpl.
    by rewrite getUnparented_setUnparented.
  - unfold createViewUnparentedVideo.
    repeat case_decide; try done. intros [= <- <-] _; simpl.
    by rewrite getUnparented_setUnparented.
  - unfold createViewRemoteVideo.
    destruct (getRemoteRenderInfoForParticipant _ _ _ _) as [info|]; [|done].
    repeat case_decide; try done. intros [= <- <-] _; simpl.
    by rewrite getRemote_setRemote.
Qed.

Lemma createView_not_pending callId participantId stream options w :
  (∀ k, (createView callId participantId stream options w).1 ≠ Pending k) →
  internalContext (createView callId participantId stream options w).2 = internalContext w ∧
  disposeCalls (createView callId participantId stream options w).2 = disposeCalls w ∧
  nextRendererId (createView callId participantId stream options w).2 = nextRendererId w.
Proof.
  unfold createView.
  destruct stream as [s|s], (truthyString callId) as [c|],
    (truthyParticipant participantId) as [p|]; simpl; try done.
  1,2: unfold createViewLocalVideo;
    destruct (getLocalRenderInfo _ _) as [info|]; simpl; [|done];
    repeat case_decide; simpl; try done; intros Hnp; by destruct (Hnp _ eq_refl).
  1,2: unfold createViewUnparentedVideo;
    repeat case_decide; simpl; try done; intros Hnp; by destruct (Hnp _ eq_refl).
  unfold createViewRemoteVideo.
  destruct (getRemoteRenderInfoForParticipant _ _ _ _) as [info|]; simpl; [|done].
  repeat case_decide; simpl; try done; intros Hnp; by destruct (Hnp _ eq_refl).
Qed.

Lemma suspensionKey_not_local k :
  ¬ isLocalSuspension k → ∃ slot, keySlot (suspensionKey k) = Some slot.
Proof. destruct k; simpl; intros Hk; by eauto. Qed.

Lemma ownership_same_world (w w' : World) calls :
  internalContext w' = internalContext w →
  disposeCalls w' = disposeCalls w →
  nextRendererId w' = nextRendererId w →
  ownership (slotRenderer (internalContext w)) (disposeCount w) (nextRendererId w) calls →
  ownership (slotRenderer (internalContext w')) (disposeCount w') (nextRendererId w') calls.
Proof.
  intros Hic Hd Hn Hown. rewrite Hic, Hn.
  eapply ownership_ext; [done| |exact Hown].
  intros r. by apply disposeCount_frame.
Qed.

Lemma ownership_createView (c : Client) callId participantId stream options :
  (∀ c0, renderKeyOf callId participantId stream ≠ Some (LocalKey c0)) →
  rendererOwnership c →
  rendererOwnership (lifecycleStep c (CallCreateView callId participantId stream options)).
Proof.
  intros Hnl Hown. unfold rendererOwnership, lifecycleStep.
  destruct (createView callId participantId stream options (world c)) as [p w'] eqn:Hrun.
  assert ((∀ k, p ≠ Pending k) →
            ownership (slotRenderer (internalContext w')) (disposeCount w')
              (nextRendererId w') (suspended c)) as Hquiet.
  { intros Hnp.
    destruct (createView_not_pending callId participantId stream options (world c))
      as (Hic & Hd & Hn); [by rewrite Hrun|].
    rewrite Hrun in Hic, Hd, Hn. by apply (ownership_same_world (world c)). }
  destruct p as [res|e|k]; simpl; [by apply Hquiet..|].
  destruct (createView_pending _ _ _ _ _ _ _ Hrun) as (Hk & _ & Hid & Hn & _ & Hd).
  assert (¬ isLocalSuspension k) as Hnotlocal.
  { intros Hl. destruct k; try done. by destruct (Hnl callId0). }
  destruct (suspensionKey_not_local k Hnotlocal) as [slot Hslot].
  rewrite Hn. apply ownership_create; [done..|].
  eapply ownership_ext; [done|by intros r0; apply (disposeCount_frame (world c))|].
  apply (ownership_clear (slotRenderer (internalContext (world c))) _ _ _ _ slot);
    [| |exact Hown].
  - intros slot' Hne. apply (slotRenderer_off_key (suspensionKey k)); [|congruence].
    pose proof (createView_registry_off_key callId participantId stream options
                  (world c) _ Hk) as Hoff.
    by rewrite Hrun in Hoff.
  - rewrite (slotRenderer_keySlot _ _ _ Hslot).
    by eapply createView_pending_no_handle.
Qed.

Lemma ownership_disposeView (c : Client) callId participantId stream :
  (∀ c0, renderKeyOf callId participantId stream ≠ Some (LocalKey c0)) →
  rendererOwnership c →
  rendererOwnership (lifecycleStep c (CallDisposeView callId participantId stream)).
Proof.
  intros Hnl Hown. unfold rendererOwnership, lifecycleStep; simpl.
  destruct (renderKeyOf callId participantId stream) as [key|] eqn:Hk.
  2:{ apply (ownership_same_world (world c)); try done;
        revert Hk; unfold renderKeyOf, disposeView;
        by destruct stream, (truthyString callId), (truthyParticipant participantId). }
  destruct (disposeView_key_effect callId participantId stream (world c) key Hk)
    as (_ & Hr & _ & Hn & _ & Hd).
  pose proof (disposeView_registry_off_key callId participantId stream (world c) key Hk)
    as Hoff.
  destruct (keySlot key) as [slot|] eqn:Hslot.
  2:{ destruct key; try done. by destruct (Hnl callId0). }
  rewrite Hn.
  destruct (registryRenderer (internalContext (world c)) key) as [r0|] eqn:Hr0.
  - apply (ownership_dispose_held (slotRenderer (internalContext (world c))) _
             (disposeCount (world c)) _ _ _ slot r0); [| | |done|exact Hown].
    + by rewrite (slotRenderer_keySlot _ _ _ Hslot).
    + intros slot' Hne. apply (slotRenderer_off_key key); [done|congruence].
    + by rewrite (slotRenderer_keySlot _ _ _ Hslot).
  - eapply ownership_ext; [done| |].
    { intros r. rewrite Hd. unfold heldCount; simpl. by rewrite Nat.add_0_r. }
    apply (ownership_clear (slotRenderer (internalContext (world c))) _ _ _ _ slot);
      [| |exact Hown].
    + intros slot' Hne. apply (slotRenderer_off_key key); [done|congruence].
    + by rewrite (slotRenderer_keySlot _ _ _ Hslot).
Qed.

Lemma resumeCreateView_failure_effect k e w :
  ¬ isLocalSuspension k →
  registryRenderer (internalContext (resumeCreateView k (inr e) w).2) (suspensionKey k)
    = None ∧
  disposeCalls (resumeCreateView k (inr e) w).2 = disposeCalls w ∧
  nextRendererId (resumeCreateView k (inr e) w).2 = nextRendererId w.
Proof.
  destruct k; simpl; intros Hk; try done.
  - by rewrite getRemote_setRemote.
  - by rewrite getUnparented_deleteUnparented.
Qed.

(** What the resumption does after a successful creation when it finds the
    entry [Stopping]: the entry is left without a handle, and the renderer
    is disposed for a remote key and not for an unparented one. *)
Lemma resumeCreateView_stopping_effect k view w :
  ¬ isLocalSuspension k →
  registryStatus (internalContext w) (suspensionKey k) = Some Stopping →
  registryRenderer (internalContext (resumeCreateView k (inl view) w).2) (suspensionKey k)
    = None ∧
  nextRendererId (resumeCreateView k (inl view) w).2 = nextRendererId w ∧
  ((∀ r, disposeCount (resumeCreateView k (inl view) w).2 r
         = disposeCount w r + heldCount (rendererId r) [pendingRenderer k]) ∨
   disposeCalls (resumeCreateView k (inl view) w).2 = disposeCalls w).
Proof.
  destruct k as [c pk sid rs r o|c rs r o|s ls r o]; simpl; intros Hk Hst; try done.
  - destruct (getRemoteRenderInfoForParticipant _ _ _ _) as [info|]; simplify_eq/=.
    rewrite Hst; simpl. rewrite getRemote_setRemote. split_and!; try done.
    left. intros r'. apply disposeCount_dispose.
  - destruct (getUnparentedRenderInfo _ _) as [info|]; simplify_eq/=.
    rewrite Hst; simpl. rewrite getUnparented_deleteUnparented. split_and!; try done.
    by right.
Qed.

Lemma ownership_settle (c : Client) i created :
  rendererOwnership c →
  rendererOwnership (lifecycleStep c (SettleCreation i created)).
Proof.
  intros Hown. unfold rendererOwnership, lifecycleStep.
  destruct (suspended c !! i) as [k|] eqn:Hi; [|done]. simpl.
  assert (¬ isLocalSuspension k) as Hnotlocal.
  { destruct Hown as (I1 & _). apply I1. apply list_elem_of_lookup. eauto. }
  destruct (suspensionKey_not_local k Hnotlocal) as [slot Hslot].
  pose proof (resumeCreateView_registry_off_key k created (world c)) as Hoff.
  assert (∀ slot', slot' ≠ slot →
            slotRenderer (internalContext (resumeCreateView k created (world c)).2) slot'
            = slotRenderer (internalContext (world c)) slot') as Hslots.
  { intros slot' Hne. apply (slotRenderer_off_key (suspensionKey k)); [done|congruence]. }
  destruct created as [view|e].
  2:{ destruct (resumeCreateView_failure_effect k e (world c) Hnotlocal) as (Hr & Hd & Hn).
      rewrite Hn. eapply ownership_ext; [done|by intros r0; apply (disposeCount_frame (world c))|].
      apply (ownership_clear (slotRenderer (internalContext (world c))) _ _ _ _ slot);
        [done|by rewrite (slotRenderer_keySlot _ _ _ Hslot)|].
      by apply ownership_drop. }
  destruct (registryStatus (internalContext (world c)) (suspensionKey k)) as [st|] eqn:Hst.
  - destruct (decide (st = Stopping)) as [->|Hne].
    + destruct (resumeCreateView_stopping_effect k view (world c) Hnotlocal Hst)
        as (Hr & Hn & [Hd|Hd]).
      * rewrite Hn.
        apply (ownership_clear (slotRenderer (internalContext (world c))) _ _ _ _ slot);
          [done|by rewrite (slotRenderer_keySlot _ _ _ Hslot)|].
        by eapply ownership_dispose_pending.
      * rewrite Hn. eapply ownership_ext; [done|by intros r0; apply (disposeCount_frame (world c))|].
        apply (ownership_clear (slotRenderer (internalContext (world c))) _ _ _ _ slot);
          [done|by rewrite (slotRenderer_keySlot _ _ _ Hslot)|].
        by apply ownership_drop.
    + destruct (resumeCreateView_commit k view (world c) st Hst Hne)
        as (_ & _ & Hr & Hd & Hn & _).
      rewrite Hn. eapply ownership_ext; [done|by intros r0; apply (disposeCount_frame (world c))|].
      eapply (ownership_commit (slotRenderer (internalContext (world c))) _ _ _ _ i k slot);
        [done|done|by rewrite (slotRenderer_keySlot _ _ _ Hslot)|done].
  - destruct (resumeCreateView_entry_gone k view (world c) Hst) as (_ & Hic & _ & Hn & Hd).
    rewrite Hic, Hn. by eapply ownership_dispose_pending.
Qed.

Lemma ownership_start (c : Client) : nothingRendered c → rendererOwnership c.
Proof.
  intros (Hslots & Hcalls & Hd). unfold rendererOwnership. rewrite Hcalls.
  assert (∀ r, disposeCount (world c) r = 0) as Hzero.
  { intros r. unfold disposeCount. by rewrite Hd, lookup_empty. }
  split_and!; try done.
  - by intros k ?%elem_of_nil.
  - intros slot r. by rewrite Hslots.
  - intros slot slot' r r'. by rewrite Hslots.
  - by intros k ?%elem_of_nil.
  - constructor.
  - intros r. rewrite Hzero. lia.
  - intros r r' _. by rewrite !Hzero.
Qed.

(** X14: starting with nothing rendered and nothing in flight, whatever
    [createView] and [disposeView] calls are made for remote streams of
    calls and for unparented streams, and however the renderer creations
    settle in between, no renderer ever receives a second [dispose] call. *)
Theorem no_renderer_disposed_twice (c : Client) (evs : list LifecycleEvent) r :
  nothingRendered c →
  Forall notLocalInCall evs →
  (disposeCount (world (lifecycleRun c evs)) r ≤ 1)%nat.
Proof.
  intros Hstart Hevs.
  cut (rendererOwnership (lifecycleRun c evs)).
  { intros (_ & _ & _ & _ & _ & Hle & _). apply Hle. }
  apply ownership_start in Hstart. clear r. unfold lifecycleRun.
  revert c Hstart. induction Hevs as [|ev evs Hev Hevs IH]; intros c Hown; simpl; [done|].
  apply IH. destruct ev as [callId pid stream options|callId pid stream|i created].
  - by apply ownership_createView.
  - by apply ownership_disposeView.
  - by apply ownership_settle.
Qed.

(** ** Disposal of all the views of all the calls *)

Lemma otherCallsUntouched_refl c ic : otherCallsUntouched c ic ic.
Proof. by split_and!. Qed.

Lemma otherCallsUntouched_trans c ic1 ic2 ic3 :
  otherCallsUntouched c ic1 ic2 → otherCallsUntouched c ic2 ic3 →
  otherCallsUntouched c ic1 ic3.
Proof.
  intros (A1 & A2 & A3) (B1 & B2 & B3). split_and!.
  - intros c' pk sid Hne. by rewrite B1, A1.
  - intros c' Hne. by rewrite B2, A2.
  - intros s. by rewrite B3, A3.
Qed.

Lemma truthyString_Some c c' : truthyString (Some c) = Some c' → c' = c.
Proof. unfold truthyString. case_decide; by intros [= <-]. Qed.

Lemma disposeView_other_calls c participantId stream w :
  c ≠ "" →
  otherCallsUntouched c (internalContext w)
    (internalContext (disposeView (Some c) participantId stream w)).
Proof.
  intros Hc.
  destruct (renderKeyOf (Some c) participantId stream) as [key|] eqn:Hk.
  - destruct (disposeView_registry_off_key _ _ _ w key Hk) as (Hrem & Hloc & Hunp).
    destruct key as [c' pk sid|c'|s].
    + apply renderKeyOf_remote in Hk as (? & ? & _ & ->%truthyString_Some & _).
      split_and!.
      * intros c'' pk' sid' Hne. apply Hrem. congruence.
      * intros c'' Hne. by apply Hloc.
      * intros s'. by apply Hunp.
    + apply renderKeyOf_local in Hk as (? & _ & ->%truthyString_Some).
      split_and!.
      * intros c'' pk' sid' Hne. by apply Hrem.
      * intros c'' Hne. apply Hloc. congruence.
      * intros s'. by apply Hunp.
    + apply renderKeyOf_unparented in Hk as [_ Hnone].
      unfold truthyString in Hnone. by rewrite decide_False in Hnone.
  - revert Hk. unfold renderKeyOf, disposeView.
    destruct stream, (truthyString (Some c)), (truthyParticipant participantId);
      try done; intros _; apply otherCallsUntouched_refl.
Qed.

Lemma foldl_related {A K : Type} (R : A → A → Prop) (f : A → K → A) l a :
  (∀ x, R x x) →
  (∀ x y z, R x y → R y z → R x z) →
  (∀ x k, R x (f x k)) →
  R a (foldl f a l).
Proof.
  intros Hrefl Htrans Hstep. revert a.
  induction l as [|k l IH]; intros a; simpl; [done|].
  eapply Htrans; [apply (Hstep a k)|apply IH].
Qed.

Lemma disposeAllViewsFromCall_other_calls c w :
  c ≠ "" →
  otherCallsUntouched c (internalContext w)
    (internalContext (disposeAllViewsFromCall c w)).
Proof.
  intros Hc.
  set (R := λ x y : World, otherCallsUntouched c (internalContext x) (internalContext y)).
  assert (∀ x, R x x) as Hrefl by (intros x; apply otherCallsUntouched_refl).
  assert (∀ x y z, R x y → R y z → R x z) as Htrans
    by (intros x y z; apply otherCallsUntouched_trans).
  assert (∀ x pk sk, R x (disposeRemoteEntry c pk sk x)) as Hentry.
  { intros x pk sk. unfold disposeRemoteEntry.
    destruct (getRemoteRenderInfoForParticipant _ _ _ _); [|done].
    by apply disposeView_other_calls. }
  assert (∀ x pk, R x (disposeParticipantEntries c x pk)) as Hparticipant.
  { intros x pk. unfold disposeParticipantEntries.
    by apply (foldl_related R (λ w0 sk, disposeRemoteEntry c pk sk w0)). }
  change (R w (disposeAllViewsFromCall c w)). unfold disposeAllViewsFromCall.
  set (wr := match getRemoteRenderInfoForCall (internalContext w) c with
             | Some callStreams => _
             | None => w
             end).
  assert (R w wr) as Hwr.
  { unfold wr. destruct (getRemoteRenderInfoForCall _ _); [|done].
    by apply (foldl_related R). }
  eapply Htrans; [exact Hwr|].
  destruct (getLocalRenderInfo (internalContext wr) c) as [info|]; [|done].
  destruct (riRenderer info); [|done].
  exact (disposeView_other_calls c None _ (newRef wr).2 Hc).
Qed.

Lemma disposeAllViewsFromCall_no_renderer c w :
  c ≠ "" →
  keyedByStreamId (internalContext w) c →
  callHoldsNoRenderer (internalContext (disposeAllViewsFromCall c w)) c.
Proof.
  intros Hc Hkeyed. unfold disposeAllViewsFromCall.
  destruct (disposeRemoteViewsFromCall_spec c w _ Hc Hkeyed eq_refl)
    as (Hrem & Hloc & _).
  set (wr := match getRemoteRenderInfoForCall (internalContext w) c with
             | Some callStreams => _
             | None => w
             end) in *.
  assert (∀ pk sid, registryRenderer (internalContext wr) (RemoteKey c pk sid) = None)
    as Hnone.
  { intros pk sid. simpl. rewrite Hrem.
    by destruct (getRemoteRenderInfoForParticipant (internalContext w) c pk sid). }
  destruct (getLocalRenderInfo (internalContext wr) c) as [info|] eqn:Hinfo.
  2:{ split; [done|]. simpl. by rewrite Hinfo. }
  destruct (riRenderer info) as [r0|] eqn:Hr0.
  2:{ split; [done|]. simpl. by rewrite Hinfo. }
  simpl. unfold disposeView; simpl. rewrite decide_False by done.
  rewrite (disposeViewLocalVideo_found c _ info) by done.
  rewrite Hr0; simpl. split.
  - intros pk sid. apply (Hnone pk sid).
  - simpl. by rewrite getLocal_setLocal.
Qed.

(** X15: [disposeAllViews] goes through the call ids that [getCallIds]
    lists.  When these are distinct and non-empty and the remote entries of
    each listed call sit under non-empty participant keys and under the id
    of their own stream, then afterwards no entry of a listed call, remote
    or local, holds a renderer handle, while the entries of every other call
    and of the unparented streams are as they were. *)
Theorem disposeAllViews_clears_listed_calls (getCallIds : InternalCallContext → list string) w :
  NoDup (getCallIds (internalContext w)) →
  (∀ c, c ∈ getCallIds (internalContext w) →
        c ≠ "" ∧ keyedByStreamId (internalContext w) c) →
  (∀ c, c ∈ getCallIds (internalContext w) →
        callHoldsNoRenderer (internalContext (disposeAllViews getCallIds w)) c) ∧
  (∀ c pk sid, c ∉ getCallIds (internalContext w) →
     getRemoteRenderInfoForParticipant (internalContext (disposeAllViews getCallIds w))
       c pk sid
     = getRemoteRenderInfoForParticipant (internalContext w) c pk sid) ∧
  (∀ c, c ∉ getCallIds (internalContext w) →
     getLocalRenderInfo (internalContext (disposeAllViews getCallIds w)) c
     = getLocalRenderInfo (internalContext w) c) ∧
  (∀ s, getUnparentedRenderInfo (internalContext (disposeAllViews getCallIds w)) s
        = getUnparentedRenderInfo (internalContext w) s).
Proof.
  intros Hnd Hlisted. unfold disposeAllViews.
  apply (foldl_processed (λ w0 callId, disposeAllViewsFromCall callId w0)
    (λ done a,
       (∀ c, c ∈ done → callHoldsNoRenderer (internalContext a) c) ∧
       (∀ c pk sid, c ∉ done →
          getRemoteRenderInfoForParticipant (internalContext a) c pk sid
          = getRemoteRenderInfoForParticipant (internalContext w) c pk sid) ∧
       (∀ c, c ∉ done →
          getLocalRenderInfo (internalContext a) c = getLocalRenderInfo (internalContext w) c) ∧
       (∀ s, getUnparentedRenderInfo (internalContext a) s
             = getUnparentedRenderInfo (internalContext w) s))); [done| |].
  - split_and!; try done. by intros c ?%elem_of_nil.
  - intros done c a (Hdone & Hrem & Hloc & Hunp) Hnew Hin.
    destruct (Hlisted c Hin) as [Hc Hkeyed].
    destruct (disposeAllViewsFromCall_other_calls c a Hc) as (Orem & Oloc & Ounp).
    split_and!.
    + intros c' [Hc'| ->%list_elem_of_singleton]%elem_of_app.
      * assert (c' ≠ c) as Hne by (intros ->; done).
        destruct (Hdone c' Hc') as [Hr Hl]. split.
        -- intros pk sid. simpl. rewrite Orem by done. apply (Hr pk sid).
        -- simpl. by rewrite Oloc.
      * apply disposeAllViewsFromCall_no_renderer; [done|].
        intros pk sk info. rewrite Hrem by done. apply Hkeyed.
    + intros c' pk sid [Hc1 Hc2%not_elem_of_cons]%not_elem_of_app.
      rewrite Orem by tauto. by apply Hrem.
    + intros c' [Hc1 Hc2%not_elem_of_cons]%not_elem_of_app.
      rewrite Oloc by tauto. by apply Hloc.
    + intros s. by rewrite Ounp.
Qed.

(** ** Where [createView] goes as far as the [await] *)

(** X16: [createView] suspends in the renderer creation exactly from these
    states: the entry of its key is [NotRendered], or the key is an
    unparented stream without an entry.  It has then made one renderer,
    numbered by the allocation counter, and the entry of the key is
    [Rendering]. *)
Theorem createView_suspends_when_not_rendered callId participantId stream options w key :
  renderKeyOf callId participantId stream = Some key →
  (registryStatus (internalContext w) key = Some NotRendered ∨
   (registryStatus (internalContext w) key = None ∧ ∃ s, key = UnparentedKey s))
  ↔ ∃ k w1,
      createView callId participantId stream options w = (Pending k, w1) ∧
      suspensionKey k = key ∧
      rendererId (pendingRenderer k) = nextRendererId w ∧
      nextRendererId w1 = S (nextRendererId w) ∧
      registryStatus (internalContext w1) key = Some Rendering.
Proof.
  intros Hk. split.
  - intros Hst.
    destruct (createView_suspends callId participantId stream options w key Hk Hst)
      as (k & w1 & Hp).
    destruct (createView_pending _ _ _ _ _ _ _ Hp) as (Hk' & Hst1 & Hid & Hn & _).
    assert (suspensionKey k = key) as Heq by congruence.
    exists k, w1. rewrite Heq in Hst1. by split_and!.
  - intros (k & w1 & Hp & _).
    destruct (registryStatus (internalContext w) key) as [st|] eqn:Hst.
    + destruct (decide (st = NotRendered)) as [->|Hne]; [by left|].
      destruct (createView_busy callId participantId stream options w key st Hk Hst Hne)
        as (Hres & _).
      rewrite Hp in Hres. done.
    + right. split; [done|]. destruct key as [c pk sid|c|s]; [| |by eexists]; exfalso.
      * apply renderKeyOf_remote in Hk as (s & p & -> & Hc & Hpid & -> & ->).
        rewrite (createView_remote _ _ _ _ _ _ _ Hc Hpid) in Hp.
        unfold createViewRemoteVideo in Hp. simpl in Hst.
        replace (match p with
                 | ParticipantKey key => key
                 | ParticipantKind kind => toFlatCommunicationIdentifier kind
                 end) with (participantKeyOf p) in Hp by done.
        by destruct (getRemoteRenderInfoForParticipant _ _ _ _).
      * apply renderKeyOf_local in Hk as (s & -> & Hc).
        rewrite (createView_local _ _ _ _ _ _ Hc) in Hp.
        unfold createViewLocalVideo in Hp. simpl in Hst.
        by destruct (getLocalRenderInfo _ _).
Qed.

(** ** The empty call identifier *)

(** X17: bulk disposal cannot reach a call that is tracked under the empty
    string: [disposeAllViewsFromCall("")] leaves every remote and every
    local registry entry as it was and makes no renderer, because
    [disposeView] takes an empty [callId] for a missing one. *)
Theorem disposeAllViewsFromCall_empty_call_id w :
  remoteRenderInfos (internalContext (disposeAllViewsFromCall "" w))
    = remoteRenderInfos (internalContext w) ∧
  localRenderInfos (internalContext (disposeAllViewsFromCall "" w))
    = localRenderInfos (internalContext w) ∧
  nextRendererId (disposeAllViewsFromCall "" w) = nextRendererId w.
Proof.
  set (R := λ x y : World,
         remoteRenderInfos (internalContext y) = remoteRenderInfos (internalContext x) ∧
         localRenderInfos (internalContext y) = localRenderInfos (internalContext x) ∧
         nextRendererId y = nextRendererId x).
  assert (∀ x, R x x) as Hrefl by done.
  assert (∀ x y z, R x y → R y z → R x z) as Htrans.
  { intros x y z (A1 & A2 & A3) (B1 & B2 & B3). unfold R. by rewrite B1, B2, B3. }
  assert (∀ x pk sk, R x (disposeRemoteEntry "" pk sk x)) as Hentry.
  { intros x pk sk. unfold disposeRemoteEntry.
    by destruct (getRemoteRenderInfoForParticipant _ _ _ _). }
  assert (∀ x pk, R x (disposeParticipantEntries "" x pk)) as Hparticipant.
  { intros x pk. unfold disposeParticipantEntries.
    by apply (foldl_related R (λ w0 sk, disposeRemoteEntry "" pk sk w0)). }
  unfold disposeAllViewsFromCall.
  set (wr := match getRemoteRenderInfoForCall (internalContext w) "" with
             | Some callStreams => _
             | None => w
             end).
  assert (R w wr) as (Hrem & Hloc & Hn).
  { unfold wr. destruct (getRemoteRenderInfoForCall _ _); [|done].
    by apply (foldl_related R). }
  destruct (getLocalRenderInfo (internalContext wr) "") as [info|]; simpl; [|done].
  destruct (riRenderer info) as [r0|]; simpl; [|done].
  unfold disposeViewUnparentedVideo; simpl.
  destruct (getUnparentedRenderInfo _ _) as [info'|]; simpl; [|done].
  case_decide; destruct (riRenderer info'); simpl; by split_and!.
Qed.

(** ** Errors of [getDeviceManager] in the state *)

Context {declarative : DeviceManagerDeclarative}.

(** X18: one [getDeviceManager] call, on any state of the client.  It fails
    exactly when the SDK call is rejected or the SDK returns an instance
    other than the cached one; the error then goes through
    [withAsyncErrorTeedToState] under 'CallClient.getDeviceManager', so
    that the store has it as the latest error under that name with the
    other names and the views as they were, and neither the two cached
    fields change nor is a declarative device manager made.  It succeeds
    in two ways: with an instance cached and the same instance returned, it
    answers with the cached object and changes nothing at all; with none
    cached, it makes one new object for the instance, caches the pair, and
    the store is what [deviceManagerDeclaratify] leaves of it. *)
Theorem getDeviceManager_failure_is_recorded settled (w : ClientWorld) :
  match (getDeviceManager settled w).1 with
  | inr e =>
      (settled = inr e ∨
       ∃ deviceManager cached,
         settled = inl deviceManager ∧ _sdkDeviceManager (proxyCallClient w) = Some cached ∧
         cached ≠ deviceManager ∧ e = Error multipleDeviceManagerMessage) ∧
      latestErrors (clientState (getDeviceManager settled w).2) !! "CallClient.getDeviceManager"
        = Some e ∧
      (∀ name, name ≠ "CallClient.getDeviceManager" →
         latestErrors (clientState (getDeviceManager settled w).2) !! name
         = latestErrors (clientState w) !! name) ∧
      remoteViews (clientState (getDeviceManager settled w).2) = remoteViews (clientState w) ∧
      localViews (clientState (getDeviceManager settled w).2) = localViews (clientState w) ∧
      unparentedViews (clientState (getDeviceManager settled w).2)
        = unparentedViews (clientState w) ∧
      proxyCallClient (getDeviceManager settled w).2 = proxyCallClient w ∧
      nextDeclarativeRef (getDeviceManager settled w).2 = nextDeclarativeRef w
  | inl answer =>
      ∃ deviceManager,
        settled = inl deviceManager ∧
        match _sdkDeviceManager (proxyCallClient w) with
        | Some cached =>
            cached = deviceManager ∧
            answer = _deviceManager (proxyCallClient w) ∧
            (getDeviceManager settled w).2 = w
        | None =>
            answer = Some (mkDeclarativeDeviceManager (nextDeclarativeRef w) deviceManager) ∧
            proxyCallClient (getDeviceManager settled w).2
              = {| _deviceManager := answer; _sdkDeviceManager := Some deviceManager |} ∧
            clientState (getDeviceManager settled w).2
              = declaratifiedState deviceManager (clientState w) ∧
            nextDeclarativeRef (getDeviceManager settled w).2 = S (nextDeclarativeRef w)
        end
  end.
Proof.
  destruct w as [this st n]. unfold getDeviceManager, getDeviceManagerBody; simpl.
  destruct settled as [d|e]; simpl.
  - destruct (_sdkDeviceManager this) as [cached|] eqn:Hc; simpl.
    + case_decide; simpl.
      * by exists d.
      * split_and!; try done.
        -- right. by exists d, cached.
        -- by rewrite lookup_insert_eq.
        -- intros name Hne. by rewrite lookup_insert_ne.
    + by exists d.
  - split_and!; try done.
    + by left.
    + by rewrite lookup_insert_eq.
    + intros name Hne. by rewrite lookup_insert_ne.
Qed.

(** ** The telemetry tag *)

(** X19: [withTelemetryTag] returns options whose [tags] array holds the
    tags that were supplied, in their order, followed by the application
    id (the application id alone when none were supplied); the logger, the
    application name and the application version are those supplied, and
    every other array is as it was. *)
Theorem withTelemetryTag_appends_application_id applicationId options heap :
  (∀ ref, from_option tags None (diagnosticsOf options) = Some ref →
          is_Some (heap !! ref)) →
  tagsOf (Some (withTelemetryTag applicationId options heap).1)
         (withTelemetryTag applicationId options heap).2
    = Some (default [] (tagsOf options heap) ++ [applicationId])%list ∧
  logger (withTelemetryTag applicationId options heap).1 = from_option logger None options ∧
  from_option appName None (diagnostics (withTelemetryTag applicationId options heap).1)
    = from_option appName None (diagnosticsOf options) ∧
  from_option appVersion None (diagnostics (withTelemetryTag applicationId options heap).1)
    = from_option appVersion None (diagnosticsOf options) ∧
  (∀ ref, is_Some (heap !! ref) →
          from_option tags None (diagnosticsOf options) ≠ Some ref →
          (withTelemetryTag applicationId options heap).2 !! ref = heap !! ref).
Proof.
  intros Hvalid. unfold withTelemetryTag, tagsOf, arrayPush.
  destruct (from_option tags None (diagnosticsOf options)) as [ref|] eqn:Href; simpl.
  - destruct (Hvalid ref eq_refl) as [ts Hts].
    rewrite lookup_alter_eq, Hts; simpl. split_and!; try done.
    intros ref' _ Hne. rewrite lookup_alter_ne; [done|congruence].
  - rewrite lookup_alter_eq, lookup_insert_eq; simpl. split_and!; try done.
    intros ref' [ts Hts] _.
    assert (fresh (dom heap) ≠ ref') as Hne.
    { intros <-. pose proof (is_fresh (dom heap)) as Hfresh.
      apply not_elem_of_dom in Hfresh. congruence. }
    by rewrite lookup_alter_ne, lookup_insert_ne.
Qed.

(** X20: the push goes to the caller's own array.  When options that carry
    a [tags] array are given to [withTelemetryTag] twice, the one array ends
    with the application id twice, and the caller's options and both
    results show it. *)
Theorem withTelemetryTag_twice_shares_the_array applicationId o heap ref ts :
  from_option tags None (diagnostics o) = Some ref →
  heap !! ref = Some ts →
  let first := withTelemetryTag applicationId (Some o) heap in
  let second := withTelemetryTag applicationId (Some o) first.2 in
  tagsOf (Some o) second.2 = Some (ts ++ [applicationId; applicationId])%list ∧
  tagsOf (Some first.1) second.2 = Some (ts ++ [applicationId; applicationId])%list ∧
  tagsOf (Some second.1) second.2 = Some (ts ++ [applicationId; applicationId])%list.
Proof.
  intros Href Hts. unfold withTelemetryTag, tagsOf, arrayPush; simpl.
  rewrite Href; simpl.
  rewrite !lookup_alter_eq, Hts; simpl.
  rewrite <- app_assoc. by split_and!.
Qed.

End LifecycleProperties.

(** * Runs on the sample world *)

#[local] Existing Instance sampleImports.

Lemma createView_on_busy_key_returns_empty_witness :
  renderKeyOf (Some "c1") (Some (ParticipantKey "p1")) (RemoteStream sampleRemoteStreamState)
    = Some (RemoteKey "c1" "p1" 1) ∧
  ∃ k w1,
    createView (Some "c1") (Some (ParticipantKey "p1")) (RemoteStream sampleRemoteStreamState)
      None sampleWorld = (Pending k, w1) ∧
    nextRendererId w1 = 1 ∧
    returnsEmptyUntouched
      (createView (Some "c1") (Some (ParticipantKey "p1"))
         (RemoteStream sampleRemoteStreamState) None w1) w1.
Proof.
  split; [reflexivity|].
  destruct (createView (Some "c1") (Some (ParticipantKey "p1"))
              (RemoteStream sampleRemoteStreamState) None sampleWorld) as [p w1] eqn:Hrun.
  assert (∃ k, p = Pending k) as [k ->].
  { vm_compute in Hrun. injection Hrun as <- _. by eexists. }
  exists k, w1. split; [done|].
  destruct (createView_on_busy_key_returns_empty
              (Some "c1") (Some (ParticipantKey "p1")) (RemoteStream sampleRemoteStreamState)
              None sampleWorld (RemoteKey "c1" "p1" 1) eq_refl) as [_ Hsecond].
  destruct (Hsecond k w1 Hrun) as (_ & Hn & Hempty). split; [exact Hn|exact Hempty].
Defined.

Lemma createView_remote_commits_rendered_witness :
  ∃ k w1,
    createView (Some "c1") (Some (ParticipantKey "p1")) (RemoteStream sampleRemoteStreamState)
      None sampleWorld = (Pending k, w1) ∧
    pendingRenderer k = sampleRemoteRenderer ∧
    (resumeCreateView k (inl 7) w1).1
      = Fulfilled (Some (mkCreateViewResult sampleRemoteRenderer 7)) ∧
    getRemoteRenderInfoForParticipant (internalContext (resumeCreateView k (inl 7) w1).2)
      "c1" "p1" 1
      = Some (mkRenderInfo sampleSdkRemoteStream Rendered (Some sampleRemoteRenderer)) ∧
    remoteViewOf (context (resumeCreateView k (inl 7) w1).2) "c1" "p1" 1 = Some 7.
Proof.
  destruct (createView_remote_commits_rendered
              (Some "c1") (Some (ParticipantKey "p1")) (RemoteStream sampleRemoteStreamState)
              None sampleWorld "c1" "p1" 1
              (mkRenderInfo sampleSdkRemoteStream NotRendered None)
              eq_refl eq_refl eq_refl) as (k & w1 & Hrun & Hr & Hresume).
  exists k, w1. split; [exact Hrun|]. split; [exact Hr|].
  assert (getRemoteRenderInfoForParticipant (internalContext w1) "c1" "p1" 1
          = Some (mkRenderInfo sampleSdkRemoteStream Rendering None)) as Hget.
  { vm_compute in Hrun. injection Hrun as _ <-. reflexivity. }
  assert (context w1 = sampleState) as Hctx.
  { vm_compute in Hrun. injection Hrun as _ <-. reflexivity. }
  destruct (Hresume 7 w1 _ Hget) as (Hres & Hreg & _ & Hview); [done|].
  rewrite Hr in Hres, Hreg. split; [exact Hres|]. split; [exact Hreg|].
  apply Hview. rewrite Hctx. by eexists.
Defined.

Lemma creation_failure_rejects_and_reverts_witness :
  ∃ k w1,
    createView None None (LocalStream (sampleLocalStreamState 7)) None sampleWorld
      = (Pending k, w1) ∧
    (resumeCreateView k (inr (Error "no camera")) w1).1 = Rejected (Error "no camera") ∧
    registryStatus (internalContext (resumeCreateView k (inr (Error "no camera")) w1).2)
      (UnparentedKey (sampleLocalStreamState 7)) = None.
Proof.
  destruct (createView None None (LocalStream (sampleLocalStreamState 7)) None sampleWorld)
    as [p w1] eqn:Hrun.
  assert (∃ k, p = Pending k) as [k ->].
  { vm_compute in Hrun. injection Hrun as <- _. by eexists. }
  exists k, w1. split; [done|].
  destruct (creation_failure_rejects_and_reverts None None
              (LocalStream (sampleLocalStreamState 7)) None sampleWorld k w1
              (Error "no camera") w1 Hrun) as (key & Hkey & Hrej & Hreg).
  split; [exact Hrej|].
  injection Hkey as <-. exact Hreg.
Defined.

Lemma disposeView_local_ignores_stream_witness :
  truthyString (Some "c1") = Some "c1" ∧
  disposeView (Some "c1") None (LocalStream (sampleLocalStreamState 7)) sampleRenderedWorld
    = disposeView (Some "c1") None (LocalStream (sampleLocalStreamState 8)) sampleRenderedWorld ∧
  localViewOf
    (context (disposeView (Some "c1") None (LocalStream (sampleLocalStreamState 7))
                sampleRenderedWorld)) "c1"
    = None ∧
  getLocalRenderInfo
    (internalContext (disposeView (Some "c1") None (LocalStream (sampleLocalStreamState 7))
                        sampleRenderedWorld)) "c1"
    = Some (mkRenderInfo sampleSdkLocalStream NotRendered None) ∧
  disposeCount (disposeView (Some "c1") None (LocalStream (sampleLocalStreamState 7))
                  sampleRenderedWorld) sampleLocalRenderer1
    = 1 ∧
  disposeCount (disposeView (Some "c1") None (LocalStream (sampleLocalStreamState 7))
                  sampleRenderedWorld) sampleRemoteRenderer
    = 0.
Proof.
  split; [reflexivity|].
  destruct (disposeView_local_ignores_stream (Some "c1") None
              (sampleLocalStreamState 7) (sampleLocalStreamState 8)
              sampleRenderedWorld "c1" eq_refl)
    as (Hsame & _ & Hview & Hentry & Hcount & _).
  split; [exact Hsame|]. split; [exact Hview|]. split; [exact Hentry|].
  split; [exact (Hcount sampleLocalRenderer1)|exact (Hcount sampleRemoteRenderer)].
Defined.

(** C10 as stated fails for a [callId] that is defined but empty: the call
    is then keyed by the stream object.  Given the stream the registry has
    an entry for, [disposeView] disposes that entry's renderer and deletes
    the entry; given another stream it disposes nothing; and either way the
    local entry and the local view of the call are as they were. *)
Lemma disposeView_empty_call_id_keyed_by_stream :
  disposeCount (disposeView (Some "") None (LocalStream (sampleLocalStreamState 7))
                  sampleEmptyCallIdWorld) sampleUnparentedRenderer
    = 1 ∧
  disposeCount (disposeView (Some "") None (LocalStream (sampleLocalStreamState 8))
                  sampleEmptyCallIdWorld) sampleUnparentedRenderer
    = 0 ∧
  getUnparentedRenderInfo
    (internalContext (disposeView (Some "") None (LocalStream (sampleLocalStreamState 7))
                        sampleEmptyCallIdWorld)) (sampleLocalStreamState 7)
    = None ∧
  getUnparentedRenderInfo
    (internalContext (disposeView (Some "") None (LocalStream (sampleLocalStreamState 8))
                        sampleEmptyCallIdWorld)) (sampleLocalStreamState 7)
    = Some (mkRenderInfo sampleSdkLocalStream Rendered (Some sampleUnparentedRenderer)) ∧
  getLocalRenderInfo
    (internalContext (disposeView (Some "") None (LocalStream (sampleLocalStreamState 7))
                        sampleEmptyCallIdWorld)) ""
    = Some (mkRenderInfo sampleSdkLocalStream Rendered (Some sampleLocalRenderer1)) ∧
  localViewOf
    (context (disposeView (Some "") None (LocalStream (sampleLocalStreamState 7))
                sampleEmptyCallIdWorld)) ""
    = Some 8 ∧
  disposeCount (disposeView (Some "") None (LocalStream (sampleLocalStreamState 7))
                  sampleEmptyCallIdWorld) sampleLocalRenderer1
    = 0.
Proof. repeat split; vm_compute; reflexivity. Qed.

Lemma getDeviceManager_single_instance_witness :
  (@getDeviceManagerCalls sampleImports sampleDeviceManagerDeclarative
     [inr (Error "no device access"); inl 5; inl 5; inl 6; inl 5]
     (mkClientWorld newProxyCallClient sampleState 0)).1
    = [inr (Error "no device access");
       inl (Some (mkDeclarativeDeviceManager 0 5));
       inl (Some (mkDeclarativeDeviceManager 0 5));
       inr (Error multipleDeviceManagerMessage);
       inl (Some (mkDeclarativeDeviceManager 0 5))] ∧
  nextDeclarativeRef
    (@getDeviceManagerCalls sampleImports sampleDeviceManagerDeclarative
       [inr (Error "no device access"); inl 5; inl 5; inl 6; inl 5]
       (mkClientWorld newProxyCallClient sampleState 0)).2
    = 1.
Proof.
  destruct (@getDeviceManager_single_instance sampleImports sampleDeviceManagerDeclarative
              [Error "no device access"] 5 [inl 5; inl 6; inl 5] sampleState 0)
    as (Hanswers & _ & Hmade & _).
  split; [exact Hanswers|exact Hmade].
Defined.

Lemma invalid_combination_warns_and_returns_empty_witness :
  returnsEmptyUntouched
    (createView (Some "c1") None (RemoteStream sampleRemoteStreamState) None sampleWorld)
    sampleWorld ∧
  disposeView (Some "c1") None (RemoteStream sampleRemoteStreamState) sampleWorld
    = consoleWarn "Invalid combination of parameters" sampleWorld.
Proof.
  destruct (invalid_combination_warns_and_returns_empty
              (Some "c1") None (RemoteStream sampleRemoteStreamState) None sampleWorld)
    as (Hcreate & _ & Hdispose).
  - simpl. intros (_ & _ & [x Hx]). discriminate Hx.
  - simpl. intros [Hid _]. by apply Hid.
  - simpl. intros [Hid _]. by apply Hid.
  - split; [exact Hcreate|exact Hdispose].
Defined.

(** C7 as stated fails: the caller of [createView] with a stream that has an
    [id], a [callId] and no [participantId] gets a promise fulfilled with
    [undefined], not an error: the very result of a well-formed request for a
    stream the registry does not know. *)
Lemma invalid_combination_not_surfaced_to_caller :
  (createView (Some "c1") None (RemoteStream sampleRemoteStreamState) None sampleWorld).1
    = Fulfilled None ∧
  (createView (Some "c9") (Some (ParticipantKey "p1")) (RemoteStream sampleRemoteStreamState)
     None sampleWorld).1
    = Fulfilled None.
Proof. split; vm_compute; reflexivity. Qed.

Lemma disposeAllViewsFromCall_stops_every_entry_witness :
  getRemoteRenderInfoForParticipant
    (internalContext (disposeAllViewsFromCall "c1" sampleRenderedWorld)) "c1" "p1" 1
    = Some (mkRenderInfo sampleSdkRemoteStream NotRendered None) ∧
  registryRenderer (internalContext (disposeAllViewsFromCall "c1" sampleRenderedWorld))
    (LocalKey "c1") = None ∧
  remoteViewOf (context (disposeAllViewsFromCall "c1" sampleRenderedWorld)) "c1" "p1" 1
    = None ∧
  disposeCount (disposeAllViewsFromCall "c1" sampleRenderedWorld) sampleRemoteRenderer = 1 ∧
  disposeCount (disposeAllViewsFromCall "c1" sampleRenderedWorld) sampleLocalRenderer1 = 1.
Proof.
  destruct (disposeAllViewsFromCall_stops_every_entry "c1" sampleRenderedWorld)
    as (Hremote & _ & _ & Hlocal & Hview & _ & Hcount & _).
  - discriminate.
  - intros participantKey streamKey info.
    unfold getRemoteRenderInfoForParticipant; simpl.
    rewrite lookup_singleton_eq.
    intros Hget.
    destruct (({[ "p1" := {[ 1%Z := _ ]} ]} : gmap string _) !! participantKey)
      as [streams|] eqn:Hp; [|discriminate].
    apply lookup_singleton_Some in Hp as [<- <-].
    apply lookup_singleton_Some in Hget as [<- <-].
    split; [discriminate|reflexivity].
  - split; [exact (Hremote "p1" 1%Z)|]. split; [exact Hlocal|].
    split; [apply Hview; by eexists|].
    split; [exact (Hcount sampleRemoteRenderer)|exact (Hcount sampleLocalRenderer1)].
Defined.

(** C8 as stated fails: after [disposeAllViewsFromCall] the registry still
    has the call's remote entry and its local entry. *)
Lemma disposeAllViewsFromCall_keeps_entries :
  getRemoteRenderInfoForParticipant
    (internalContext (disposeAllViewsFromCall "c1" sampleRenderedWorld)) "c1" "p1" 1
    = Some (mkRenderInfo sampleSdkRemoteStream NotRendered None) ∧
  getLocalRenderInfo (internalContext (disposeAllViewsFromCall "c1" sampleRenderedWorld)) "c1"
    = Some (mkRenderInfo sampleSdkLocalStream NotRendered None).
Proof. split; vm_compute; reflexivity. Qed.

(** ** Runs that end with a renderer disposed twice, or never *)

(** C2: [createViewLocalVideo] writes [Rendering] together with the renderer
    it has just made (line 177), where [createViewRemoteVideo] (line 79) and
    [createViewUnparentedVideo] (line 249) write no renderer. *)
Theorem createViewLocalVideo_rendering_entry_holds_renderer :
  ∃ k w1,
    createView (Some "c1") None (LocalStream (sampleLocalStreamState 7)) None sampleWorld
      = (Pending k, w1) ∧
    getLocalRenderInfo (internalContext w1) "c1"
      = Some (mkRenderInfo sampleSdkLocalStream Rendering (Some sampleLocalRenderer)) ∧
    ∃ k' w1',
      createView (Some "c1") (Some (ParticipantKey "p1"))
        (RemoteStream sampleRemoteStreamState) None sampleWorld = (Pending k', w1') ∧
      getRemoteRenderInfoForParticipant (internalContext w1') "c1" "p1" 1
        = Some (mkRenderInfo sampleSdkRemoteStream Rendering None).
Proof.
  eexists _, _. split; [vm_compute; reflexivity|]. split; [vm_compute; reflexivity|].
  eexists _, _. split; vm_compute; reflexivity.
Qed.

(** C3: a [disposeView] that finds the local entry [Rendering] disposes the
    renderer of the creation in flight, and the creation disposes it again
    when it resumes and finds [Stopping]. *)
Theorem local_renderer_disposed_twice :
  ∃ k w1,
    createView (Some "c1") None (LocalStream (sampleLocalStreamState 7)) None sampleWorld
      = (Pending k, w1) ∧
    pendingRenderer k = sampleLocalRenderer ∧
    let w2 := disposeView (Some "c1") None (LocalStream (sampleLocalStreamState 7)) w1 in
    registryStatus (internalContext w2) (LocalKey "c1") = Some Stopping ∧
    disposeCount w2 sampleLocalRenderer = 1 ∧
    (resumeCreateView k (inl 7) w2).1 = Fulfilled None ∧
    disposeCount (resumeCreateView k (inl 7) w2).2 sampleLocalRenderer = 2.
Proof.
  eexists _, _. split; [vm_compute; reflexivity|].
  split; [reflexivity|]. split_and!; vm_compute; reflexivity.
Qed.

(** C1: when the creation of an unparented view resumes and finds
    [Stopping], it deletes the entry and the view and returns empty, and the
    renderer it made has received no [dispose] call, neither from
    [disposeView] nor from the resumption (lines 274 to 281). *)
Theorem unparented_renderer_never_disposed :
  ∃ k w1,
    createView None None (LocalStream (sampleLocalStreamState 7)) None sampleWorld
      = (Pending k, w1) ∧
    let w2 := disposeView None None (LocalStream (sampleLocalStreamState 7)) w1 in
    registryStatus (internalContext w2) (UnparentedKey (sampleLocalStreamState 7))
      = Some Stopping ∧
    (resumeCreateView k (inl 7) w2).1 = Fulfilled None ∧
    registryStatus (internalContext (resumeCreateView k (inl 7) w2).2)
      (UnparentedKey (sampleLocalStreamState 7)) = None ∧
    publishedView (context (resumeCreateView k (inl 7) w2).2)
      (UnparentedKey (sampleLocalStreamState 7)) = None ∧
    disposeCount (resumeCreateView k (inl 7) w2).2 (pendingRenderer k) = 0.
Proof.
  eexists _, _. split; [vm_compute; reflexivity|].
  split_and!; vm_compute; reflexivity.
Qed.

(** ** Runs for the rest *)

Lemma disposeView_leaves_key_stopped_witness :
  registryStatus
    (internalContext
       (disposeView (Some "c1") (Some (ParticipantKey "p1"))
          (RemoteStream sampleRemoteStreamState) sampleRenderedWorld))
    (RemoteKey "c1" "p1" 1) = Some NotRendered ∧
  registryRenderer
    (internalContext
       (disposeView (Some "c1") (Some (ParticipantKey "p1"))
          (RemoteStream sampleRemoteStreamState) sampleRenderedWorld))
    (RemoteKey "c1" "p1" 1) = None.
Proof.
  destruct (disposeView_leaves_key_stopped (Some "c1") (Some (ParticipantKey "p1"))
              (RemoteStream sampleRemoteStreamState) sampleRenderedWorld
              (RemoteKey "c1" "p1" 1) eq_refl) as (Hst & Hr & _).
  split; [exact Hst|exact Hr].
Defined.

Lemma disposeView_disposes_what_the_entry_held_witness :
  disposeCount
    (disposeView (Some "c1") (Some (ParticipantKey "p1"))
       (RemoteStream sampleRemoteStreamState) sampleRenderedWorld)
    sampleRemoteRenderer = 1 ∧
  disposeCount
    (disposeView (Some "c1") (Some (ParticipantKey "p1"))
       (RemoteStream sampleRemoteStreamState) sampleRenderedWorld)
    sampleLocalRenderer1 = 0.
Proof.
  split.
  - exact (disposeView_disposes_what_the_entry_held (Some "c1") (Some (ParticipantKey "p1"))
             (RemoteStream sampleRemoteStreamState) sampleRenderedWorld
             (RemoteKey "c1" "p1" 1) sampleRemoteRenderer eq_refl).
  - exact (disposeView_disposes_what_the_entry_held (Some "c1") (Some (ParticipantKey "p1"))
             (RemoteStream sampleRemoteStreamState) sampleRenderedWorld
             (RemoteKey "c1" "p1" 1) sampleLocalRenderer1 eq_refl).
Defined.


Lemma lifecycle_touches_only_its_key_witness :
  getLocalRenderInfo
    (internalContext
       (disposeView (Some "c1") (Some (ParticipantKey "p1"))
          (RemoteStream sampleRemoteStreamState) sampleRenderedWorld)) "c1"
  = Some (mkRenderInfo sampleSdkLocalStream Rendered (Some sampleLocalRenderer1)).
Proof.
  destruct (lifecycle_touches_only_its_key (Some "c1") (Some (ParticipantKey "p1"))
              (RemoteStream sampleRemoteStreamState) None sampleRenderedWorld
              (RemoteKey "c1" "p1" 1) eq_refl) as (_ & (_ & Hlocal & _) & _).
  rewrite (Hlocal "c1"); [reflexivity|discriminate].
Defined.

Lemma createView_without_entry_call_scoped_witness :
  returnsEmptyUntouched
    (createView (Some "c9") None (LocalStream (sampleLocalStreamState 7)) None sampleWorld)
    sampleWorld.
Proof.
  destruct (createView_without_entry_call_scoped (Some "c9") None
              (LocalStream (sampleLocalStreamState 7)) None sampleWorld (LocalKey "c9")
              eq_refl) as [Hempty _]; [discriminate|reflexivity|exact Hempty].
Defined.

Lemma successful_creation_commits_rendered_witness :
  ∃ k w1,
    createView None None (LocalStream (sampleLocalStreamState 7)) None sampleWorld
      = (Pending k, w1) ∧
    registryStatus (internalContext (resumeCreateView k (inl 7) w1).2)
      (UnparentedKey (sampleLocalStreamState 7)) = Some Rendered ∧
    publishedView (context (resumeCreateView k (inl 7) w1).2)
      (UnparentedKey (sampleLocalStreamState 7)) = Some 7.
Proof.
  destruct (createView None None (LocalStream (sampleLocalStreamState 7)) None sampleWorld)
    as [p w1] eqn:Hrun.
  assert (∃ k, p = Pending k ∧
               suspensionKey k = UnparentedKey (sampleLocalStreamState 7)) as (k & -> & Hkey).
  { vm_compute in Hrun. injection Hrun as <- _. by eexists. }
  assert (registryStatus (internalContext w1) (suspensionKey k) = Some Rendering) as Hst.
  { rewrite Hkey. vm_compute in Hrun. injection Hrun as _ <-. reflexivity. }
  exists k, w1. split; [done|].
  destruct (successful_creation_commits_rendered None None
              (LocalStream (sampleLocalStreamState 7)) None sampleWorld k w1 7 w1
              Rendering Hrun Hst) as (_ & _ & Hst2 & _ & _ & Hview); [discriminate|].
  rewrite Hkey in Hst2, Hview. split; [exact Hst2|by apply Hview].
Defined.

Lemma successful_creation_without_entry_discards_witness :
  ∃ k w1,
    createView None None (LocalStream (sampleLocalStreamState 7)) None sampleWorld
      = (Pending k, w1) ∧
    (resumeCreateView k (inl 7) sampleWorld).1 = Fulfilled None ∧
    disposeCount (resumeCreateView k (inl 7) sampleWorld).2 (pendingRenderer k) = 1.
Proof.
  destruct (createView None None (LocalStream (sampleLocalStreamState 7)) None sampleWorld)
    as [p w1] eqn:Hrun.
  assert (∃ k, p = Pending k ∧
               suspensionKey k = UnparentedKey (sampleLocalStreamState 7)) as (k & -> & Hkey).
  { vm_compute in Hrun. injection Hrun as <- _. by eexists. }
  exists k, w1. split; [done|].
  destruct (successful_creation_without_entry_discards None None
              (LocalStream (sampleLocalStreamState 7)) None sampleWorld k w1 7 sampleWorld
              Hrun) as (_ & Hres & _ & _ & Hd & _); [by rewrite Hkey|].
  split; [exact Hres|exact Hd].
Defined.

Lemma create_then_dispose_uses_renderer_once_witness :
  ∃ k w1,
    createView (Some "c1") (Some (ParticipantKey "p1")) (RemoteStream sampleRemoteStreamState)
      None sampleWorld = (Pending k, w1) ∧
    disposeCount
      (disposeView (Some "c1") (Some (ParticipantKey "p1"))
         (RemoteStream sampleRemoteStreamState) (resumeCreateView k (inl 7) w1).2)
      (pendingRenderer k) = 1.
Proof.
  destruct (createView (Some "c1") (Some (ParticipantKey "p1"))
              (RemoteStream sampleRemoteStreamState) None sampleWorld) as [p w1] eqn:Hrun.
  assert (∃ k, p = Pending k) as [k ->].
  { vm_compute in Hrun. injection Hrun as <- _. by eexists. }
  exists k, w1. split; [done|].
  exact (proj1 (proj2 (create_then_dispose_uses_renderer_once
                         (Some "c1") (Some (ParticipantKey "p1"))
                         (RemoteStream sampleRemoteStreamState) None sampleWorld k w1 7
                         Hrun))).
Defined.

Lemma second_disposeView_revives_creation_witness :
  ∃ k w1,
    createView (Some "c1") (Some (ParticipantKey "p1")) (RemoteStream sampleRemoteStreamState)
      None sampleWorld = (Pending k, w1) ∧
    let w3 := disposeView (Some "c1") (Some (ParticipantKey "p1"))
                (RemoteStream sampleRemoteStreamState)
                (disposeView (Some "c1") (Some (ParticipantKey "p1"))
                   (RemoteStream sampleRemoteStreamState) w1) in
    (resumeCreateView k (inl 7) w3).1
      = Fulfilled (Some (mkCreateViewResult (pendingRenderer k) 7)) ∧
    publishedView (context (resumeCreateView k (inl 7) w3).2) (RemoteKey "c1" "p1" 1)
      = Some 7.
Proof.
  destruct (createView (Some "c1") (Some (ParticipantKey "p1"))
              (RemoteStream sampleRemoteStreamState) None sampleWorld) as [p w1] eqn:Hrun.
  assert (∃ k, p = Pending k ∧ suspensionKey k = RemoteKey "c1" "p1" 1) as (k & -> & Hkey).
  { vm_compute in Hrun. injection Hrun as <- _. by eexists. }
  exists k, w1. split; [done|].
  destruct (second_disposeView_revives_creation (Some "c1") (Some (ParticipantKey "p1"))
              (RemoteStream sampleRemoteStreamState) None sampleWorld k w1 7 Hrun)
    as (_ & _ & Hres & _ & _ & Hview).
  { rewrite Hkey. discriminate. }
  rewrite Hkey in Hview. split; [exact Hres|].
  apply Hview. by eexists.
Defined.

Lemma second_disposeView_unparented_discards_witness :
  ∃ k w1,
    createView None None (LocalStream (sampleLocalStreamState 7)) None sampleWorld
      = (Pending k, w1) ∧
    let w3 := disposeView None None (LocalStream (sampleLocalStreamState 7))
                (disposeView None None (LocalStream (sampleLocalStreamState 7)) w1) in
    (resumeCreateView k (inl 7) w3).1 = Fulfilled None ∧
    disposeCount (resumeCreateView k (inl 7) w3).2 (pendingRenderer k) = 1.
Proof.
  destruct (createView None None (LocalStream (sampleLocalStreamState 7)) None sampleWorld)
    as [p w1] eqn:Hrun.
  assert (∃ k, p = Pending k ∧
               suspensionKey k = UnparentedKey (sampleLocalStreamState 7)) as (k & -> & Hkey).
  { vm_compute in Hrun. injection Hrun as <- _. by eexists. }
  exists k, w1. split; [done|].
  destruct (second_disposeView_unparented_discards None None
              (LocalStream (sampleLocalStreamState 7)) None sampleWorld k w1 7
              (sampleLocalStreamState 7) Hrun Hkey) as (_ & _ & Hres & _ & _ & Hd).
  split; [exact Hres|exact Hd].
Defined.

Lemma createView_can_be_retried_after_failure_witness :
  ∃ k w1 k' w3,
    createView (Some "c1") None (LocalStream (sampleLocalStreamState 7)) None sampleWorld
      = (Pending k, w1) ∧
    createView (Some "c1") None (LocalStream (sampleLocalStreamState 7)) None
      (resumeCreateView k (inr (Error "no camera")) w1).2 = (Pending k', w3).
Proof.
  destruct (createView (Some "c1") None (LocalStream (sampleLocalStreamState 7)) None
              sampleWorld) as [p w1] eqn:Hrun.
  assert (∃ k, p = Pending k) as [k ->].
  { vm_compute in Hrun. injection Hrun as <- _. by eexists. }
  destruct (createView_can_be_retried_after_failure (Some "c1") None
              (LocalStream (sampleLocalStreamState 7)) None sampleWorld k w1
              (Error "no camera") w1 Hrun) as (k' & w3 & Hretry & _).
  exists k, w1, k', w3. split; [done|exact Hretry].
Defined.

Lemma sampleInternalContext_consistent :
  remoteAndUnparentedConsistent sampleInternalContext.
Proof.
  split.
  - intros c pk sid info. unfold getRemoteRenderInfoForParticipant; simpl.
    destruct (({[ "c1" := _ ]} : gmap string _) !! c) as [pm|] eqn:Hc; [|done].
    apply lookup_singleton_Some in Hc as [<- <-].
    destruct (({[ "p1" := _ ]} : gmap string _) !! pk) as [sm|] eqn:Hp; [|done].
    apply lookup_singleton_Some in Hp as [<- <-].
    intros [<- <-]%lookup_singleton_Some.
    split; [done|]. by intros [? ?].
  - intros s info. unfold getUnparentedRenderInfo; simpl. by rewrite lookup_empty.
Qed.

Lemma sampleWorld_nothingRendered : nothingRendered (mkClient sampleWorld []).
Proof.
  split_and!; try done.
  intros [c pk sid|ref]; simpl; [|by rewrite lookup_empty].
  unfold getRemoteRenderInfoForParticipant; simpl.
  destruct (({[ "c1" := _ ]} : gmap string _) !! c) as [pm|] eqn:Hc; [|done].
  apply lookup_singleton_Some in Hc as [<- <-].
  destruct (({[ "p1" := _ ]} : gmap string _) !! pk) as [sm|] eqn:Hp; [|done].
  apply lookup_singleton_Some in Hp as [<- <-].
  destruct (({[ 1%Z := _ ]} : gmap Z _) !! sid) as [info|] eqn:Hs; [|done].
  by apply lookup_singleton_Some in Hs as [<- <-].
Qed.

Lemma sampleRenderedWorld_keyed :
  keyedByStreamId (internalContext sampleRenderedWorld) "c1".
Proof.
  intros pk sk info. unfold getRemoteRenderInfoForParticipant; simpl.
  rewrite lookup_singleton_eq.
  destruct (({[ "p1" := _ ]} : gmap string _) !! pk) as [sm|] eqn:Hp; [|done].
  apply lookup_singleton_Some in Hp as [<- <-].
  intros [<- <-]%lookup_singleton_Some. done.
Qed.

Lemma remote_and_unparented_entries_stay_consistent_witness :
  remoteAndUnparentedConsistent
    (internalContext
       (world
          (lifecycleRun (mkClient sampleWorld [])
             [CallCreateView (Some "c1") (Some (ParticipantKey "p1"))
                (RemoteStream sampleRemoteStreamState) None;
              CallDisposeView (Some "c1") (Some (ParticipantKey "p1"))
                (RemoteStream sampleRemoteStreamState);
              SettleCreation 0 (inl 7)]))).
Proof.
  apply (remote_and_unparented_entries_stay_consistent (mkClient sampleWorld [])).
  exact sampleInternalContext_consistent.
Defined.

Lemma no_renderer_disposed_twice_witness :
  (disposeCount
     (world
        (lifecycleRun (mkClient sampleWorld [])
           [CallCreateView (Some "c1") (Some (ParticipantKey "p1"))
              (RemoteStream sampleRemoteStreamState) None;
            CallDisposeView (Some "c1") (Some (ParticipantKey "p1"))
              (RemoteStream sampleRemoteStreamState);
            SettleCreation 0 (inl 7);
            CallDisposeView (Some "c1") (Some (ParticipantKey "p1"))
              (RemoteStream sampleRemoteStreamState)]))
     sampleRemoteRenderer ≤ 1)%nat.
Proof.
  apply (no_renderer_disposed_twice (mkClient sampleWorld [])).
  - exact sampleWorld_nothingRendered.
  - repeat constructor; intros c0; discriminate.
Defined.

Lemma disposeAllViews_clears_listed_calls_witness :
  callHoldsNoRenderer
    (internalContext (disposeAllViews (λ _, ["c1"]) sampleRenderedWorld)) "c1".
Proof.
  destruct (disposeAllViews_clears_listed_calls (λ _, ["c1"]) sampleRenderedWorld)
    as [Hlisted _].
  - apply NoDup_singleton.
  - intros c ->%list_elem_of_singleton. split; [discriminate|].
    exact sampleRenderedWorld_keyed.
  - apply Hlisted. by apply list_elem_of_singleton.
Defined.

Lemma createView_suspends_when_not_rendered_witness :
  ∃ k w1,
    createView (Some "c1") (Some (ParticipantKey "p1")) (RemoteStream sampleRemoteStreamState)
      None sampleWorld = (Pending k, w1) ∧
    registryStatus (internalContext w1) (RemoteKey "c1" "p1" 1) = Some Rendering.
Proof.
  destruct (proj1 (createView_suspends_when_not_rendered
                     (Some "c1") (Some (ParticipantKey "p1"))
                     (RemoteStream sampleRemoteStreamState) None sampleWorld
                     (RemoteKey "c1" "p1" 1) eq_refl)) as (k & w1 & Hp & _ & _ & _ & Hst).
  - left. reflexivity.
  - exists k, w1. split; [exact Hp|exact Hst].
Defined.

Lemma withTelemetryTag_appends_application_id_witness :
  tagsOf
    (Some (withTelemetryTag "acr/1.0"
             (Some (mkCallClientOptions None (Some (mkDiagnosticsOptions None None (Some 3)))))
             {[ 3 := ["team-a"] ]}).1)
    (withTelemetryTag "acr/1.0"
       (Some (mkCallClientOptions None (Some (mkDiagnosticsOptions None None (Some 3)))))
       {[ 3 := ["team-a"] ]}).2
  = Some ["team-a"; "acr/1.0"].
Proof.
  refine (proj1 (withTelemetryTag_appends_application_id "acr/1.0"
                   (Some (mkCallClientOptions None
                            (Some (mkDiagnosticsOptions None None (Some 3)))))
                   {[ 3 := ["team-a"] ]} _)).
  intros ref [= <-]. by eexists.
Defined.

Lemma withTelemetryTag_twice_shares_the_array_witness :
  tagsOf (Some (mkCallClientOptions None (Some (mkDiagnosticsOptions None None (Some 3)))))
    (withTelemetryTag "acr/1.0"
       (Some (mkCallClientOptions None (Some (mkDiagnosticsOptions None None (Some 3)))))
       (withTelemetryTag "acr/1.0"
          (Some (mkCallClientOptions None (Some (mkDiagnosticsOptions None None (Some 3)))))
          {[ 3 := ["team-a"] ]}).2).2
  = Some ["team-a"; "acr/1.0"; "acr/1.0"].
Proof.
  exact (proj1 (withTelemetryTag_twice_shares_the_array "acr/1.0"
                  (mkCallClientOptions None (Some (mkDiagnosticsOptions None None (Some 3))))
                  {[ 3 := ["team-a"] ]} 3 ["team-a"] eq_refl eq_refl)).
Defined.
